(** * backcountry-map-tools: bounding box to tile set pipeline

    A shallow embedding of [lib/bbox.py], [lib/dem_utils.py],
    [lib/download_utils.py] and [lib/gpkg_utils.py].

    - Python [str] values are [string]s; one [ascii] stands for one code
      point below 256.
    - Python [float] coordinates are rationals [Q]: every finite double is
      a rational number and [math.floor] is exact on it.
    - The file system is a finite map from paths to nodes, threaded through
      the code together with the log of HTTP requests, the log of spawned
      commands, the printed lines and a log of the calls of
      [_process_quad].
    - The network, the GDAL tools, the zip reader, the OGR driver and the
      float formatting are the fields of an environment [Env]; every
      theorem holds for every environment.
    - Exceptions are a second kind of result; state changes made before a
      [raise] stay in place. *)

From Stdlib Require Import ZArith QArith Qround List Ascii String.
From Stdlib Require Import DecimalString DecimalN.
From stdpp Require Import gmap strings list.

Local Open Scope Z_scope.

(** ** Python string operations *)

Module PyStr.

Definition code (c : ascii) : nat := nat_of_ascii c.

(** [str.isspace] on one code point below 256. *)
Definition is_space (c : ascii) : bool :=
  let n := code c in
  ((9 <=? n)%nat && (n <=? 13)%nat) || ((28 <=? n)%nat && (n <=? 32)%nat)
  || (n =? 133)%nat || (n =? 160)%nat.

Definition is_digit (c : ascii) : bool :=
  let n := code c in (48 <=? n)%nat && (n <=? 57)%nat.

Definition is_empty (s : string) : bool :=
  match s with EmptyString => true | String _ _ => false end.

Fixpoint lstrip (s : string) : string :=
  match s with
  | EmptyString => EmptyString
  | String c r => if is_space c then lstrip r else s
  end.

Fixpoint rstrip (s : string) : string :=
  match s with
  | EmptyString => EmptyString
  | String c r =>
      let r' := rstrip r in
      if is_space c && is_empty r' then EmptyString else String c r'
  end.

(** [s.strip()] *)
Definition strip (s : string) : string := rstrip (lstrip s).

Fixpoint map_chars (f : ascii -> ascii) (s : string) : string :=
  match s with
  | EmptyString => EmptyString
  | String c r => String (f c) (map_chars f r)
  end.

(** [s.replace(old, new)] for one-character [old] and [new]. *)
Definition replace (old new : ascii) (s : string) : string :=
  map_chars (fun c => if Ascii.eqb c old then new else c) s.

Definition upper_char (c : ascii) : ascii :=
  let n := code c in
  if (97 <=? n)%nat && (n <=? 122)%nat then ascii_of_nat (n - 32) else c.

Definition lower_char (c : ascii) : ascii :=
  let n := code c in
  if (65 <=? n)%nat && (n <=? 90)%nat then ascii_of_nat (n + 32) else c.

(** [s.upper()] and [s.lower()] on the ASCII letters. *)
Definition upper (s : string) : string := map_chars upper_char s.
Definition lower (s : string) : string := map_chars lower_char s.

(** [s.split(sep)] for a one-character separator: never empty. *)
Fixpoint split (sep : ascii) (s : string) : list string :=
  match s with
  | EmptyString => [EmptyString]
  | String c r =>
      if Ascii.eqb c sep then EmptyString :: split sep r
      else match split sep r with
           | h :: t => String c h :: t
           | [] => [String c EmptyString]
           end
  end.

(** [l[0]] on the result of a split. *)
Definition item0 (l : list string) : string :=
  match l with h :: _ => h | [] => EmptyString end.

Definition startswith (s p : string) : bool := String.prefix p s.

Fixpoint rev_str (s : string) : string :=
  match s with
  | EmptyString => EmptyString
  | String c r => rev_str r +:+ String c EmptyString
  end.

Definition endswith (s p : string) : bool :=
  String.prefix (rev_str p) (rev_str s).

Fixpoint contains_char (c : ascii) (s : string) : bool :=
  match s with
  | EmptyString => false
  | String d r => Ascii.eqb d c || contains_char c r
  end.

Fixpoint all_chars (p : ascii -> bool) (s : string) : bool :=
  match s with
  | EmptyString => true
  | String c r => p c && all_chars p r
  end.

Fixpoint repeat_char (c : ascii) (n : nat) : string :=
  match n with
  | O => EmptyString
  | S k => String c (repeat_char c k)
  end.

(** [str(n)] for a non-negative integer. *)
Definition digits_of (n : N) : string :=
  NilEmpty.string_of_uint (N.to_uint n).

Definition zfill (width : nat) (s : string) : string :=
  repeat_char "0" (width - String.length s) +:+ s.

(** The format specification [:0<width>d]. *)
Definition format_0d (width : nat) (z : Z) : string :=
  if z <? 0 then String "-" (zfill (width - 1) (digits_of (Z.abs_N z)))
  else zfill width (digits_of (Z.to_N z)).

(** [str(z)] for an integer. *)
Definition str_int (z : Z) : string := format_0d 0 z.

(** The number a run of decimal digits stands for (0 when it is none). *)
Definition value_of (s : string) : N :=
  match NilEmpty.uint_of_string s with
  | Some u => N.of_uint u
  | None => 0%N
  end.

End PyStr.

(** ** [posixpath] *)

Module OsPath.
Import PyStr.

Definition sep : ascii := "/".

(** [os.path.join(a, b)] *)
Definition join (a b : string) : string :=
  if startswith b "/" then b
  else if is_empty a || endswith a "/" then a +:+ b
  else a +:+ "/" +:+ b.

(** [(p[:i], p[i:])] with [i = p.rfind('/') + 1]. *)
Fixpoint rsplit_slash (p : string) : string * string :=
  match p with
  | EmptyString => (EmptyString, EmptyString)
  | String c r =>
      let '(h, t) := rsplit_slash r in
      if is_empty h then
        if Ascii.eqb c sep then (String c EmptyString, t)
        else (EmptyString, String c t)
      else (String c h, t)
  end.

Fixpoint rstrip_slash (s : string) : string :=
  match s with
  | EmptyString => EmptyString
  | String c r =>
      let r' := rstrip_slash r in
      if Ascii.eqb c sep && is_empty r' then EmptyString else String c r'
  end.

(** [os.path.dirname(p)] *)
Definition dirname (p : string) : string :=
  let head := fst (rsplit_slash p) in
  if is_empty head || all_chars (Ascii.eqb sep) head then head
  else rstrip_slash head.

(** [os.path.basename(p)] *)
Definition basename (p : string) : string := snd (rsplit_slash p).

(** [(s[:i], s[i:])] with [i] the index of the last dot of [s], when
    there is one. *)
Fixpoint rsplit_dot (s : string) : option (string * string) :=
  match s with
  | EmptyString => None
  | String c r =>
      match rsplit_dot r with
      | Some (h, t) => Some (String c h, t)
      | None => if Ascii.eqb c "." then Some (EmptyString, s) else None
      end
  end.

Fixpoint lstrip_dots (s : string) : string * string :=
  match s with
  | String "." r => let '(d, t) := lstrip_dots r in (String "." d, t)
  | _ => (EmptyString, s)
  end.

(** [os.path.splitext(name)[0]] for a name without a slash: the leading
    dots of the name never start an extension. *)
Definition splitext_root (name : string) : string :=
  let '(dots, body) := lstrip_dots name in
  match rsplit_dot body with
  | Some (h, _) => if is_empty h then name else dots +:+ h
  | None => name
  end.

End OsPath.

(** ** [lib/bbox.py] *)

Record BoundingBox := mkBoundingBox {
  xmin : Q;
  ymin : Q;
  xmax : Q;
  ymax : Q
}.

(** ** [lib/dem_utils.py]: tile naming and enumeration *)

Module TileGrid.
Import PyStr.

Definition USGS_BASE : string :=
  "https://prd-tnm.s3.amazonaws.com/StagedProducts/Elevation/1/TIFF/current".

Definition tile_name (lat lon : Z) : string :=
  let lat_prefix := if 0 <=? lat then "n" else "s" in
  let lon_prefix := if 0 <=? lon then "e" else "w" in
  lat_prefix +:+ format_0d 2 (Z.abs lat)
    +:+ lon_prefix +:+ format_0d 3 (Z.abs lon).

Definition tile_url (tile_key : string) : string :=
  USGS_BASE +:+ "/" +:+ tile_key +:+ "/USGS_1_" +:+ tile_key +:+ ".tif".

(** [range(a, b)] *)
Definition py_range (a b : Z) : list Z :=
  map (fun i => a + Z.of_nat i) (seq 0 (Z.to_nat (b - a))).

(** The two nested loops, each appending to the list built so far. *)
Definition tiles_for_bbox (bbox : BoundingBox) : list string :=
  let lon_start := Qfloor (xmin bbox) in
  let lon_end := Qfloor (xmax bbox) in
  let lat_start := Qfloor (ymin bbox) in
  let lat_end := Qfloor (ymax bbox) in
  fold_left
    (fun tiles lat =>
       fold_left (fun tiles lon => tiles ++ [tile_name lat lon])
                 (py_range lon_start (lon_end + 1)) tiles)
    (py_range lat_start (lat_end + 1)) [].

End TileGrid.

(** ** The world the code runs in *)

Inductive node :=
| File (data : string)
| Dir.

(** An HTTP exchange as [requests.get(url, stream=True)] and
    [iter_content] see it. *)
Inductive response :=
| NoResponse (why : string)
    (* the request raises ConnectionError, Timeout, ... *)
| Response (status : Z) (reason : string) (content_length : option Z)
           (chunks : list string) (broken : option string).
    (* the body arrives as [chunks]; with [broken = Some why] the stream
       then raises ChunkedEncodingError or ConnectionError *)

Record feature := mkFeature {
  CELL_NAME : option string;
  STATE_ALPHA : option string
}.

Record layer := mkLayer {
  srs_wkt : option string;
  features_in : BoundingBox -> list feature
}.

Inductive datasource :=
| OgrError (why : string)
| OgrNone
| OgrSource (get_layer : string -> option layer).

(** Everything outside the repository. *)
Record Env := mkEnv {
  (* answer to a GET of a URL, given the requests made before it *)
  server : list string -> string -> response;
  (* exit status and effect of a command line run by [subprocess.run] *)
  run_tool : list string -> gmap string node -> Z * gmap string node;
  (* members (name, data) of a zip archive; [None]: not a zip file *)
  zip_members : string -> option (list (string * string));
  (* [driver.Open(path, 0)] of the OpenFileGDB driver *)
  ogr_open : string -> datasource;
  (* [repr] of a float, and the format specification [:.2f] *)
  float_str : Q -> string;
  float_2f : Q -> string;
  (* the directory above the one that holds [gpkg_utils.py] *)
  PROJECT_ROOT : string
}.

Inductive exn :=
| FileNotFoundError (what : string)
| FileExistsError (what : string)
| IsADirectoryError (what : string)
| ShutilError (what : string)
| CalledProcessError (cmd : list string) (status : Z)
| RuntimeError (what : string)
| AttributeError (what : string)
| IndexError (what : string)
| BadZipFile (what : string)
| HTTPError (what : string)
| RequestException (what : string).

Record world := mkWorld {
  fs : gmap string node;
  (* URLs requested so far, oldest first *)
  requests : list string;
  (* command lines spawned so far, oldest first *)
  commands : list (list string);
  (* lines printed so far, oldest first *)
  stdout : list string;
  (* arguments of the calls of [_process_quad] so far, oldest first; a
     log kept for the proofs, the source has no such variable *)
  quad_calls : list (string * string)
}.

Inductive result (A : Type) :=
| Ok (a : A)
| Raise (e : exn).
Arguments Ok {A} a.
Arguments Raise {A} e.

Definition M (A : Type) : Type := world -> result A * world.

Definition ret {A} (a : A) : M A := fun w => (Ok a, w).

Definition raise {A} (e : exn) : M A := fun w => (Raise e, w).

Definition bind {A B} (m : M A) (k : A -> M B) : M B :=
  fun w =>
    match m w with
    | (Ok a, w') => k a w'
    | (Raise e, w') => (Raise e, w')
    end.

(** [try: m  except Exception as e: handler e] *)
Definition try_except {A} (m : M A) (handler : exn -> M A) : M A :=
  fun w =>
    match m w with
    | (Ok a, w') => (Ok a, w')
    | (Raise e, w') => handler e w'
    end.

Declare Scope py_scope.
Delimit Scope py_scope with py.
Notation "'let*' x ':=' c1 'in' c2" := (bind c1 (fun x => c2))
  (at level 10, x pattern, c1 at level 100, c2 at level 200) : py_scope.
Notation "c1 ;; c2" := (bind c1 (fun _ => c2))
  (at level 100, c2 at level 200, right associativity) : py_scope.
Local Open Scope py_scope.

(** [for x in l: s = body s x] *)
Fixpoint for_each {A S} (body : S -> A -> M S) (l : list A) (s : S) : M S :=
  match l with
  | [] => ret s
  | x :: rest => let* s' := body s x in for_each body rest s'
  end.

Definition set_fs (f : gmap string node) (w : world) : world :=
  mkWorld f (requests w) (commands w) (stdout w) (quad_calls w).

Definition print (line : string) : M unit :=
  fun w => (Ok tt, mkWorld (fs w) (requests w) (commands w)
                           (stdout w ++ [line]) (quad_calls w)).

Definition exists_in (f : gmap string node) (path : string) : bool :=
  match f !! path with Some _ => true | None => false end.

(** [os.path.exists(path)] *)
Definition path_exists (path : string) : M bool :=
  fun w => (Ok (exists_in (fs w) path), w).

(** [os.makedirs(path, exist_ok=True)]. Paths are compared as written and
    the intermediate segments get no entries of their own. *)
Definition makedirs (path : string) : M unit :=
  fun w =>
    if PyStr.is_empty path then (Raise (FileNotFoundError path), w)
    else match fs w !! path with
         | Some (File _) => (Raise (FileExistsError path), w)
         | Some Dir => (Ok tt, w)
         | None => (Ok tt, set_fs (<[path := Dir]> (fs w)) w)
         end.

(** [os.remove(path)] *)
Definition remove (path : string) : M unit :=
  fun w =>
    match fs w !! path with
    | Some (File _) => (Ok tt, set_fs (delete path (fs w)) w)
    | Some Dir => (Raise (IsADirectoryError path), w)
    | None => (Raise (FileNotFoundError path), w)
    end.

(** [open(path, 'wb')]: the file is created or truncated. *)
Definition open_wb (path : string) : M unit :=
  fun w =>
    match fs w !! path with
    | Some Dir => (Raise (IsADirectoryError path), w)
    | _ => (Ok tt, set_fs (<[path := File EmptyString]> (fs w)) w)
    end.

(** [f.write(chunk)] on the file opened at [path]. *)
Definition write_chunk (path chunk : string) : M unit :=
  fun w =>
    match fs w !! path with
    | Some (File data) => (Ok tt, set_fs (<[path := File (data +:+ chunk)]> (fs w)) w)
    | _ => (Ok tt, set_fs (<[path := File chunk]> (fs w)) w)
    end.

(** [shutil.move(src, dst)] of a file. *)
Definition move (src dst : string) : M unit :=
  fun w =>
    match fs w !! src with
    | None => (Raise (FileNotFoundError src), w)
    | Some n =>
        match fs w !! dst with
        | Some Dir =>
            let real_dst := OsPath.join dst (OsPath.basename src) in
            if exists_in (fs w) real_dst then (Raise (ShutilError real_dst), w)
            else (Ok tt, set_fs (<[real_dst := n]> (delete src (fs w))) w)
        | _ => (Ok tt, set_fs (<[dst := n]> (delete src (fs w))) w)
        end
    end.

(** [str(e)] *)
Definition exn_str (e : exn) : string :=
  match e with
  | FileNotFoundError s | FileExistsError s | IsADirectoryError s
  | ShutilError s | RuntimeError s | AttributeError s | IndexError s
  | BadZipFile s | HTTPError s | RequestException s => s
  | CalledProcessError cmd status =>
      "Command " +:+ PyStr.item0 cmd +:+ " returned non-zero exit status "
        +:+ PyStr.str_int status +:+ "."
  end.

(** [f"{x}"] for a value that is a string or [None]. *)
Definition opt_str (o : option string) : string :=
  match o with Some s => s | None => "None" end.

(** [repr] of a list of plain strings. *)
Fixpoint join_quoted (l : list string) : string :=
  match l with
  | [] => EmptyString
  | [s] => "'" +:+ s +:+ "'"
  | s :: rest => "'" +:+ s +:+ "', " +:+ join_quoted rest
  end.
Definition list_repr (l : list string) : string := "[" +:+ join_quoted l +:+ "]".

(** ** [lib/download_utils.py] *)

Section Download.
Context (E : Env).

(** [requests.get(url, stream=True, timeout=30)] *)
Definition requests_get (url : string) : M response :=
  fun w =>
    let r := server E (requests w) url in
    let w' := mkWorld (fs w) (requests w ++ [url]) (commands w)
                      (stdout w) (quad_calls w) in
    match r with
    | NoResponse why => (Raise (RequestException why), w')
    | Response _ _ _ _ _ => (Ok r, w')
    end.

(** [r.raise_for_status()] *)
Definition raise_for_status (url : string) (r : response) : M unit :=
  match r with
  | Response status reason _ _ _ =>
      if (400 <=? status) && (status <? 600) then
        raise (HTTPError (PyStr.str_int status
                            +:+ (if status <? 500 then " Client Error: "
                                 else " Server Error: ")
                            +:+ reason +:+ " for url: " +:+ url))
      else ret tt
  | NoResponse why => raise (RequestException why)
  end.

(** [int(r.headers.get('content-length', 0))] *)
Definition total_size_of (r : response) : Z :=
  match r with
  | Response _ _ (Some n) _ _ => n
  | _ => 0
  end.

(** [for chunk in r.iter_content(chunk_size): f.write(chunk)] *)
Definition write_body (path : string) (r : response) : M unit :=
  match r with
  | Response _ _ _ chunks broken =>
      for_each (fun _ chunk => write_chunk path chunk) chunks tt ;;
      match broken with
      | Some why => raise (RequestException why)
      | None => ret tt
      end
  | NoResponse why => raise (RequestException why)
  end.

Definition download_file (url local_filepath : string)
  : M (bool * option string) :=
  try_except
    (makedirs (OsPath.dirname local_filepath) ;;
     let* r := requests_get url in
     (* time.sleep(0.5) *)
     raise_for_status url r ;;
     let total_size := total_size_of r in
     if total_size =? 0 then
       ret (false, Some ("File size is 0 bytes at " +:+ url))
     else
       print ("  [INFO] Downloading " +:+ url +:+ " ("
                +:+ float_2f E (total_size # 1048576) +:+ " MB)") ;;
       open_wb local_filepath ;;
       write_body local_filepath r ;;
       print ("  [SUCCESS] Downloaded to: " +:+ local_filepath) ;;
       ret (true, None))
    (fun e =>
       match e with
       | HTTPError _ =>
           ret (false, Some ("HTTP Error for " +:+ url +:+ ": " +:+ exn_str e))
       | RequestException _ =>
           ret (false, Some ("An unexpected error occurred for " +:+ url
                               +:+ ": " +:+ exn_str e))
       | _ => raise e
       end).

(** [zipfile.ZipFile(zip_path, 'r')] followed by [infolist()] *)
Definition zip_open (zip_path : string) : M (list (string * string)) :=
  fun w =>
    match fs w !! zip_path with
    | None => (Raise (FileNotFoundError zip_path), w)
    | Some Dir => (Raise (IsADirectoryError zip_path), w)
    | Some (File data) =>
        match zip_members E data with
        | None => (Raise (BadZipFile "File is not a zip file"), w)
        | Some members => (Ok members, w)
        end
    end.

(** [zip_ref.extract(info, path=extract_dir)] for a member whose
    [filename] holds no slash. *)
Definition zip_extract (filename data extract_dir : string) : M string :=
  let targetpath := OsPath.join extract_dir filename in
  open_wb targetpath ;;
  write_chunk targetpath data ;;
  ret targetpath.

Definition extract_zip_and_rename (zip_path extract_dir file_extension : string)
  : M (bool * string) :=
  makedirs extract_dir ;;
  let zip_basename := OsPath.basename zip_path in
  let target_basename := OsPath.splitext_root zip_basename +:+ file_extension in
  let target_path := OsPath.join extract_dir target_basename in
  try_except
    (let* infolist := zip_open zip_path in
     let target_file_info :=
       List.find (fun f_info => PyStr.endswith (fst f_info) file_extension)
                 infolist in
     match target_file_info with
     | None =>
         ret (false, "No '" +:+ file_extension +:+ "' file found in " +:+ zip_path)
     | Some (original_filename, data) =>
         let* extracted_file_path :=
           zip_extract (OsPath.basename original_filename) data extract_dir in
         (if String.eqb extracted_file_path target_path then ret tt
          else move extracted_file_path target_path) ;;
         print ("  [SUCCESS] Extracted and saved to: " +:+ target_path) ;;
         remove zip_path ;;
         print ("  [INFO] Cleaned up zip: " +:+ zip_path) ;;
         ret (true, target_path)
     end)
    (fun e =>
       match e with
       | BadZipFile _ =>
           remove zip_path ;;
           ret (false, "Bad zip file (deleted): " +:+ zip_path)
       | _ =>
           ret (false, "Failed to extract/cleanup " +:+ zip_path +:+ ": "
                         +:+ exn_str e)
       end).

End Download.

(** ** [lib/dem_utils.py]: cache, mosaic and clip *)

Section Dem.
Context (E : Env).
Import TileGrid.

Definition DEFAULT_CACHE_DIR : string := "../data/extracted/dem".
Definition DEFAULT_OUT_DIR : string := "../data/out".

Definition download_tile (tile_key cache_dir : string) : M string :=
  makedirs cache_dir ;;
  let out_path := OsPath.join cache_dir (tile_key +:+ ".tif") in
  let* cached := path_exists out_path in
  if cached then
    print ("[CACHE] " +:+ tile_key +:+ ".tif already exists.") ;;
    ret out_path
  else
    let url := tile_url tile_key in
    print ("[DOWNLOAD] Fetching " +:+ tile_key +:+ " from " +:+ url) ;;
    let* (success, msg) := download_file E url out_path in
    if negb success then
      raise (RuntimeError ("Failed to download " +:+ url +:+ ": " +:+ opt_str msg))
    else ret out_path.

(** [subprocess.run(cmd, check=True)] *)
Definition subprocess_run (cmd : list string) : M unit :=
  fun w =>
    let '(status, f) := run_tool E cmd (fs w) in
    let w' := mkWorld f (requests w) (commands w ++ [cmd]) (stdout w)
                      (quad_calls w) in
    if status =? 0 then (Ok tt, w') else (Raise (CalledProcessError cmd status), w').

Definition vrt_path_of (out_dir : string) : string :=
  OsPath.join out_dir "_tmp_mosaic.vrt".

Definition out_path_of (bbox : BoundingBox) (out_dir : string) : string :=
  OsPath.join out_dir
    ("DEM_" +:+ float_str E (xmin bbox) +:+ "_" +:+ float_str E (ymin bbox)
       +:+ "_" +:+ float_str E (xmax bbox) +:+ "_" +:+ float_str E (ymax bbox)
       +:+ ".tif").

Definition merge_and_clip (tile_paths : list string) (bbox : BoundingBox)
                          (out_dir : string) : M string :=
  makedirs out_dir ;;
  let vrt_path := vrt_path_of out_dir in
  let out_path := out_path_of bbox out_dir in
  subprocess_run ("gdalbuildvrt" :: vrt_path :: tile_paths) ;;
  subprocess_run
    ["gdalwarp";
     "-te"; float_str E (xmin bbox); float_str E (ymin bbox);
            float_str E (xmax bbox); float_str E (ymax bbox);
     "-te_srs"; "EPSG:4326";
     "-dstalpha";
     vrt_path;
     out_path] ;;
  let* leftover := path_exists vrt_path in
  (if leftover then remove vrt_path else ret tt) ;;
  print ("[DONE] Wrote clipped DEM to: " +:+ out_path) ;;
  ret out_path.

Definition fetch_and_clip_dem (bbox : BoundingBox) (cache_dir out_dir : string)
  : M (option string) :=
  let tiles := tiles_for_bbox bbox in
  match tiles with
  | [] =>
      print "[WARN] No tiles found for the given bounding box." ;;
      ret None
  | _ :: _ =>
      print ("[INFO] Tiles needed: " +:+ list_repr tiles) ;;
      let* downloaded :=
        try_except
          (let* tile_paths :=
             for_each (fun tile_paths tile_key =>
                         let* p := download_tile tile_key cache_dir in
                         ret (tile_paths ++ [p]))
                      tiles [] in
           ret (Some tile_paths))
          (fun e =>
             match e with
             | RuntimeError _ =>
                 print ("[ERROR] Failed during tile download: " +:+ exn_str e) ;;
                 ret None
             | _ => raise e
             end) in
      match downloaded with
      | None => ret None
      | Some tile_paths =>
          let* out := merge_and_clip tile_paths bbox out_dir in
          ret (Some out)
      end
  end.

End Dem.

(** ** [lib/gpkg_utils.py] *)

Inductive summary :=
| FAILED (message : string)
| SUCCESS (features_found unique_quads_identified downloads_successful : nat)
| CRITICAL_ERROR (message : string).

(** The three variables the query loop updates. *)
Record loop_vars := mkLoopVars {
  processed_quads : gset string;
  features_found : nat;
  downloads_successful : nat
}.

Module USGSTopoDownloader.
Import PyStr.

Record t := mk {
  gdb_path : string;
  bbox : BoundingBox;
  raw_dir : string;
  extracted_dir : string;
  download_format : string;
  layer_name : string
}.

Definition BASE_URL : string :=
  "https://prd-tnm.s3.amazonaws.com/StagedProducts/TopoMapVector/".

Definition is_linebreak (c : ascii) : bool :=
  let n := code c in
  ((10 <=? n)%nat && (n <=? 13)%nat) || ((28 <=? n)%nat && (n <=? 30)%nat)
  || (n =? 133)%nat.

Fixpoint until_linebreak (s : string) : string :=
  match s with
  | EmptyString => EmptyString
  | String c r => if is_linebreak c then EmptyString else String c (until_linebreak r)
  end.

(** [s.splitlines()[0]]; [None] stands for the IndexError on [[]]. *)
Definition first_line (s : string) : option string :=
  if is_empty s then None else Some (until_linebreak s).

Definition quad_key_of (quad_name state_abbr : string) : string :=
  quad_name +:+ "_" +:+ state_abbr.

Definition _get_quad_info (cell_name state_alpha_field : option string)
  : M (option (string * string)) :=
  match state_alpha_field with
  | None | Some EmptyString =>
      print ("  [ERROR] STATE_ALPHA field is empty for: " +:+ opt_str cell_name
               +:+ ". Skipping.") ;;
      ret None
  | Some state =>
      let state_abbr := strip (item0 (split "," state)) in
      match cell_name with
      | None => raise (AttributeError "'NoneType' object has no attribute 'strip'")
      | Some name =>
          let quad_name_for_url := replace " " "_" (strip name) in
          ret (Some (quad_name_for_url, state_abbr))
      end
  end.

Section WithEnv.
Context (E : Env).

Definition DATA_DIR : string := OsPath.join (PROJECT_ROOT E) "data".
Definition GDB_FILE : string := OsPath.join DATA_DIR "MapIndices_National_GDB.gdb".
Definition RAW_DIR : string := OsPath.join (OsPath.join DATA_DIR "raw") "gpkg".
Definition EXTRACTED_DIR : string :=
  OsPath.join (OsPath.join DATA_DIR "extracted") "gpkg".

Definition __init__ (bbox : BoundingBox) (download_format gdb_path : string)
  : M t :=
  let self := mk gdb_path bbox RAW_DIR EXTRACTED_DIR download_format
                 "CellGrid_7_5Minute" in
  makedirs (raw_dir self) ;;
  makedirs (extracted_dir self) ;;
  ret self.

Definition zip_filename_of (self : t) (quad_name state_abbr : string) : string :=
  "VECTOR_" +:+ quad_name +:+ "_" +:+ state_abbr +:+ "_7_5_Min_"
    +:+ download_format self +:+ ".zip".

Definition gpkg_filename_of (self : t) (quad_name state_abbr : string) : string :=
  "VECTOR_" +:+ quad_name +:+ "_" +:+ state_abbr +:+ "_7_5_Min_"
    +:+ download_format self +:+ ".gpkg".

(** Bookkeeping for the proofs, not a statement of the source: the
    arguments of each call of [_process_quad] are appended to a log. *)
Definition note_call (quad_name state_abbr : string) : M unit :=
  fun w => (Ok tt, mkWorld (fs w) (requests w) (commands w) (stdout w)
                           (quad_calls w ++ [(quad_name, state_abbr)])).

Definition _process_quad (self : t) (quad_name state_abbr : string) : M bool :=
  note_call quad_name state_abbr ;;
  let zip_filename := zip_filename_of self quad_name state_abbr in
  let gpkg_filename := gpkg_filename_of self quad_name state_abbr in
  let zip_filepath := OsPath.join (raw_dir self) zip_filename in
  let gpkg_filepath := OsPath.join (extracted_dir self) gpkg_filename in
  let full_url := BASE_URL +:+ upper state_abbr +:+ "/" +:+ download_format self
                    +:+ "/" +:+ zip_filename in
  print (String "010" ("Attempting to process: " +:+ quad_name +:+ " ("
                         +:+ state_abbr +:+ ")")) ;;
  let* cached := path_exists gpkg_filepath in
  if cached then
    print "  [INFO] File already exists, skipping download (Cached)." ;;
    print ("  Path: " +:+ gpkg_filepath) ;;
    ret true
  else
    print ("  URL: " +:+ full_url) ;;
    let* (download_success, dl_msg) := download_file E full_url zip_filepath in
    if negb download_success then
      print ("  [ERROR] Download failed: " +:+ opt_str dl_msg) ;;
      let* partial := path_exists zip_filepath in
      (if partial then remove zip_filepath else ret tt) ;;
      ret false
    else
      let* (extract_success, ext_msg) :=
        extract_zip_and_rename E zip_filepath (extracted_dir self)
                               ("." +:+ lower (download_format self)) in
      if negb extract_success then
        print ("  [ERROR] Extraction failed: " +:+ ext_msg) ;;
        ret false
      else ret true.

(** One pass of the body of [for feature in layer]. *)
Definition loop_body (self : t) (v : loop_vars) (f : feature) : M loop_vars :=
  let v := mkLoopVars (processed_quads v) (S (features_found v))
                      (downloads_successful v) in
  let cell_name := CELL_NAME f in
  let state_alpha_field := STATE_ALPHA f in
  let* quad_info := _get_quad_info cell_name state_alpha_field in
  match quad_info with
  | Some (quad_name, state_abbr) =>
      let quad_key := quad_key_of quad_name state_abbr in
      if bool_decide (quad_key ∈ processed_quads v) then ret v
      else
        let v := mkLoopVars ({[quad_key]} ∪ processed_quads v)
                            (features_found v) (downloads_successful v) in
        let* ok := _process_quad self quad_name state_abbr in
        if ok then
          ret (mkLoopVars (processed_quads v) (features_found v)
                          (S (downloads_successful v)))
        else ret v
  | None => ret v
  end.

Definition bbox_repr (b : BoundingBox) : string :=
  "BoundingBox(xmin=" +:+ float_str E (xmin b) +:+ ", ymin=" +:+ float_str E (ymin b)
    +:+ ", xmax=" +:+ float_str E (xmax b) +:+ ", ymax=" +:+ float_str E (ymax b)
    +:+ ")".

(** [driver.Open(self.gdb_path, 0)] *)
Definition driver_open (path : string) : M (option (string -> option layer)) :=
  match ogr_open E path with
  | OgrError why => raise (RuntimeError why)
  | OgrNone => ret None
  | OgrSource get_layer => ret (Some get_layer)
  end.

Definition srs_info_of (l : layer) : M string :=
  match srs_wkt l with
  | None => ret "UNKNOWN"
  | Some wkt =>
      match first_line wkt with
      | Some line => ret line
      | None => raise (IndexError "list index out of range")
      end
  end.

Definition download_by_bbox (self : t) : M summary :=
  let* found := path_exists (gdb_path self) in
  if negb found then
    ret (FAILED ("GDB file not found at: " +:+ gdb_path self))
  else
    print ("[INFO] GPKG cache directory: " +:+ extracted_dir self) ;;
    print ("[INFO] Target BBOX (Lon/Lat): " +:+ bbox_repr (bbox self)) ;;
    try_except
      (let* dataSource := driver_open (gdb_path self) in
       match dataSource with
       | None => ret (FAILED ("Could not open " +:+ gdb_path self +:+ "."))
       | Some get_layer =>
           match get_layer (layer_name self) with
           | None =>
               ret (FAILED ("Could not find layer " +:+ layer_name self +:+ "."))
           | Some layer =>
               let* srs_info := srs_info_of layer in
               print ("[INFO] GDB Layer SRS: " +:+ srs_info) ;;
               print (String "010" "--- Starting Query and Download Loop ---") ;;
               let* v := for_each (loop_body self)
                                  (features_in layer (bbox self))
                                  (mkLoopVars ∅ 0 0) in
               let summary := SUCCESS (features_found v)
                                      (size (processed_quads v))
                                      (downloads_successful v) in
               print (String "010" "--- Process Complete ---") ;;
               print ("Features found intersecting BBOX in GDB: "
                        +:+ str_int (Z.of_nat (features_found v))) ;;
               print ("Unique 7.5-minute Quads identified: "
                        +:+ str_int (Z.of_nat (size (processed_quads v)))) ;;
               print ("Total Quads successfully downloaded/cached: "
                        +:+ str_int (Z.of_nat (downloads_successful v))) ;;
               ret summary
           end
       end)
      (fun e =>
         print (String "010" ("[CRITICAL ERROR] A geospatial or file error occurred: "
                                +:+ exn_str e)) ;;
         ret (CRITICAL_ERROR (exn_str e))).

End WithEnv.
End USGSTopoDownloader.

(** ** A simulated environment for running the code on examples *)

Module Sim.

(** gdalbuildvrt writes its first operand when it has inputs; gdalwarp
    writes its last operand when [clip_status] is 0. *)
Definition gdal (clip_status : Z) (cmd : list string) (f : gmap string node)
  : Z * gmap string node :=
  match cmd with
  | tool :: args =>
      if String.eqb tool "gdalbuildvrt" then
        match args with
        | vrt :: _ :: _ => (0, <[vrt := File "<VRTDataset/>"]> f)
        | _ => (1, f)
        end
      else if String.eqb tool "gdalwarp" then
        if clip_status =? 0 then (0, <[List.last args EmptyString := File "GTiff"]> f)
        else (clip_status, f)
      else (127, f)
  | [] => (127, f)
  end.

(** Stands in for [repr]: exact on integers and on tenths. *)
Definition float_str (q : Q) : string :=
  let n := Qnum q in
  let d := Zpos (Qden q) in
  if d =? 1 then PyStr.str_int n +:+ ".0"
  else if d =? 10 then
    (if n <? 0 then "-" else EmptyString)
      +:+ PyStr.str_int (Z.abs n / 10) +:+ "." +:+ PyStr.str_int (Z.abs n mod 10)
  else PyStr.str_int n +:+ "_over_" +:+ PyStr.str_int d.

Definition env (srv : list string -> string -> response)
               (zips : string -> option (list (string * string)))
               (clip_status : Z)
               (ogr : string -> datasource) : Env :=
  mkEnv srv (gdal clip_status) zips ogr float_str float_str "/proj".

Definition no_ogr (path : string) : datasource := OgrNone.

(** Every file is an archive holding the one member [name]. *)
Definition zip_with_member (name data : string) (file : string)
  : option (list (string * string)) :=
  Some [(name, data)].

Definition not_a_zip (data : string) : option (list (string * string)) := None.

Definition serve (r : response) (history : list string) (url : string) : response := r.

Definition world0 : world := mkWorld ∅ [] [] [] [].

Definition box : BoundingBox :=
  mkBoundingBox (-103) (428 # 10) (-1025 # 10) (432 # 10).

(** An index whose layer holds four records: two spellings of one
    quadrangle, one record in lower case and one without a state. *)
Definition quad_features : list feature :=
  [mkFeature (Some "Foo Bar") (Some "NE,SD");
   mkFeature (Some "Foo_Bar") (Some "ne");
   mkFeature (Some "Baz") (Some EmptyString);
   mkFeature (Some "Foo Bar") (Some "NE")].

Definition quad_layer : layer := mkLayer None (fun _ => quad_features).

Definition quad_index (path : string) : datasource :=
  OgrSource (fun name => if String.eqb name "CellGrid_7_5Minute"
                         then Some quad_layer else None).

Definition zip_response : response :=
  Response 200 "OK" (Some 4) ["PK"; "zz"] None.

Definition quad_env : Env :=
  env (serve zip_response) (zip_with_member "sub/dir/file.gpkg" "layers") 0
      quad_index.

Definition downloader : USGSTopoDownloader.t :=
  USGSTopoDownloader.mk (USGSTopoDownloader.GDB_FILE quad_env) box
    (USGSTopoDownloader.RAW_DIR quad_env)
    (USGSTopoDownloader.EXTRACTED_DIR quad_env)
    "GPKG" "CellGrid_7_5Minute".

Definition quad_world : world :=
  mkWorld {[ USGSTopoDownloader.GDB_FILE quad_env := Dir ]} [] [] [] [].

(** A tile server that answers every request with one complete body. *)
Definition tif_response : response :=
  Response 200 "OK" (Some 6) ["II*"; "dem"] None.

Definition tile_env : Env := env (serve tif_response) not_a_zip 0 no_ogr.

(** The same with a clip step that exits with status 1. *)
Definition clip_fail_env : Env := env (serve tif_response) not_a_zip 1 no_ogr.

(** A connection that breaks after the first chunk of a body announced
    as 100 bytes long. *)
Definition broken_response : response :=
  Response 200 "OK" (Some 100) ["II*"] (Some "Connection broken").

Definition broken_env : Env := env (serve broken_response) not_a_zip 0 no_ogr.

(** A server that answers 404. *)
Definition missing_env : Env :=
  env (serve (Response 404 "Not Found" None [] None)) not_a_zip 0 no_ogr.

(** An archive without any member of the wanted extension. *)
Definition readme_env : Env :=
  env (serve zip_response) (zip_with_member "readme.txt" "hello") 0 no_ogr.

Definition archive_world : world :=
  mkWorld {[ "raw/a.zip"%string := File "PK" ]} [] [] [] [].

Definition tile_world : world :=
  mkWorld {[ "cache/n42w103.tif"%string := File "II*dem" ]} [] [] [] [].

(** The extracted file of the quadrangle Foo_Bar, NE is in the cache. *)
Definition cached_world : world :=
  mkWorld {[ "/proj/data/extracted/gpkg/VECTOR_Foo_Bar_NE_7_5_Min_GPKG.gpkg"%string
             := File "layers" ]} [] [] [] [].

(** An index whose first record has a state and no cell name. *)
Definition nameless_features : list feature :=
  [mkFeature None (Some "NE");
   mkFeature (Some "Foo Bar") (Some "NE")].

(** Its layer has a spatial reference, exported on two lines. *)
Definition nameless_layer : layer :=
  mkLayer (Some ("GEOGCS[GCS_North_American_1983," +:+ String "010" "DATUM[D_NAD83]]"))
          (fun _ => nameless_features).

Definition nameless_index (path : string) : datasource :=
  OgrSource (fun name => if String.eqb name "CellGrid_7_5Minute"
                         then Some nameless_layer
                         else None).

Definition nameless_env : Env :=
  env (serve zip_response) (zip_with_member "sub/dir/file.gpkg" "layers") 0
      nameless_index.

(** The quadrangle index with a server that answers 404. *)
Definition quad_missing_env : Env :=
  env (serve (Response 404 "Not Found" None [] None)) not_a_zip 0 quad_index.

(** A box whose north edge lies south of its south edge. *)
Definition flipped_box : BoundingBox := mkBoundingBox (-103) 43 (-102) 42.

End Sim.

(** ** Notions used to state the properties *)

(** [m] keeps the component [proj] of the world as it was, whether it
    returns or raises. *)
Definition keeps {X A} (proj : world -> X) (m : M A) : Prop :=
  forall w, proj (snd (m w)) = proj w.


(** A directory path [os.makedirs(path, exist_ok=True)] accepts: not the
    empty string and not the path of a regular file. *)
Definition usable_dir (f : gmap string node) (path : string) : Prop :=
  PyStr.is_empty path = false /\ forall data, f !! path <> Some (File data).

(** The bytes of a body that arrived as [chunks]. *)
Fixpoint concat_chunks (chunks : list string) : string :=
  match chunks with
  | [] => EmptyString
  | c :: rest => c +:+ concat_chunks rest
  end.

(** The loop of [fetch_and_clip_dem] over the tile keys. *)
Definition download_all (E : Env) (cache_dir : string)
  : list string -> list string -> M (list string) :=
  for_each (fun tile_paths tile_key =>
              bind (download_tile E tile_key cache_dir)
                   (fun p => ret (tile_paths ++ [p]))).

(** The two command lines of [merge_and_clip]. *)
Definition gdalbuildvrt_cmd (out_dir : string) (tile_paths : list string)
  : list string :=
  ("gdalbuildvrt" :: vrt_path_of out_dir :: tile_paths)%string.

Definition gdalwarp_cmd (E : Env) (b : BoundingBox) (out_dir : string)
  : list string :=
  ["gdalwarp"; "-te"; float_str E (xmin b); float_str E (ymin b);
   float_str E (xmax b); float_str E (ymax b);
   "-te_srs"; "EPSG:4326"; "-dstalpha";
   vrt_path_of out_dir; out_path_of E b out_dir]%string.

(** What [_process_quad] does after a download that is reported as
    failed. *)
Definition after_failed_download (zip : string) (dl_msg : option string)
  : M bool :=
  bind (print ("  [ERROR] Download failed: " +:+ opt_str dl_msg))
       (fun _ => bind (path_exists zip)
                      (fun partial =>
                         bind (if partial then remove zip else ret tt)
                              (fun _ => ret false))).

(** Text of ASCII characters only, on which [PyStr.upper] and
    [PyStr.lower] are [str.upper] and [str.lower]. *)
Definition ascii_only (s : string) : bool :=
  PyStr.all_chars (fun c => (PyStr.code c <? 128)%nat) s.

(** A fetch that [download_file] reports as failed: no response, an HTTP
    error status, no length announced (or a length of 0), or a body that
    breaks off. *)
Definition reports_failure (r : response) : Prop :=
  match r with
  | NoResponse _ => True
  | Response status _ len _ broken =>
      400 <= status < 600 \/ len = None \/ len = Some 0 \/ broken <> None
  end.

(** A fetch that fails before any byte of the body is read: no response,
    an HTTP error status, or no length announced (or a length of 0). *)
Definition fails_before_body (r : response) : Prop :=
  match r with
  | NoResponse _ => True
  | Response status _ len _ _ =>
      400 <= status < 600 \/ len = None \/ len = Some 0
  end.

(** A response with a status that is no error, a length other than 0 and
    a body that arrives whole. *)
Definition complete_body (r : response) (chunks : list string) : Prop :=
  exists status reason n,
    r = Response status reason (Some n) chunks None
    /\ ~ (400 <= status < 600) /\ n <> 0.

(** The normalization as the specification words it. *)
Module Spec.
Import PyStr.

(** The text before the first comma. *)
Fixpoint first_comma_token (s : string) : string :=
  match s with
  | EmptyString => EmptyString
  | String c r => if Ascii.eqb c "," then EmptyString
                  else String c (first_comma_token r)
  end.

(** Whitespace replaced by underscore. *)
Definition underscore_whitespace (s : string) : string :=
  map_chars (fun c => if is_space c then "_"%char else c) s.

(** [(quad_name, state_abbr)] with the state upper-cased. *)
Definition quadrangle_key (cell_name state_field : string) : string * string :=
  (underscore_whitespace cell_name, upper (first_comma_token state_field)).

End Spec.

(** * Properties *)

(** ** Sample runs of the pure functions *)

Example tile_name_north_west : TileGrid.tile_name 42 (-72) = "n42w072"%string.
Proof. reflexivity. Qed.

Example tile_name_south_east : TileGrid.tile_name (-3) 5 = "s03e005"%string.
Proof. reflexivity. Qed.

Example tiles_for_bbox_sample :
  TileGrid.tiles_for_bbox (mkBoundingBox (-103) (428 # 10) (-1025 # 10) (432 # 10))
  = ["n42w103"; "n43w103"]%string.
Proof. reflexivity. Qed.

Example dirname_sample :
  OsPath.dirname "../data/extracted/dem/n42w103.tif" = "../data/extracted/dem"%string
  /\ OsPath.basename "raw/gpkg/VECTOR_A_NE_7_5_Min_GPKG.zip" = "VECTOR_A_NE_7_5_Min_GPKG.zip"%string
  /\ OsPath.splitext_root "VECTOR_A_NE_7_5_Min_GPKG.zip" = "VECTOR_A_NE_7_5_Min_GPKG"%string
  /\ OsPath.join "../data/out" "_tmp_mosaic.vrt" = "../data/out/_tmp_mosaic.vrt"%string.
Proof. repeat split; reflexivity. Qed.

(** ** Decimal rendering *)

Module PyStrFacts.
Import PyStr.

Lemma app_String (c : ascii) (s t : string) :
  String c s +:+ t = String c (s +:+ t).
Proof. reflexivity. Qed.

Lemma string_of_uint_digits (u : Decimal.uint) :
  all_chars is_digit (NilEmpty.string_of_uint u) = true.
Proof. induction u; simpl; auto. Qed.

Lemma digits_of_all_digits (n : N) : all_chars is_digit (digits_of n) = true.
Proof. apply string_of_uint_digits. Qed.

Lemma value_of_digits_of (n : N) : value_of (digits_of n) = n.
Proof.
  unfold value_of, digits_of. rewrite NilEmpty.usu. apply Unsigned.of_to.
Qed.

Lemma value_of_zero_cons (s : string) : value_of (String "0" s) = value_of s.
Proof.
  unfold value_of. simpl.
  destruct (NilEmpty.uint_of_string s); reflexivity.
Qed.

Lemma all_chars_app (p : ascii -> bool) (s t : string) :
  all_chars p (s +:+ t) = all_chars p s && all_chars p t.
Proof.
  induction s as [|c s IH]; simpl; [reflexivity |].
  rewrite IH. now rewrite andb_assoc.
Qed.

Lemma repeat_zero_digits (k : nat) : all_chars is_digit (repeat_char "0" k) = true.
Proof. induction k; simpl; auto. Qed.

Lemma zfill_all_digits (w : nat) (s : string) :
  all_chars is_digit s = true -> all_chars is_digit (zfill w s) = true.
Proof.
  intros H. unfold zfill. rewrite all_chars_app, repeat_zero_digits, H.
  reflexivity.
Qed.

Lemma value_of_zfill (w : nat) (s : string) : value_of (zfill w s) = value_of s.
Proof.
  unfold zfill. induction (w - String.length s)%nat as [|k IH].
  - reflexivity.
  - cbn [repeat_char]. rewrite app_String, value_of_zero_cons. exact IH.
Qed.

(** On a non-negative integer the format is the zero-filled numeral. *)
Lemma format_0d_nonneg (w : nat) (z : Z) :
  0 <= z -> format_0d w z = zfill w (digits_of (Z.to_N z)).
Proof.
  intros H. unfold format_0d.
  destruct (z <? 0) eqn:Hz; [apply Z.ltb_lt in Hz; lia | reflexivity].
Qed.

Lemma format_0d_digits (w : nat) (z : Z) :
  0 <= z -> all_chars is_digit (format_0d w z) = true.
Proof.
  intros H. rewrite format_0d_nonneg by exact H.
  apply zfill_all_digits, digits_of_all_digits.
Qed.

Lemma format_0d_inj (w w' : nat) (z z' : Z) :
  0 <= z -> 0 <= z' -> format_0d w z = format_0d w' z' -> z = z'.
Proof.
  intros H H' Heq.
  rewrite !format_0d_nonneg in Heq by assumption.
  apply (f_equal value_of) in Heq.
  rewrite !value_of_zfill, !value_of_digits_of in Heq.
  lia.
Qed.

(** Two runs of digits, each closed by a character that is no digit,
    split a string in one way only. *)
Lemma digits_then_stop (s s' : string) (c c' : ascii) (r r' : string) :
  all_chars is_digit s = true -> all_chars is_digit s' = true ->
  is_digit c = false -> is_digit c' = false ->
  s +:+ String c r = s' +:+ String c' r' ->
  s = s' /\ c = c' /\ r = r'.
Proof.
  revert s'. induction s as [|d s IH]; intros [|d' s'] Hs Hs' Hc Hc' Heq;
    simpl in *.
  - injection Heq as -> ->. auto.
  - injection Heq as -> _. apply andb_true_iff in Hs' as [Hd _]. congruence.
  - injection Heq as -> _. apply andb_true_iff in Hs as [Hd _]. congruence.
  - injection Heq as -> Heq.
    apply andb_true_iff in Hs as [_ Hs]. apply andb_true_iff in Hs' as [_ Hs'].
    destruct (IH s' Hs Hs' Hc Hc' Heq) as (-> & -> & ->). auto.
Qed.

End PyStrFacts.

(** ** Tile keys and the tile grid *)

Module TileGridFacts.
Import PyStr PyStrFacts TileGrid.

(** [tile_name] is one-to-one on all pairs of integers. *)
Lemma tile_name_inj (lat lon lat' lon' : Z) :
  tile_name lat lon = tile_name lat' lon' -> lat = lat' /\ lon = lon'.
Proof.
  unfold tile_name. intros Heq.
  assert (Ha : 0 <= Z.abs lat) by lia. assert (Ha' : 0 <= Z.abs lat') by lia.
  assert (Ho : 0 <= Z.abs lon) by lia. assert (Ho' : 0 <= Z.abs lon') by lia.
  pose proof (format_0d_digits 2 _ Ha) as D. pose proof (format_0d_digits 2 _ Ha') as D'.
  assert (Hsplit :
    (if (0 <=? lat)%Z then "n" else "s")%string = (if (0 <=? lat')%Z then "n" else "s")%string
    /\ format_0d 2 (Z.abs lat) = format_0d 2 (Z.abs lat')
    /\ (if (0 <=? lon)%Z then "e" else "w")%string = (if (0 <=? lon')%Z then "e" else "w")%string
    /\ format_0d 3 (Z.abs lon) = format_0d 3 (Z.abs lon')).
  { destruct (0 <=? lat), (0 <=? lat'), (0 <=? lon), (0 <=? lon');
      simpl in Heq; injection Heq as Heq; try discriminate;
      apply digits_then_stop in Heq; try assumption; try reflexivity;
      destruct Heq as (-> & Hc & ->); try discriminate Hc; auto. }
  destruct Hsplit as (Hp & Hlat & Hq & Hlon).
  apply format_0d_inj in Hlat; [| lia | lia].
  apply format_0d_inj in Hlon; [| lia | lia].
  split.
  - destruct (0 <=? lat) eqn:E1, (0 <=? lat') eqn:E2; try discriminate Hp;
      rewrite ?Z.leb_le, ?Z.leb_gt in *; lia.
  - destruct (0 <=? lon) eqn:E1, (0 <=? lon') eqn:E2; try discriminate Hq;
      rewrite ?Z.leb_le, ?Z.leb_gt in *; lia.
Qed.

Lemma fold_append {A B} (f : A -> B) (l : list A) (acc : list B) :
  fold_left (fun acc x => acc ++ [f x]) l acc = acc ++ map f l.
Proof.
  revert acc. induction l as [|x l IH]; intros acc; simpl.
  - now rewrite app_nil_r.
  - rewrite IH, <- app_assoc. reflexivity.
Qed.

Lemma fold_rows {A B} (g : A -> list B) (l : list A) (acc : list B) :
  fold_left (fun acc a => acc ++ g a) l acc = acc ++ flat_map g l.
Proof.
  revert acc. induction l as [|x l IH]; intros acc; simpl.
  - now rewrite app_nil_r.
  - rewrite IH, <- app_assoc. reflexivity.
Qed.

Lemma fold_left_pointwise {A B} (f g : B -> A -> B) (l : list A) (acc : B) :
  (forall acc x, f acc x = g acc x) -> fold_left f l acc = fold_left g l acc.
Proof.
  intros H. revert acc. induction l as [|x l IH]; intros acc; simpl.
  - reflexivity.
  - rewrite H. apply IH.
Qed.

(** The nested loops build the rows one after the other. *)
Lemma tiles_for_bbox_rows (b : BoundingBox) :
  tiles_for_bbox b =
  flat_map (fun lat => map (tile_name lat)
                           (py_range (Qfloor (xmin b)) (Qfloor (xmax b) + 1)))
           (py_range (Qfloor (ymin b)) (Qfloor (ymax b) + 1)).
Proof.
  unfold tiles_for_bbox.
  rewrite <- (app_nil_l (flat_map _ _)), <- fold_rows.
  apply fold_left_pointwise. intros acc lat. apply fold_append.
Qed.

Lemma py_range_length (a b : Z) : length (py_range a b) = Z.to_nat (b - a).
Proof. unfold py_range. now rewrite length_map, length_seq. Qed.

Lemma py_range_lookup (a b : Z) (i : nat) :
  (i < Z.to_nat (b - a))%nat -> py_range a b !! i = Some (a + Z.of_nat i).
Proof.
  intros H. unfold py_range.
  change (map ?f ?l) with (f <$> l).
  rewrite list_lookup_fmap, lookup_seq_lt by exact H. reflexivity.
Qed.

Lemma py_range_In (a b x : Z) : In x (py_range a b) <-> a <= x < b.
Proof.
  unfold py_range. rewrite in_map_iff. split.
  - intros (i & <- & Hi). apply in_seq in Hi. lia.
  - intros H. exists (Z.to_nat (x - a)). split; [lia |].
    apply in_seq. lia.
Qed.

Lemma py_range_NoDup (a b : Z) : List.NoDup (py_range a b).
Proof.
  unfold py_range. apply Finite.Injective_map_NoDup.
  - intros i j H. lia.
  - apply seq_NoDup.
Qed.

Lemma flat_length {A B} (g : A -> list B) (W : nat) (l : list A) :
  (forall a, length (g a) = W) -> length (flat_map g l) = (length l * W)%nat.
Proof.
  intros Hg. induction l as [|x l IH]; simpl; [reflexivity |].
  rewrite length_app, Hg, IH. reflexivity.
Qed.

(** Row [i], column [j] of a grid of rows of width [W]. *)
Lemma flat_lookup {A B} (g : A -> list B) (W : nat) (l : list A)
      (i j : nat) (x : A) :
  (forall a, length (g a) = W) -> l !! i = Some x -> (j < W)%nat ->
  flat_map g l !! (i * W + j)%nat = g x !! j.
Proof.
  intros Hg. revert i. induction l as [|y l IH]; intros i Hi Hj.
  - discriminate Hi.
  - destruct i as [|i]; simpl in *.
    + injection Hi as ->. apply lookup_app_l. rewrite Hg. exact Hj.
    + rewrite lookup_app_r by (rewrite Hg; lia).
      rewrite Hg. replace (W + i * W + j - W)%nat with (i * W + j)%nat by lia.
      apply IH; assumption.
Qed.

Lemma NoDup_grid {A B C} (f : A -> B -> C) (la : list A) (lb : list B) :
  (forall a b a' b', f a b = f a' b' -> a = a' /\ b = b') ->
  List.NoDup la -> List.NoDup lb ->
  List.NoDup (flat_map (fun a => map (f a) lb) la).
Proof.
  intros Hinj Ha Hb. induction Ha as [|a la Hnotin Ha IH]; simpl.
  - constructor.
  - apply List.NoDup_app.
    + apply Finite.Injective_map_NoDup; [| exact Hb].
      intros b b' H. now apply Hinj in H.
    + exact IH.
    + intros c Hc Hc'. apply in_map_iff in Hc as (b & <- & _).
      apply in_flat_map in Hc' as (a' & Ha' & Hc').
      apply in_map_iff in Hc' as (b' & Heq & _).
      apply Hinj in Heq as [-> _]. now apply Hnotin.
Qed.

(** C6. For a bounding box with [xmin <= xmax] and [ymin <= ymax],
    [tiles_for_bbox] returns
    [(floor xmax - floor xmin + 1) * (floor ymax - floor ymin + 1)] keys
    without duplicates; the key at position [i * W + j] is the key of the
    cell in row [i] (latitude [floor ymin + i]) and column [j] (longitude
    [floor xmin + j]), which is the row-major order with latitude outside
    and longitude inside; every key is the key of an integer cell of the
    two ranges. *)
Theorem tiles_for_bbox_grid (b : BoundingBox) :
  (xmin b <= xmax b)%Q -> (ymin b <= ymax b)%Q ->
  let lon_start := Qfloor (xmin b) in
  let lon_end := Qfloor (xmax b) in
  let lat_start := Qfloor (ymin b) in
  let lat_end := Qfloor (ymax b) in
  let W := lon_end - lon_start + 1 in
  let H := lat_end - lat_start + 1 in
  Z.of_nat (length (tiles_for_bbox b)) = W * H
  /\ List.NoDup (tiles_for_bbox b)
  /\ (forall i j : Z, 0 <= i < H -> 0 <= j < W ->
        tiles_for_bbox b !! Z.to_nat (i * W + j)
        = Some (tile_name (lat_start + i) (lon_start + j)))
  /\ (forall k : string, In k (tiles_for_bbox b) ->
        exists lat lon : Z,
          lat_start <= lat <= lat_end /\ lon_start <= lon <= lon_end
          /\ k = tile_name lat lon).
Proof.
  intros Hx Hy. apply Qfloor_resp_le in Hx, Hy.
  intros lon_start lon_end lat_start lat_end W H.
  rewrite tiles_for_bbox_rows.
  fold lon_start lon_end lat_start lat_end.
  set (cols := py_range lon_start (lon_end + 1)).
  set (rows := py_range lat_start (lat_end + 1)).
  assert (Hcols : length cols = Z.to_nat W)
    by (unfold cols; rewrite py_range_length; f_equal; unfold W; lia).
  assert (Hrows : length rows = Z.to_nat H)
    by (unfold rows; rewrite py_range_length; f_equal; unfold H; lia).
  assert (Hrow : forall lat, length (map (tile_name lat) cols) = Z.to_nat W)
    by (intros lat; now rewrite length_map).
  assert (HW : 0 < W) by (unfold W; lia).
  assert (HH : 0 < H) by (unfold H; lia).
  repeat split.
  - rewrite (flat_length _ _ _ Hrow), Hrows. lia.
  - apply NoDup_grid.
    + intros; now apply tile_name_inj.
    + apply py_range_NoDup.
    + apply py_range_NoDup.
  - intros i j Hi Hj.
    replace (Z.to_nat (i * W + j))
      with (Z.to_nat i * Z.to_nat W + Z.to_nat j)%nat by nia.
    rewrite (flat_lookup _ (Z.to_nat W) rows _ _ (lat_start + i) Hrow).
    + change (map ?f ?l) with (f <$> l). rewrite list_lookup_fmap.
      unfold cols. rewrite py_range_lookup by lia.
      simpl. do 2 f_equal. lia.
    + unfold rows. rewrite py_range_lookup by lia. f_equal. lia.
    + lia.
  - intros k Hk. apply in_flat_map in Hk as (lat & Hlat & Hk).
    apply in_map_iff in Hk as (lon & <- & Hlon).
    apply py_range_In in Hlat, Hlon.
    exists lat, lon. repeat split; lia.
Qed.

Lemma tiles_for_bbox_grid_sample :
  let b := mkBoundingBox (-103) (428 # 10) (-1025 # 10) (432 # 10) in
  (xmin b <= xmax b)%Q /\ (ymin b <= ymax b)%Q
  /\ Z.of_nat (length (tiles_for_bbox b)) = 1 * 2
  /\ List.NoDup (tiles_for_bbox b).
Proof.
  intros b.
  assert (Hx : (xmin b <= xmax b)%Q) by (unfold Qle; simpl; lia).
  assert (Hy : (ymin b <= ymax b)%Q) by (unfold Qle; simpl; lia).
  split; [exact Hx |]. split; [exact Hy |].
  destruct (tiles_for_bbox_grid b Hx Hy) as (Hlen & Hnd & _).
  split; [exact Hlen | exact Hnd].
Defined.

End TileGridFacts.

(** ** Reasoning about the state passing code *)

Module Frame.

Section Combinators.
Context {X : Type} (proj : world -> X).

Lemma keeps_ret {A} (a : A) : keeps proj (ret a).
Proof. intros w. reflexivity. Qed.

Lemma keeps_raise {A} (e : exn) : keeps proj (@raise A e).
Proof. intros w. reflexivity. Qed.

Lemma keeps_bind {A B} (m : M A) (k : A -> M B) :
  keeps proj m -> (forall a, keeps proj (k a)) -> keeps proj (bind m k).
Proof.
  intros Hm Hk w. unfold bind. specialize (Hm w).
  destruct (m w) as [[a | e] w1]; simpl in *.
  - rewrite Hk. exact Hm.
  - exact Hm.
Qed.

Lemma keeps_try {A} (m : M A) (h : exn -> M A) :
  keeps proj m -> (forall e, keeps proj (h e)) -> keeps proj (try_except m h).
Proof.
  intros Hm Hh w. unfold try_except. specialize (Hm w).
  destruct (m w) as [[a | e] w1]; simpl in *.
  - exact Hm.
  - rewrite Hh. exact Hm.
Qed.

Lemma keeps_for_each {A S} (body : S -> A -> M S) (l : list A) (s : S) :
  (forall s x, keeps proj (body s x)) -> keeps proj (for_each body l s).
Proof.
  intros Hb. revert s. induction l as [|x l IH]; intros s; simpl.
  - apply keeps_ret.
  - apply keeps_bind; [apply Hb | intros s'; apply IH].
Qed.

End Combinators.

(** Splits a composite action into its primitive steps. *)
Ltac keeps_step :=
  match goal with
  | |- keeps _ (bind _ _) => apply keeps_bind; [| intros ?]
  | |- keeps _ (try_except _ _) => apply keeps_try; [| intros ?]
  | |- keeps _ (for_each _ _ _) => apply keeps_for_each; intros ? ?
  | |- keeps _ (ret _) => apply keeps_ret
  | |- keeps _ (raise _) => apply keeps_raise
  | |- keeps _ (match ?x with _ => _ end) => destruct x
  | |- keeps _ (if ?b then _ else _) => destruct b
  | |- keeps _ (let '(_, _) := ?p in _) => destruct p
  end.

(** Settles a primitive by running it on an arbitrary world. *)
Ltac keeps_prim :=
  let w := fresh "w" in
  intros w; cbv beta iota zeta delta [print makedirs remove open_wb write_chunk move
                            path_exists set_fs snd];
  repeat match goal with
         | |- context [PyStr.is_empty ?p] => destruct (PyStr.is_empty p)
         | |- context [fs w !! ?p] => destruct (fs w !! p) as [[?|]|]
         | |- context [exists_in ?f ?p] => destruct (exists_in f p)
         end;
  reflexivity.

Create HintDb keeps discriminated.

Lemma print_keeps_fs line : keeps fs (print line).
Proof. keeps_prim. Qed.
Lemma print_keeps_requests line : keeps requests (print line).
Proof. keeps_prim. Qed.
Lemma print_keeps_commands line : keeps commands (print line).
Proof. keeps_prim. Qed.
Lemma print_keeps_calls line : keeps quad_calls (print line).
Proof. keeps_prim. Qed.

Lemma path_exists_keeps {X} (proj : world -> X) path : keeps proj (path_exists path).
Proof. intros w. reflexivity. Qed.

Lemma makedirs_keeps_requests path : keeps requests (makedirs path).
Proof. keeps_prim. Qed.
Lemma makedirs_keeps_calls path : keeps quad_calls (makedirs path).
Proof. keeps_prim. Qed.
Lemma makedirs_keeps_stdout path : keeps stdout (makedirs path).
Proof. keeps_prim. Qed.

Lemma remove_keeps_requests path : keeps requests (remove path).
Proof. keeps_prim. Qed.
Lemma remove_keeps_calls path : keeps quad_calls (remove path).
Proof. keeps_prim. Qed.

Lemma open_wb_keeps_requests path : keeps requests (open_wb path).
Proof. keeps_prim. Qed.
Lemma open_wb_keeps_calls path : keeps quad_calls (open_wb path).
Proof. keeps_prim. Qed.

Lemma write_chunk_keeps_requests path chunk : keeps requests (write_chunk path chunk).
Proof. keeps_prim. Qed.
Lemma write_chunk_keeps_calls path chunk : keeps quad_calls (write_chunk path chunk).
Proof. keeps_prim. Qed.

Lemma move_keeps_requests src dst : keeps requests (move src dst).
Proof. keeps_prim. Qed.
Lemma move_keeps_calls src dst : keeps quad_calls (move src dst).
Proof. keeps_prim. Qed.

Lemma requests_get_keeps_calls E url : keeps quad_calls (requests_get E url).
Proof. intros w. unfold requests_get. destruct (server E _ _); reflexivity. Qed.

Lemma zip_open_keeps {X} (proj : world -> X) E path : keeps proj (zip_open E path).
Proof.
  intros w. unfold zip_open.
  destruct (fs w !! path) as [[data |] |]; try reflexivity.
  destruct (zip_members E data); reflexivity.
Qed.

#[export] Hint Resolve print_keeps_fs print_keeps_requests print_keeps_commands
  print_keeps_calls path_exists_keeps makedirs_keeps_requests makedirs_keeps_calls
  makedirs_keeps_stdout remove_keeps_requests remove_keeps_calls
  open_wb_keeps_requests open_wb_keeps_calls write_chunk_keeps_requests
  write_chunk_keeps_calls move_keeps_requests move_keeps_calls
  requests_get_keeps_calls zip_open_keeps : keeps.

Ltac keeps_auto := repeat keeps_step; auto with keeps.

Lemma download_file_keeps_calls E url path :
  keeps quad_calls (download_file E url path).
Proof.
  unfold download_file, raise_for_status, write_body. keeps_auto.
Qed.

Lemma extract_zip_and_rename_keeps_calls E zip_path dir ext :
  keeps quad_calls (extract_zip_and_rename E zip_path dir ext).
Proof.
  unfold extract_zip_and_rename, zip_extract. keeps_auto.
Qed.

Lemma extract_zip_and_rename_keeps_requests E zip_path dir ext :
  keeps requests (extract_zip_and_rename E zip_path dir ext).
Proof.
  unfold extract_zip_and_rename, zip_extract. keeps_auto.
Qed.

(** A sequence returns only when its first part returned. *)
Lemma bind_ok_inv {A B} (m : M A) (k : A -> M B) w b w' :
  bind m k w = (Ok b, w') ->
  exists a w1, m w = (Ok a, w1) /\ k a w1 = (Ok b, w').
Proof.
  unfold bind. destruct (m w) as [[a | e] w1]; intros H.
  - eauto.
  - discriminate H.
Qed.

Lemma remove_ok_inv path w u w' :
  remove path w = (Ok u, w') -> fs w' = delete path (fs w).
Proof.
  unfold remove. destruct (fs w !! path) as [[data |] |]; intros H;
    try discriminate H. injection H as _ <-. reflexivity.
Qed.

End Frame.

(** ** The quadrangle resolver *)

Module QuadFacts.
Import PyStr Frame USGSTopoDownloader.

Lemma get_quad_info_keeps_calls c s : keeps quad_calls (_get_quad_info c s).
Proof. unfold _get_quad_info. keeps_auto. Qed.

Lemma get_quad_info_keeps_fs c s : keeps fs (_get_quad_info c s).
Proof. unfold _get_quad_info. keeps_auto. Qed.

Lemma get_quad_info_keeps_requests c s : keeps requests (_get_quad_info c s).
Proof. unfold _get_quad_info. keeps_auto. Qed.

(** What [_get_quad_info] does on a record without a state. *)
Lemma get_quad_info_empty (c s : option string) (w : world) :
  s = None \/ s = Some EmptyString ->
  _get_quad_info c s w
  = (Ok None,
     snd (print ("  [ERROR] STATE_ALPHA field is empty for: " +:+ opt_str c
                   +:+ ". Skipping.") w)).
Proof. intros [-> | ->]; reflexivity. Qed.

(** What it does on a record with a name and a state. *)
Lemma get_quad_info_some (name state : string) (w : world) :
  is_empty state = false ->
  _get_quad_info (Some name) (Some state) w
  = (Ok (Some (replace " " "_" (strip name), strip (item0 (split "," state)))), w).
Proof. intros H. destruct state; [discriminate H | reflexivity]. Qed.

(** Every call of [_process_quad] is noted once, at its start. *)
Lemma process_quad_calls E self q s w :
  quad_calls (snd (_process_quad E self q s w)) = quad_calls w ++ [(q, s)].
Proof.
  unfold _process_quad.
  match goal with
  | |- context [bind (note_call q s) ?k] =>
      assert (Hk : forall u, keeps quad_calls (k u))
  end.
  { intros u. keeps_auto;
      auto using download_file_keeps_calls, extract_zip_and_rename_keeps_calls. }
  unfold bind at 1. simpl. rewrite (Hk tt). reflexivity.
Qed.

(** C9. A record whose state field is missing or empty is skipped with a
    printed diagnostic: the loop variables change only in the count of
    features, the dedup set (and so the count of unique keys) stays as it
    was, nothing is fetched or written, and the loop goes on with the
    records that follow. *)
Theorem empty_state_record_skipped
        (E : Env) (self : t) (v : loop_vars) (f : feature)
        (rest : list feature) (w : world) :
  STATE_ALPHA f = None \/ STATE_ALPHA f = Some EmptyString ->
  let v' := mkLoopVars (processed_quads v) (S (features_found v))
                       (downloads_successful v) in
  let w' := mkWorld (fs w) (requests w) (commands w)
              (stdout w ++ ["  [ERROR] STATE_ALPHA field is empty for: "
                              +:+ opt_str (CELL_NAME f) +:+ ". Skipping."])
              (quad_calls w) in
  loop_body E self v f w = (Ok v', w')
  /\ size (processed_quads v') = size (processed_quads v)
  /\ for_each (loop_body E self) (f :: rest) v w
     = for_each (loop_body E self) rest v' w'.
Proof.
  intros Hs v' w'.
  assert (Hbody : loop_body E self v f w = (Ok v', w')).
  { unfold loop_body, bind. rewrite (get_quad_info_empty _ _ _ Hs). reflexivity. }
  split; [exact Hbody |]. split; [reflexivity |].
  simpl. unfold bind. rewrite Hbody. reflexivity.
Qed.

(** The three counters stay ordered through one pass of the loop. *)
Lemma loop_body_counters E self v f w v' w' :
  loop_body E self v f w = (Ok v', w') ->
  (downloads_successful v <= size (processed_quads v) <= features_found v)%nat ->
  (downloads_successful v' <= size (processed_quads v') <= features_found v')%nat.
Proof.
  unfold loop_body, bind. intros H Hinv.
  destruct (_get_quad_info _ _ w) as [[[[q s] |] | e] w1]; simpl in H.
  - destruct (bool_decide _) eqn:Hseen.
    + injection H as ? _; subst v'. simpl. lia.
    + apply bool_decide_eq_false in Hseen.
      assert (Hsize : size ({[quad_key_of q s]} ∪ processed_quads v)
                      = S (size (processed_quads v))).
      { rewrite size_union by (apply disjoint_singleton_l; exact Hseen).
        now rewrite size_singleton. }
      destruct (_process_quad E self q s w1) as [[[|] | e] w2];
        [injection H as ? _; subst v' | injection H as ? _; subst v' | discriminate H];
        simpl; rewrite Hsize; lia.
  - injection H as ? _; subst v'. simpl. lia.
  - discriminate H.
Qed.

Lemma for_each_counters E self feats v w v' w' :
  for_each (loop_body E self) feats v w = (Ok v', w') ->
  (downloads_successful v <= size (processed_quads v) <= features_found v)%nat ->
  (downloads_successful v' <= size (processed_quads v') <= features_found v')%nat.
Proof.
  revert v w. induction feats as [|f feats IH]; intros v w H Hinv; simpl in H.
  - injection H as <- _. exact Hinv.
  - unfold bind in H.
    destruct (loop_body E self v f w) as [[v1 | e] w1] eqn:Hbody;
      [| discriminate H].
    eapply IH; [exact H |]. eapply loop_body_counters; eassumption.
Qed.

(** A SUCCESS summary carries the loop variables at the end of the loop. *)
Lemma download_by_bbox_success E self w n u d w' :
  download_by_bbox E self w = (Ok (SUCCESS n u d), w') ->
  exists layer w1 v w2,
    for_each (loop_body E self) (features_in layer (bbox self))
             (mkLoopVars ∅ 0 0) w1 = (Ok v, w2)
    /\ quad_calls w1 = quad_calls w
    /\ quad_calls w' = quad_calls w2
    /\ n = features_found v /\ u = size (processed_quads v)
    /\ d = downloads_successful v.
Proof.
  unfold download_by_bbox, bind, try_except, path_exists, driver_open,
    srs_info_of, print, ret, raise. simpl.
  intros H.
  destruct (negb _); [discriminate H |].
  destruct (ogr_open E _) as [why | | get_layer]; try discriminate H.
  destruct (get_layer _) as [layer |]; [| discriminate H].
  destruct (srs_wkt layer) as [wkt |].
  - destruct (first_line wkt); [| discriminate H].
    match type of H with
    | context [for_each _ _ _ ?w1] =>
        destruct (for_each (loop_body E self) (features_in layer (bbox self))
                           (mkLoopVars ∅ 0 0) w1) as [[v | e] w2] eqn:Hloop
    end; [| discriminate H].
    injection H as <- <- <- <-.
    eexists _, _, _, _. split; [exact Hloop |]. repeat split.
  - match type of H with
    | context [for_each _ _ _ ?w1] =>
        destruct (for_each (loop_body E self) (features_in layer (bbox self))
                           (mkLoopVars ∅ 0 0) w1) as [[v | e] w2] eqn:Hloop
    end; [| discriminate H].
    injection H as <- <- <- <-.
    eexists _, _, _, _. split; [exact Hloop |]. repeat split.
Qed.

(** A quadrangle whose extracted file is in the cache is a success
    without any request. *)
Lemma process_quad_cached E self q s w :
  exists_in (fs w) (OsPath.join (extracted_dir self) (gpkg_filename_of self q s))
  = true ->
  exists w', _process_quad E self q s w = (Ok true, w')
             /\ fs w' = fs w /\ requests w' = requests w
             /\ commands w' = commands w.
Proof.
  intros Hc. unfold _process_quad, bind, note_call, print, path_exists. simpl.
  rewrite Hc. simpl. eexists. split; [reflexivity |]. repeat split.
Qed.

(** C10. In every run that returns a SUCCESS summary the counters are
    ordered: successes <= unique keys <= records found. And a record with
    a new key whose extracted file is already in the cache adds one to the
    successes, without any request and without any change of the files. *)
Theorem summary_counters_ordered :
  (forall E self w n u d w',
      download_by_bbox E self w = (Ok (SUCCESS n u d), w') ->
      (d <= u <= n)%nat)
  /\ (forall E self v name state w,
        is_empty state = false ->
        let q := replace " " "_" (strip name) in
        let s := strip (item0 (split "," state)) in
        quad_key_of q s ∉ processed_quads v ->
        exists_in (fs w)
                  (OsPath.join (extracted_dir self) (gpkg_filename_of self q s))
        = true ->
        exists w',
          loop_body E self v (mkFeature (Some name) (Some state)) w
          = (Ok (mkLoopVars ({[quad_key_of q s]} ∪ processed_quads v)
                            (S (features_found v))
                            (S (downloads_successful v))), w')
          /\ requests w' = requests w /\ fs w' = fs w).
Proof.
  split.
  - intros E self w n u d w' H.
    apply download_by_bbox_success in H
      as (layer & w1 & v & w2 & Hloop & _ & _ & -> & -> & ->).
    apply for_each_counters in Hloop; [exact Hloop |].
    cbn [processed_quads features_found downloads_successful].
    rewrite size_empty. lia.
  - intros E self v name state w Hstate q s Hnew Hcached.
    destruct (process_quad_cached E self q s w Hcached)
      as (w' & Hrun & Hfs & Hreq & _).
    exists w'. split; [| split; assumption].
    unfold loop_body, bind. simpl CELL_NAME. simpl STATE_ALPHA.
    rewrite get_quad_info_some by exact Hstate.
    fold q s. simpl processed_quads.
    rewrite bool_decide_eq_false_2 by exact Hnew.
    rewrite Hrun. reflexivity.
Qed.

Lemma summary_counters_ordered_sample :
  (download_by_bbox Sim.quad_env Sim.downloader Sim.quad_world
   = (Ok (SUCCESS 4 2 2),
      snd (download_by_bbox Sim.quad_env Sim.downloader Sim.quad_world))
   /\ (2 <= 2 <= 4)%nat)
  /\ (is_empty "NE,SD" = false
      /\ ("Foo_Bar_NE"%string ∉ processed_quads (mkLoopVars ∅ 0 0))
      /\ exists_in (fs Sim.cached_world)
                   (OsPath.join (extracted_dir Sim.downloader)
                                (gpkg_filename_of Sim.downloader "Foo_Bar" "NE"))
         = true
      /\ exists w',
           loop_body Sim.quad_env Sim.downloader (mkLoopVars ∅ 0 0)
                     (mkFeature (Some "Foo Bar"%string) (Some "NE,SD"%string))
                     Sim.cached_world
           = (Ok (mkLoopVars ({["Foo_Bar_NE"%string]} ∪ ∅) 1 1), w')
           /\ requests w' = requests Sim.cached_world
           /\ fs w' = fs Sim.cached_world).
Proof.
  split.
  - assert (H : download_by_bbox Sim.quad_env Sim.downloader Sim.quad_world
                = (Ok (SUCCESS 4 2 2),
                   snd (download_by_bbox Sim.quad_env Sim.downloader Sim.quad_world)))
      by (vm_compute; reflexivity).
    split; [exact H |].
    exact (proj1 summary_counters_ordered _ _ _ _ _ _ _ H).
  - assert (H1 : is_empty "NE,SD" = false) by reflexivity.
    assert (H2 : "Foo_Bar_NE"%string ∉ processed_quads (mkLoopVars ∅ 0 0))
      by (intros H; vm_compute in H; discriminate H).
    assert (H3 : exists_in (fs Sim.cached_world)
                   (OsPath.join (extracted_dir Sim.downloader)
                                (gpkg_filename_of Sim.downloader "Foo_Bar" "NE"))
                 = true) by (vm_compute; reflexivity).
    split; [exact H1 |]. split; [exact H2 |]. split; [exact H3 |].
    exact (proj2 summary_counters_ordered Sim.quad_env Sim.downloader
                 (mkLoopVars ∅ 0 0) "Foo Bar" "NE,SD" Sim.cached_world H1 H2 H3).
Defined.







(** The sample run: four records, two keys, one call for each key. *)
Example sample_run_calls :
  let r := download_by_bbox Sim.quad_env Sim.downloader Sim.quad_world in
  fst r = Ok (SUCCESS 4 2 2)
  /\ quad_calls (snd r) = [("Foo_Bar", "NE"); ("Foo_Bar", "ne")]%string.
Proof. vm_compute. split; reflexivity. Qed.

Lemma empty_state_record_skipped_sample :
  let f := mkFeature (Some "Baz") (Some EmptyString) in
  let v := mkLoopVars {["Foo_Bar_NE"]} 2 1 in
  (STATE_ALPHA f = None \/ STATE_ALPHA f = Some EmptyString)
  /\ loop_body Sim.quad_env Sim.downloader v f Sim.quad_world
     = (Ok (mkLoopVars {["Foo_Bar_NE"]} 3 1),
        mkWorld (fs Sim.quad_world) [] []
                ["  [ERROR] STATE_ALPHA field is empty for: Baz. Skipping."] []).
Proof.
  intros f v.
  assert (H : STATE_ALPHA f = None \/ STATE_ALPHA f = Some EmptyString)
    by (right; reflexivity).
  split; [exact H |].
  exact (proj1 (empty_state_record_skipped Sim.quad_env Sim.downloader v f []
                                           Sim.quad_world H)).
Defined.

End QuadFacts.

(** ** Fetching into the cache *)

Module FetchFacts.
Import PyStr PyStrFacts Frame TileGrid.

Lemma append_empty_r (s : string) : s +:+ EmptyString = s.
Proof. induction s as [|c s IH]; [reflexivity |]. rewrite app_String, IH. reflexivity. Qed.

Lemma append_assoc (s t u : string) : (s +:+ t) +:+ u = s +:+ (t +:+ u).
Proof.
  induction s as [|c s IH]; [reflexivity |].
  rewrite !app_String, IH. reflexivity.
Qed.

(** What [os.makedirs] leaves behind when it returns. *)
Lemma makedirs_ok_inv d w u w0 :
  makedirs d w = (Ok u, w0) ->
  is_empty d = false /\ fs w0 !! d = Some Dir
  /\ requests w0 = requests w /\ commands w0 = commands w
  /\ stdout w0 = stdout w /\ quad_calls w0 = quad_calls w
  /\ (forall p, p <> d -> fs w0 !! p = fs w !! p)
  /\ (forall p n, fs w !! p = Some n -> fs w0 !! p = Some n).
Proof.
  unfold makedirs. intros H.
  destruct (is_empty d); [discriminate H |].
  destruct (fs w !! d) as [[data |] |] eqn:Hd; [discriminate H | |];
    injection H as _ <-; simpl; repeat split; auto.
  - apply lookup_insert_eq.
  - intros p Hp. now apply lookup_insert_ne.
  - intros p n Hn. destruct (decide (d = p)) as [-> | Hne].
    + congruence.
    + rewrite lookup_insert_ne by exact Hne. exact Hn.
Qed.

Lemma makedirs_existing d w :
  is_empty d = false -> fs w !! d = Some Dir -> makedirs d w = (Ok tt, w).
Proof. intros Hd Hl. unfold makedirs. now rewrite Hd, Hl. Qed.

Lemma makedirs_usable d w :
  usable_dir (fs w) d -> exists w0, makedirs d w = (Ok tt, w0).
Proof.
  intros [Hd Hf]. unfold makedirs. rewrite Hd.
  destruct (fs w !! d) as [[data |] |] eqn:Hl; eauto.
  now destruct (Hf data).
Qed.

(** The exceptions of [os.makedirs] pass through [download_file]. *)
Lemma download_file_makedirs_raise E url path w e w0 :
  makedirs (OsPath.dirname path) w = (Raise e, w0) ->
  download_file E url path w = (Raise e, w0).
Proof.
  intros H. unfold download_file, try_except, bind. rewrite H.
  unfold makedirs in H.
  destruct (is_empty _); [injection H as <- <-; reflexivity |].
  destruct (fs w !! _) as [[data |] |]; try discriminate H.
  injection H as <- <-. reflexivity.
Qed.

(** The loop over the chunks appends them to the open file. *)
Lemma write_chunks_run path chunks w data :
  fs w !! path = Some (File data) ->
  for_each (fun _ chunk => write_chunk path chunk) chunks tt w
  = (Ok tt, set_fs (<[path := File (data +:+ concat_chunks chunks)]> (fs w)) w).
Proof.
  revert w data. induction chunks as [|c chunks IH]; intros w data Hl; simpl.
  - unfold ret, set_fs. rewrite append_empty_r, insert_id by exact Hl.
    destruct w; reflexivity.
  - unfold bind, write_chunk at 1. rewrite Hl.
    rewrite (IH _ (data +:+ c)) by (simpl; apply lookup_insert_eq).
    unfold set_fs. simpl. rewrite insert_insert_eq, append_assoc. reflexivity.
Qed.

(** [download_file] case by case, once the directory of the target is
    in place. *)
Lemma download_file_spec E url path w w0 :
  makedirs (OsPath.dirname path) w = (Ok tt, w0) ->
  download_file E url path w =
  let asked := mkWorld (fs w0) (requests w0 ++ [url]) (commands w0) (stdout w0)
                       (quad_calls w0) in
  match server E (requests w0) url with
  | NoResponse why =>
      (Ok (false, Some ("An unexpected error occurred for " +:+ url +:+ ": "
                          +:+ why)), asked)
  | Response status reason len chunks broken =>
      if (400 <=? status) && (status <? 600) then
        (Ok (false,
             Some ("HTTP Error for " +:+ url +:+ ": "
                     +:+ str_int status
                     +:+ (if status <? 500 then " Client Error: "
                          else " Server Error: ")
                     +:+ reason +:+ " for url: " +:+ url)), asked)
      else if total_size_of (Response status reason len chunks broken) =? 0 then
        (Ok (false, Some ("File size is 0 bytes at " +:+ url)), asked)
      else
        let info := "  [INFO] Downloading " +:+ url +:+ " ("
                      +:+ float_2f E (total_size_of
                                        (Response status reason len chunks broken)
                                      # 1048576) +:+ " MB)" in
        match fs w0 !! path with
        | Some Dir =>
            (Raise (IsADirectoryError path),
             mkWorld (fs w0) (requests w0 ++ [url]) (commands w0)
                     (stdout w0 ++ [info]) (quad_calls w0))
        | _ =>
            let written := <[path := File (concat_chunks chunks)]> (fs w0) in
            match broken with
            | Some why =>
                (Ok (false, Some ("An unexpected error occurred for " +:+ url
                                    +:+ ": " +:+ why)),
                 mkWorld written (requests w0 ++ [url]) (commands w0)
                         (stdout w0 ++ [info]) (quad_calls w0))
            | None =>
                (Ok (true, None),
                 mkWorld written (requests w0 ++ [url]) (commands w0)
                         ((stdout w0 ++ [info])
                            ++ ["  [SUCCESS] Downloaded to: " +:+ path])
                         (quad_calls w0))
            end
        end
  end.
Proof.
  intros Hmk. unfold download_file, try_except, bind at 1. rewrite Hmk.
  unfold bind at 1, requests_get.
  destruct (server E (requests w0) url) as [why | status reason len chunks broken];
    [reflexivity |].
  cbv zeta. unfold bind at 1, raise_for_status.
  destruct ((400 <=? status) && (status <? 600)); [reflexivity |].
  unfold ret at 1. cbv beta iota.
  destruct (total_size_of _ =? 0); [reflexivity |].
  unfold bind at 1, print at 1. cbv beta iota.
  unfold bind at 1, open_wb. cbn [fs].
  set (info := "  [INFO] Downloading " +:+ _).
  assert (Hwrite : forall f0 : gmap string node,
    for_each (fun _ chunk => write_chunk path chunk) chunks tt
      (set_fs (<[path := File EmptyString]> f0)
              (mkWorld f0 (requests w0 ++ [url]) (commands w0)
                       (stdout w0 ++ [info]) (quad_calls w0)))
    = (Ok tt, mkWorld (<[path := File (concat_chunks chunks)]> f0)
                      (requests w0 ++ [url]) (commands w0)
                      (stdout w0 ++ [info]) (quad_calls w0))).
  { intros f0. rewrite (write_chunks_run path chunks _ EmptyString)
      by (simpl; apply lookup_insert_eq).
    unfold set_fs. simpl. rewrite insert_insert_eq. reflexivity. }
  destruct (fs w0 !! path) as [[data |] |]; [| reflexivity |];
    cbv beta iota; unfold bind at 1, write_body, bind at 1;
    rewrite Hwrite; destruct broken; reflexivity.
Qed.

Lemma exists_in_true f p : exists_in f p = true <-> is_Some (f !! p).
Proof.
  unfold exists_in. destruct (f !! p); split; intros H; auto.
  - discriminate H.
  - now destruct H.
Qed.

(** A cache hit: the path is returned, nothing is requested, and no
    path other than the cache directory itself changes. *)
Lemma download_tile_hit E key dir w :
  usable_dir (fs w) dir ->
  exists_in (fs w) (OsPath.join dir (key +:+ ".tif")) = true ->
  exists w',
    download_tile E key dir w = (Ok (OsPath.join dir (key +:+ ".tif")), w')
    /\ requests w' = requests w /\ commands w' = commands w
    /\ (forall p, p <> dir -> fs w' !! p = fs w !! p).
Proof.
  intros Hdir Hex.
  destruct (makedirs_usable dir w Hdir) as (w0 & Hmk).
  pose proof (makedirs_ok_inv _ _ _ _ Hmk)
    as (_ & _ & Hreq & Hcmd & _ & _ & Hother & Hmono).
  assert (Hex0 : exists_in (fs w0) (OsPath.join dir (key +:+ ".tif")) = true).
  { apply exists_in_true. apply exists_in_true in Hex as [n Hn].
    exists n. now apply Hmono. }
  unfold download_tile, bind. rewrite Hmk. unfold path_exists. rewrite Hex0.
  eexists. split; [reflexivity |]. simpl. auto.
Qed.

(** C7. Two calls of [download_tile] with one key and one cache
    directory fetch at most once. A call that finds the file at
    [cache_dir/<key>.tif] returns that path without any request. And when
    a call returns a path, it has made at most one request, and the call
    that follows returns the same path without any request and without
    touching the files. *)
Theorem download_tile_fetches_once (E : Env) (key dir : string) :
  (forall w,
      usable_dir (fs w) dir ->
      exists_in (fs w) (OsPath.join dir (key +:+ ".tif")) = true ->
      exists w',
        download_tile E key dir w = (Ok (OsPath.join dir (key +:+ ".tif")), w')
        /\ requests w' = requests w)
  /\ (forall w p w1,
        download_tile E key dir w = (Ok p, w1) ->
        p = OsPath.join dir (key +:+ ".tif")
        /\ (length (requests w1) <= length (requests w) + 1)%nat
        /\ exists w2,
             download_tile E key dir w1 = (Ok p, w2)
             /\ requests w2 = requests w1 /\ fs w2 = fs w1).
Proof.
  split.
  - intros w Hdir Hex.
    destruct (download_tile_hit E key dir w Hdir Hex) as (w' & H & Hreq & _).
    eauto.
  - intros w p w1 H.
    set (out := OsPath.join dir (key +:+ ".tif")) in *.
    (* the state of the files after the first call *)
    assert (Hafter : p = out
                     /\ (length (requests w1) <= length (requests w) + 1)%nat
                     /\ is_empty dir = false /\ fs w1 !! dir = Some Dir
                     /\ exists_in (fs w1) out = true).
    { unfold download_tile, bind in H. fold out in H.
      destruct (makedirs dir w) as [[[] | e] w0] eqn:Hmk; [| discriminate H].
      apply makedirs_ok_inv in Hmk as (Hne & Hd & Hreq & _).
      unfold path_exists in H.
      destruct (exists_in (fs w0) out) eqn:Hex.
      - unfold print, ret in H. injection H as <- <-. simpl.
        rewrite Hreq. repeat split; auto. lia.
      - unfold print at 1 in H. cbv beta iota in H.
        match type of H with
        | context [download_file E ?url out ?wp] =>
            destruct (makedirs (OsPath.dirname out) wp) as [[[] | e] w2] eqn:Hmk2;
            [ rewrite (download_file_spec E url out wp w2 Hmk2) in H
            | rewrite (download_file_makedirs_raise E url out wp e w2 Hmk2) in H;
              discriminate H ]
        end.
        apply makedirs_ok_inv in Hmk2
          as (_ & _ & Hreq2 & _ & _ & _ & _ & Hmono).
        simpl in Hreq2, Hmono.
        assert (Hdo : dir <> out).
        { intros Heq. rewrite <- Heq in Hex. unfold exists_in in Hex.
          rewrite Hd in Hex. discriminate Hex. }
        cbv zeta in H.
        destruct (server E (requests w2) _) as [why | st rs len chunks broken];
          [discriminate H |].
        destruct ((400 <=? st) && (st <? 600)); [discriminate H |].
        destruct (total_size_of _ =? 0); [discriminate H |].
        destruct (fs w2 !! out) as [[data |] |];
          try discriminate H; destruct broken; try discriminate H;
          injection H as <- <-; simpl;
          (split; [reflexivity |]);
          (split; [rewrite length_app, Hreq2, Hreq; simpl; lia |]);
          (split; [exact Hne |]);
          (split; [rewrite lookup_insert_ne by congruence; apply Hmono, Hd |]);
          unfold exists_in; rewrite lookup_insert_eq; reflexivity. }
    destruct Hafter as (-> & Hlen & Hne & Hd & Hex).
    split; [reflexivity |]. split; [exact Hlen |].
    unfold download_tile, bind. fold out.
    rewrite (makedirs_existing dir w1 Hne Hd).
    unfold path_exists. rewrite Hex. unfold bind, print, ret.
    eexists. split; [reflexivity |]. simpl. auto.
Qed.

Lemma download_tile_fetches_once_sample :
  let r1 := download_tile Sim.tile_env "n42w103" "cache" Sim.world0 in
  (usable_dir (fs Sim.tile_world) "cache"
   /\ exists_in (fs Sim.tile_world) (OsPath.join "cache" ("n42w103" +:+ ".tif")) = true
   /\ exists w',
        download_tile Sim.tile_env "n42w103" "cache" Sim.tile_world
        = (Ok (OsPath.join "cache" ("n42w103" +:+ ".tif")), w')
        /\ requests w' = requests Sim.tile_world)
  /\ (r1 = (Ok "cache/n42w103.tif"%string, snd r1)
      /\ (length (requests (snd r1)) <= length (requests Sim.world0) + 1)%nat
      /\ exists w2,
           download_tile Sim.tile_env "n42w103" "cache" (snd r1)
           = (Ok "cache/n42w103.tif"%string, w2)
           /\ requests w2 = requests (snd r1) /\ fs w2 = fs (snd r1)).
Proof.
  intros r1. split.
  - assert (H1 : usable_dir (fs Sim.tile_world) "cache")
      by (split; [reflexivity | intros data H; vm_compute in H; discriminate H]).
    assert (H2 : exists_in (fs Sim.tile_world)
                           (OsPath.join "cache" ("n42w103" +:+ ".tif")) = true)
      by (vm_compute; reflexivity).
    split; [exact H1 |]. split; [exact H2 |].
    exact (proj1 (download_tile_fetches_once Sim.tile_env "n42w103" "cache")
                 Sim.tile_world H1 H2).
  - assert (H : r1 = (Ok "cache/n42w103.tif"%string, snd r1))
      by (vm_compute; reflexivity).
    split; [exact H |].
    destruct (proj2 (download_tile_fetches_once Sim.tile_env "n42w103" "cache")
                    Sim.world0 _ _ H) as (_ & Hlen & Hsecond).
    split; [exact Hlen | exact Hsecond].
Defined.

(** A failure that shows before the body is read is reported as a value
    and leaves the files as [os.makedirs] left them. *)
Lemma download_file_early_failure E url path w w0 :
  makedirs (OsPath.dirname path) w = (Ok tt, w0) ->
  match server E (requests w0) url with
  | NoResponse _ => True
  | Response status _ len _ _ =>
      (400 <= status < 600) \/ len = None \/ len = Some 0
  end ->
  exists msg w',
    download_file E url path w = (Ok (false, Some msg), w') /\ fs w' = fs w0.
Proof.
  intros Hmk Hfail. rewrite (download_file_spec E url path w w0 Hmk).
  cbv zeta.
  destruct (server E (requests w0) url) as [why | st rs len chunks broken].
  - eexists _, _. split; reflexivity.
  - destruct ((400 <=? st) && (st <? 600)) eqn:Hst.
    + eexists _, _. split; reflexivity.
    + destruct Hfail as [Hrange | [-> | ->]].
      * apply andb_false_iff in Hst as [Hst | Hst];
          [apply Z.leb_gt in Hst | apply Z.ltb_ge in Hst]; lia.
      * eexists _, _. split; reflexivity.
      * eexists _, _. split; reflexivity.
Qed.

(** A connection that breaks while the body is read is reported as a
    value too, and the chunks that arrived stay in the target file. *)
Lemma download_file_broken_transfer E url path w w0
      status reason n chunks why :
  makedirs (OsPath.dirname path) w = (Ok tt, w0) ->
  server E (requests w0) url = Response status reason (Some n) chunks (Some why) ->
  ~ (400 <= status < 600) -> n <> 0 ->
  (forall data, fs w0 !! path = Some data -> data <> Dir) ->
  exists msg w',
    download_file E url path w = (Ok (false, Some msg), w')
    /\ fs w' !! path = Some (File (concat_chunks chunks)).
Proof.
  intros Hmk Hsrv Hst Hn Hfile.
  rewrite (download_file_spec E url path w w0 Hmk), Hsrv. cbv zeta.
  replace ((400 <=? status) && (status <? 600)) with false
    by (symmetry; apply andb_false_iff;
        destruct (Z.leb_spec 400 status); [right; apply Z.ltb_ge; lia | now left]).
  simpl total_size_of. replace (n =? 0) with false
    by (symmetry; now apply Z.eqb_neq).
  destruct (fs w0 !! path) as [[data |] |] eqn:Hl.
  - eexists _, _. split; [reflexivity |]. simpl. apply lookup_insert_eq.
  - now destruct (Hfile Dir).
  - eexists _, _. split; [reflexivity |]. simpl. apply lookup_insert_eq.
Qed.

(** C4, at a run that breaks the claim. The connection breaks after the
    first chunk of a tile: [download_file] reports the failure as a
    value, yet the chunk stays at the cache path; [download_tile] raises
    RuntimeError and leaves it there; and the next [download_tile]
    returns the truncated file as a cache hit, without any request. *)
Theorem broken_transfer_leaves_cache_entry :
  let out := "cache/n42w103.tif"%string in
  let r0 := download_file Sim.broken_env (tile_url "n42w103") out Sim.world0 in
  let r1 := download_tile Sim.broken_env "n42w103" "cache" Sim.world0 in
  let r2 := download_tile Sim.broken_env "n42w103" "cache" (snd r1) in
  fst r0 = Ok (false,
               Some ("An unexpected error occurred for " +:+ tile_url "n42w103"
                       +:+ ": Connection broken"))
  /\ fs (snd r0) !! out = Some (File "II*")
  /\ fst r1 = Raise (RuntimeError
                       ("Failed to download " +:+ tile_url "n42w103"
                          +:+ ": An unexpected error occurred for "
                          +:+ tile_url "n42w103" +:+ ": Connection broken"))
  /\ fs (snd r1) !! out = Some (File "II*")
  /\ fst r2 = Ok out
  /\ requests (snd r2) = requests (snd r1).
Proof. vm_compute. repeat split; reflexivity. Qed.

End FetchFacts.

(** ** The compositor *)

Module DemFacts.
Import PyStr Frame TileGrid TileGridFacts FetchFacts.

Lemma py_range_empty (a b : Z) : b <= a -> py_range a b = [].
Proof.
  intros H. unfold py_range. replace (Z.to_nat (b - a)) with 0%nat by lia.
  reflexivity.
Qed.

(** A box that is flipped in latitude or in longitude needs no tile. *)
Lemma tiles_for_bbox_flipped (b : BoundingBox) :
  Qfloor (ymax b) < Qfloor (ymin b) \/ Qfloor (xmax b) < Qfloor (xmin b) ->
  tiles_for_bbox b = [].
Proof.
  intros H. rewrite tiles_for_bbox_rows. destruct H as [H | H].
  - rewrite (py_range_empty (Qfloor (ymin b))) by lia. reflexivity.
  - rewrite (py_range_empty (Qfloor (xmin b))) by lia.
    induction (py_range _ _) as [|lat rows IH]; [reflexivity | exact IH].
Qed.

(** When [merge_and_clip] returns, the mosaic file is gone. *)
Lemma merge_and_clip_ok_removes_vrt E tiles b out w p w' :
  merge_and_clip E tiles b out w = (Ok p, w') ->
  p = out_path_of E b out /\ fs w' !! vrt_path_of out = None.
Proof.
  unfold merge_and_clip, bind, subprocess_run, path_exists. intros H.
  destruct (makedirs out w) as [[[] | e] w0]; [| discriminate H].
  cbn [fs] in H.
  destruct (run_tool E _ (fs w0)) as [st1 f1].
  destruct (st1 =? 0); [| discriminate H]. cbn [fs] in H.
  destruct (run_tool E _ f1) as [st2 f2].
  destruct (st2 =? 0); [| discriminate H].
  unfold exists_in, remove, print, ret in H. cbn [fs] in H.
  destruct (f2 !! vrt_path_of out) as [[data |] |] eqn:Hl;
    cbn [fs] in H; rewrite ?Hl in H;
    try discriminate H; injection H as <- <-; simpl;
    (split; [reflexivity |]).
  - apply lookup_delete_eq.
  - exact Hl.
Qed.

(** When the clip step exits with a status other than 0, the call raises
    and the files stay as gdalwarp left them: nothing removes the
    mosaic. *)
Lemma merge_and_clip_clip_failure E tiles b out w w0 f1 st f2 :
  makedirs out w = (Ok tt, w0) ->
  run_tool E ("gdalbuildvrt" :: vrt_path_of out :: tiles)%string (fs w0) = (0, f1) ->
  run_tool E ["gdalwarp"; "-te"; float_str E (xmin b); float_str E (ymin b);
              float_str E (xmax b); float_str E (ymax b);
              "-te_srs"; "EPSG:4326"; "-dstalpha";
              vrt_path_of out; out_path_of E b out]%string f1 = (st, f2) ->
  st <> 0 ->
  exists e w', merge_and_clip E tiles b out w = (Raise e, w') /\ fs w' = f2.
Proof.
  intros Hmk Hbuild Hwarp Hst.
  unfold merge_and_clip, bind, subprocess_run. rewrite Hmk, Hbuild.
  cbn [fs Z.eqb]. rewrite Hwarp.
  replace (st =? 0) with false by (symmetry; now apply Z.eqb_neq).
  eexists _, _. split; reflexivity.
Qed.

(** C1, at a run that breaks the claim. The mosaic is built, the clip
    step exits with status 1: the call raises CalledProcessError and the
    mosaic file is still there. *)
Theorem clip_failure_leaves_mosaic :
  let r := merge_and_clip Sim.clip_fail_env ["cache/n42w103.tif"%string]
                          Sim.box "out" Sim.tile_world in
  fst r = Raise (CalledProcessError
                   ["gdalwarp"; "-te"; "-103.0"; "42.8"; "-102.5"; "43.2";
                    "-te_srs"; "EPSG:4326"; "-dstalpha";
                    "out/_tmp_mosaic.vrt";
                    "out/DEM_-103.0_42.8_-102.5_43.2.tif"]%string 1)
  /\ fs (snd r) !! "out/_tmp_mosaic.vrt"%string = Some (File "<VRTDataset/>").
Proof. vm_compute. split; reflexivity. Qed.

(** The same call with a clip step that succeeds. *)
Example clip_success_removes_mosaic :
  let r := merge_and_clip Sim.tile_env ["cache/n42w103.tif"%string]
                          Sim.box "out" Sim.tile_world in
  fst r = Ok "out/DEM_-103.0_42.8_-102.5_43.2.tif"%string
  /\ fs (snd r) !! "out/_tmp_mosaic.vrt"%string = None.
Proof. vm_compute. split; reflexivity. Qed.

(** C5 as stated fails: on an empty list [merge_and_clip] creates the
    output directory and runs gdalbuildvrt. *)
Lemma merge_and_clip_empty_attempted :
  let r := merge_and_clip Sim.tile_env [] Sim.box "out" Sim.world0 in
  fs (snd r) <> fs Sim.world0
  /\ fs (snd r) !! "out"%string = Some Dir
  /\ commands (snd r) = [["gdalbuildvrt"; "out/_tmp_mosaic.vrt"]%string]
  /\ fst r = Raise (CalledProcessError
                      ["gdalbuildvrt"; "out/_tmp_mosaic.vrt"]%string 1).
Proof.
  split.
  - intros H. apply (f_equal (fun f => f !! "out"%string)) in H.
    vm_compute in H. discriminate H.
  - vm_compute. repeat split; reflexivity.
Qed.

(** C5, amended. The guard against an empty tile list is in
    [fetch_and_clip_dem]: for a box that needs no tile (flipped in
    latitude or in longitude) it prints a warning and returns None, and
    the files, the requests and the spawned commands stay as they were.
    [merge_and_clip] has no such guard: whatever the tile list, it first
    creates the output directory, then spawns gdalbuildvrt. *)
Theorem fetch_and_clip_dem_no_tiles
        (E : Env) (b : BoundingBox) (cache_dir out_dir : string) (w : world) :
  Qfloor (ymax b) < Qfloor (ymin b) \/ Qfloor (xmax b) < Qfloor (xmin b) ->
  fetch_and_clip_dem E b cache_dir out_dir w
  = (Ok None,
     mkWorld (fs w) (requests w) (commands w)
             (stdout w ++ ["[WARN] No tiles found for the given bounding box."])
             (quad_calls w))
  /\ (forall w0,
        makedirs out_dir w = (Ok tt, w0) ->
        exists rest,
          commands (snd (merge_and_clip E [] b out_dir w))
          = commands w ++ ["gdalbuildvrt"; vrt_path_of out_dir]%string :: rest).
Proof.
  intros Hflip. split.
  - unfold fetch_and_clip_dem. rewrite (tiles_for_bbox_flipped b Hflip).
    reflexivity.
  - intros w0 Hmk.
    pose proof (makedirs_ok_inv _ _ _ _ Hmk) as (_ & _ & _ & Hcmd & _).
    unfold merge_and_clip, bind at 1. rewrite Hmk.
    unfold bind at 1, subprocess_run at 1.
    destruct (run_tool E _ (fs w0)) as [st1 f1].
    destruct (st1 =? 0).
    + unfold bind at 1, subprocess_run. cbn [fs requests commands stdout quad_calls].
      destruct (run_tool E _ f1) as [st2 f2].
      destruct (st2 =? 0).
      * unfold bind, path_exists, remove, print, ret, exists_in. cbn [fs].
        destruct (f2 !! vrt_path_of out_dir) as [[data |] |] eqn:Hl;
          cbn [fs]; rewrite ?Hl; simpl;
          rewrite Hcmd, <- app_assoc; eexists; reflexivity.
      * simpl. rewrite Hcmd, <- app_assoc. eexists; reflexivity.
    + simpl. rewrite Hcmd. exists []. reflexivity.
Qed.

Lemma fetch_and_clip_dem_no_tiles_sample :
  (Qfloor (ymax Sim.flipped_box) < Qfloor (ymin Sim.flipped_box)
   \/ Qfloor (xmax Sim.flipped_box) < Qfloor (xmin Sim.flipped_box))
  /\ fetch_and_clip_dem Sim.tile_env Sim.flipped_box "cache" "out" Sim.world0
     = (Ok None,
        mkWorld ∅ [] [] ["[WARN] No tiles found for the given bounding box."%string] []).
Proof.
  assert (H : Qfloor (ymax Sim.flipped_box) < Qfloor (ymin Sim.flipped_box)
              \/ Qfloor (xmax Sim.flipped_box) < Qfloor (xmin Sim.flipped_box))
    by (left; vm_compute; reflexivity).
  split; [exact H |].
  exact (proj1 (fetch_and_clip_dem_no_tiles Sim.tile_env Sim.flipped_box
                                            "cache" "out" Sim.world0 H)).
Defined.

End DemFacts.

(** ** The archive extraction *)

Module ArchiveFacts.
Import PyStr Frame FetchFacts.

(** When the extraction reports success, the archive is gone. *)
Lemma extract_ok_removes_zip E zip_path dir ext w p w' :
  extract_zip_and_rename E zip_path dir ext w = (Ok (true, p), w') ->
  fs w' !! zip_path = None.
Proof.
  unfold extract_zip_and_rename. intros H.
  apply bind_ok_inv in H as ([] & w0 & _ & H).
  unfold try_except in H.
  match type of H with
  | context [match ?m w0 with _ => _ end] =>
      destruct (m w0) as [[r | e] w1] eqn:Hm
  end.
  - injection H as -> ->.
    apply bind_ok_inv in Hm as (infolist & w2 & _ & Hm).
    destruct (List.find _ infolist) as [[name data] |];
      [| discriminate Hm].
    apply bind_ok_inv in Hm as (extracted & w3 & _ & Hm).
    apply bind_ok_inv in Hm as ([] & w4 & _ & Hm).
    apply bind_ok_inv in Hm as ([] & w5 & _ & Hm).
    apply bind_ok_inv in Hm as ([] & w6 & Hrm & Hm).
    apply bind_ok_inv in Hm as ([] & w7 & Hpr & Hm).
    injection Hm as _ <-.
    apply remove_ok_inv in Hrm.
    assert (Hk : fs w7 = fs w6)
      by (unfold print in Hpr; injection Hpr as <-; reflexivity).
    rewrite Hk, Hrm. apply lookup_delete_eq.
  - destruct e; try discriminate H.
    apply bind_ok_inv in H as ([] & w2 & _ & H). discriminate H.
Qed.

(** When the file is no zip archive, it is deleted and the failure is
    reported. *)
Lemma extract_corrupt_removes_zip E zip_path dir ext w w0 data :
  makedirs dir w = (Ok tt, w0) ->
  fs w0 !! zip_path = Some (File data) ->
  zip_members E data = None ->
  exists w',
    extract_zip_and_rename E zip_path dir ext w
    = (Ok (false, "Bad zip file (deleted): " +:+ zip_path), w')
    /\ fs w' !! zip_path = None.
Proof.
  intros Hmk Hl Hz.
  unfold extract_zip_and_rename, bind at 1. rewrite Hmk.
  unfold try_except, bind at 1, zip_open. rewrite Hl, Hz.
  unfold bind, remove. rewrite Hl.
  eexists. split; [reflexivity |]. simpl. apply lookup_delete_eq.
Qed.

(** When the archive holds no member of the wanted extension, the
    function returns from inside the [with] block: the failure is
    reported and the archive stays where it was. *)
Lemma extract_no_member_keeps_zip E zip_path dir ext w w0 data members :
  makedirs dir w = (Ok tt, w0) ->
  fs w0 !! zip_path = Some (File data) ->
  zip_members E data = Some members ->
  List.find (fun f_info => endswith (fst f_info) ext) members = None ->
  extract_zip_and_rename E zip_path dir ext w
  = (Ok (false, "No '" +:+ ext +:+ "' file found in " +:+ zip_path), w0).
Proof.
  intros Hmk Hl Hz Hfind.
  unfold extract_zip_and_rename, bind at 1. rewrite Hmk.
  unfold try_except, bind at 1, zip_open. rewrite Hl, Hz, Hfind.
  reflexivity.
Qed.

(** C2, at a run that breaks the claim. The archive holds [readme.txt]
    only: the call reports that no [.gpkg] member was found and the
    archive is still on disk. *)
Theorem no_member_leaves_archive :
  let r := extract_zip_and_rename Sim.readme_env "raw/a.zip" "extracted" ".gpkg"
                                  Sim.archive_world in
  fst r = Ok (false, "No '.gpkg' file found in raw/a.zip"%string)
  /\ fs (snd r) !! "raw/a.zip"%string = Some (File "PK").
Proof. vm_compute. split; reflexivity. Qed.

(** The same archive path with a member of the wanted extension, stored
    under a nested name. *)
Example nested_member_extracted :
  let r := extract_zip_and_rename Sim.quad_env "raw/a.zip" "extracted" ".gpkg"
                                  Sim.archive_world in
  fst r = Ok (true, "extracted/a.gpkg"%string)
  /\ fs (snd r) !! "raw/a.zip"%string = None
  /\ fs (snd r) !! "extracted/a.gpkg"%string = Some (File "layers")
  /\ fs (snd r) !! "extracted/sub/dir/file.gpkg"%string = None.
Proof. vm_compute. repeat split; reflexivity. Qed.

End ArchiveFacts.

(** ** The dedup key *)

Module KeyFacts.
Import PyStr PyStrFacts Frame USGSTopoDownloader QuadFacts.

(** The first item of the split is the text before the first comma. *)
Lemma item0_split_comma (s : string) :
  item0 (split "," s) = Spec.first_comma_token s.
Proof.
  induction s as [|c s IH]; [reflexivity |]. simpl.
  destruct (Ascii.eqb c ","); [reflexivity |].
  rewrite <- IH. destruct (split "," s); reflexivity.
Qed.

Lemma first_comma_token_no_comma (s : string) :
  contains_char "," (Spec.first_comma_token s) = false.
Proof.
  induction s as [|c s IH]; [reflexivity |]. simpl.
  destruct (Ascii.eqb c ",") eqn:Hc; [reflexivity |].
  simpl. now rewrite Hc, IH.
Qed.

Lemma lstrip_no_char (c : ascii) (s : string) :
  contains_char c s = false -> contains_char c (lstrip s) = false.
Proof.
  induction s as [|d s IH]; [reflexivity |]. simpl. intros H.
  apply orb_false_iff in H as [Hd Hs].
  destruct (is_space d); [now apply IH |]. simpl. now rewrite Hd, Hs.
Qed.

Lemma rstrip_no_char (c : ascii) (s : string) :
  contains_char c s = false -> contains_char c (rstrip s) = false.
Proof.
  induction s as [|d s IH]; [reflexivity |]. simpl. intros H.
  apply orb_false_iff in H as [Hd Hs].
  destruct (is_space d && is_empty (rstrip s)); [reflexivity |].
  simpl. now rewrite Hd, IH.
Qed.

Lemma strip_no_char (c : ascii) (s : string) :
  contains_char c s = false -> contains_char c (strip s) = false.
Proof. intros H. unfold strip. now apply rstrip_no_char, lstrip_no_char. Qed.

Lemma replace_space_no_space (s : string) :
  contains_char " " (replace " " "_" s) = false.
Proof.
  induction s as [|c s IH]; [reflexivity |]. unfold replace in *. simpl.
  rewrite IH. destruct (Ascii.eqb c " ") eqn:Hc; [reflexivity |].
  now rewrite Hc.
Qed.

Lemma append_inj_l (s t u : string) : s +:+ t = s +:+ u -> t = u.
Proof.
  induction s as [|c s IH]; intros H; [exact H |].
  rewrite !app_String in H. injection H as H. now apply IH.
Qed.

(** With one quad name, distinct states give distinct keys. *)
Lemma quad_key_of_state_inj (q s s' : string) :
  quad_key_of q s = quad_key_of q s' -> s = s'.
Proof.
  unfold quad_key_of. intros H. apply append_inj_l in H.
  now apply (append_inj_l "_") in H.
Qed.

(** A record with a name and a state puts its key in the dedup set. *)
Lemma loop_body_processed E self v name state w v' w' :
  is_empty state = false ->
  loop_body E self v (mkFeature (Some name) (Some state)) w = (Ok v', w') ->
  processed_quads v'
  = {[quad_key_of (replace " " "_" (strip name))
                  (strip (item0 (split "," state)))]} ∪ processed_quads v.
Proof.
  intros Hstate H. unfold loop_body, bind in H.
  simpl CELL_NAME in H. simpl STATE_ALPHA in H.
  rewrite get_quad_info_some in H by exact Hstate.
  simpl processed_quads in H.
  destruct (bool_decide _) eqn:Hseen.
  - apply bool_decide_eq_true in Hseen. injection H as <- _. simpl.
    apply set_eq. intros k. rewrite elem_of_union, elem_of_singleton.
    split; [auto | intros [-> | Hk]; assumption].
  - destruct (_process_quad E self _ _ w) as [[[|] | e] w1];
      [injection H as <- _ | injection H as <- _ | discriminate H];
      reflexivity.
Qed.

(** C3 as stated fails: the state is not upper-cased in the key. The
    records ("Foo Bar", "NE,SD") and ("Foo_Bar", "ne") have one key by
    the normalization of the specification, and two keys, two entries
    of the dedup set, in the code. *)
Lemma state_case_kept_in_key :
  ~ (forall name state : string,
        is_empty state = false ->
        fst (_get_quad_info (Some name) (Some state) Sim.world0)
        = Ok (Some (Spec.quadrangle_key name state)))
  /\ Spec.quadrangle_key "Foo Bar" "NE,SD" = Spec.quadrangle_key "Foo_Bar" "ne"
  /\ fst (_get_quad_info (Some "Foo Bar"%string) (Some "NE,SD"%string) Sim.world0)
     = Ok (Some ("Foo_Bar", "NE")%string)
  /\ fst (_get_quad_info (Some "Foo_Bar"%string) (Some "ne"%string) Sim.world0)
     = Ok (Some ("Foo_Bar", "ne")%string)
  /\ exists v,
       fst (for_each (loop_body Sim.quad_env Sim.downloader)
                     [mkFeature (Some "Foo Bar"%string) (Some "NE,SD"%string);
                      mkFeature (Some "Foo_Bar"%string) (Some "ne"%string)]
                     (mkLoopVars ∅ 0 0) Sim.quad_world) = Ok v
       /\ size (processed_quads v) = 2%nat.
Proof.
  split; [| split; [| split; [| split]]].
  - intros H. specialize (H "Foo_Bar"%string "ne"%string eq_refl).
    vm_compute in H. discriminate H.
  - reflexivity.
  - reflexivity.
  - reflexivity.
  - eexists. split; vm_compute; reflexivity.
Qed.

(** A set of two keys has one element when they are equal and two when
    they differ. *)
Lemma pair_size (a b : string) :
  (a = b -> size ({[a; b]} : gset string) = 1%nat)
  /\ (a <> b -> size ({[a; b]} : gset string) = 2%nat).
Proof.
  split.
  - intros <-.
    replace ({[a; a]} : gset string) with ({[a]} : gset string).
    + apply size_singleton.
    + apply set_eq. intros k. rewrite elem_of_union, elem_of_singleton. tauto.
  - intros Hne.
    rewrite size_union, !size_singleton; [reflexivity |].
    apply disjoint_singleton_l. rewrite elem_of_singleton. exact Hne.
Qed.

(** The joined key does not tell where the name ends: the records
    ("Foo", "Bar_NE") and ("Foo Bar", "NE") have one key. *)
Lemma joined_key_collision :
  fst (_get_quad_info (Some "Foo"%string) (Some "Bar_NE"%string) Sim.world0)
  = Ok (Some ("Foo", "Bar_NE")%string)
  /\ fst (_get_quad_info (Some "Foo Bar"%string) (Some "NE"%string) Sim.world0)
     = Ok (Some ("Foo_Bar", "NE")%string)
  /\ quad_key_of "Foo" "Bar_NE" = quad_key_of "Foo_Bar" "NE".
Proof. repeat split; reflexivity. Qed.

(** C3, amended. For a record with a name and a non-empty state field,
    the quad name is the name without the surrounding whitespace and with
    each space replaced by an underscore, and the state abbreviation is
    the text before the first comma of the state field without the
    surrounding whitespace, in the letter case of the record; the dedup
    key joins the two with an underscore. Two such records in a row make
    one entry of the dedup set exactly when their joined keys are equal,
    and two entries exactly when the joined keys differ. So those with one
    quad name and one state abbreviation make one entry, and those with
    one quad name and state abbreviations that differ, be it in letter
    case only, make two. *)
Theorem quad_key_normalization
        (E : Env) (self : t) (n1 s1 n2 s2 : string) (w : world)
        (v : loop_vars) (w' : world) :
  is_empty s1 = false -> is_empty s2 = false ->
  let q1 := replace " " "_" (strip n1) in
  let t1 := strip (Spec.first_comma_token s1) in
  let q2 := replace " " "_" (strip n2) in
  let t2 := strip (Spec.first_comma_token s2) in
  for_each (loop_body E self)
           [mkFeature (Some n1) (Some s1); mkFeature (Some n2) (Some s2)]
           (mkLoopVars ∅ 0 0) w = (Ok v, w') ->
  _get_quad_info (Some n1) (Some s1) w = (Ok (Some (q1, t1)), w)
  /\ contains_char " " q1 = false /\ contains_char "," t1 = false
  /\ processed_quads v = {[quad_key_of q1 t1; quad_key_of q2 t2]}
  /\ (q1 = q2 -> t1 = t2 -> size (processed_quads v) = 1%nat)
  /\ (q1 = q2 -> t1 <> t2 -> size (processed_quads v) = 2%nat)
  /\ (quad_key_of q1 t1 = quad_key_of q2 t2
      <-> size (processed_quads v) = 1%nat)
  /\ (quad_key_of q1 t1 <> quad_key_of q2 t2
      <-> size (processed_quads v) = 2%nat).
Proof.
  intros H1 H2 q1 t1 q2 t2 Hrun.
  simpl in Hrun.
  apply bind_ok_inv in Hrun as (v1 & w1 & Hb1 & Hrun).
  apply bind_ok_inv in Hrun as (v2 & w2 & Hb2 & Hrun).
  injection Hrun as -> ->.
  apply loop_body_processed in Hb1; [| exact H1].
  apply loop_body_processed in Hb2; [| exact H2].
  rewrite item0_split_comma in Hb1, Hb2. fold q1 t1 in Hb1. fold q2 t2 in Hb2.
  simpl in Hb1.
  assert (Hset : processed_quads v = {[quad_key_of q1 t1; quad_key_of q2 t2]}).
  { rewrite Hb2, Hb1. apply set_eq. intros k.
    rewrite !elem_of_union, !elem_of_singleton, elem_of_empty. tauto. }
  split.
  { rewrite get_quad_info_some by exact H1.
    rewrite item0_split_comma. reflexivity. }
  split; [apply replace_space_no_space |].
  split; [apply strip_no_char, first_comma_token_no_comma |].
  split; [exact Hset |].
  destruct (pair_size (quad_key_of q1 t1) (quad_key_of q2 t2))
    as (Hone & Htwo).
  rewrite <- Hset in Hone, Htwo.
  split; [| split; [| split]].
  - intros <- <-. now apply Hone.
  - intros <- Hne. apply Htwo.
    intros Heq. apply quad_key_of_state_inj in Heq. contradiction.
  - split; [exact Hone |]. intros Hsz.
    destruct (decide (quad_key_of q1 t1 = quad_key_of q2 t2)) as [Heq | Hne];
      [exact Heq |].
    rewrite (Htwo Hne) in Hsz. discriminate Hsz.
  - split; [exact Htwo |]. intros Hsz Heq.
    rewrite (Hone Heq) in Hsz. discriminate Hsz.
Qed.

Lemma quad_key_normalization_sample :
  let feats := [mkFeature (Some "Foo Bar"%string) (Some "NE,SD"%string);
                mkFeature (Some "Foo_Bar"%string) (Some "ne"%string)] in
  let r := for_each (loop_body Sim.quad_env Sim.downloader) feats
                    (mkLoopVars ∅ 0 0) Sim.quad_world in
  let v := match fst r with Ok v => v | Raise _ => mkLoopVars ∅ 0 0 end in
  is_empty "NE,SD" = false /\ is_empty "ne" = false
  /\ r = (Ok v, snd r)
  /\ processed_quads v = {["Foo_Bar_NE"; "Foo_Bar_ne"]}
  /\ size (processed_quads v) = 2%nat.
Proof.
  intros feats r v.
  assert (Hrun : r = (Ok v, snd r)) by (vm_compute; reflexivity).
  split; [reflexivity |]. split; [reflexivity |]. split; [exact Hrun |].
  destruct (quad_key_normalization Sim.quad_env Sim.downloader
              "Foo Bar" "NE,SD" "Foo_Bar" "ne" Sim.quad_world v (snd r)
              eq_refl eq_refl Hrun) as (_ & _ & _ & Hset & _ & Htwo & _).
  split; [exact Hset |].
  apply Htwo; [reflexivity | discriminate].
Defined.

End KeyFacts.

(** * Further properties of the code *)

(** ** Strings and paths *)

Module StrMore.
Import PyStr PyStrFacts.

Lemma length_append (s t : string) :
  String.length (s +:+ t) = (String.length s + String.length t)%nat.
Proof.
  induction s as [|c s IH]; [reflexivity |].
  rewrite app_String. simpl. now rewrite IH.
Qed.

(** Two splittings of one string at one position agree. *)
Lemma append_eq_len (s t u v : string) :
  String.length s = String.length t -> s +:+ u = t +:+ v -> s = t /\ u = v.
Proof.
  revert t. induction s as [|c s IH]; intros [|d t] Hlen H;
    try discriminate Hlen.
  - auto.
  - rewrite !app_String in H. injection H as -> H.
    injection Hlen as Hlen. destruct (IH t Hlen H) as [-> ->]. auto.
Qed.

Lemma append_inj_r (s t u : string) : s +:+ u = t +:+ u -> s = t.
Proof.
  intros H. assert (Hlen : String.length s = String.length t).
  { apply (f_equal String.length) in H. rewrite !length_append in H. lia. }
  now destruct (append_eq_len s t u u Hlen H).
Qed.

Lemma append_inj_left (s t u : string) : s +:+ t = s +:+ u -> t = u.
Proof.
  induction s as [|c s IH]; intros H; [exact H |].
  rewrite !app_String in H. injection H as H. now apply IH.
Qed.

Lemma append_assoc_s (s t u : string) : (s +:+ t) +:+ u = s +:+ (t +:+ u).
Proof.
  induction s as [|c s IH]; [reflexivity |].
  rewrite !app_String, IH. reflexivity.
Qed.

Lemma is_empty_true (s : string) : is_empty s = true -> s = EmptyString.
Proof. destruct s; [reflexivity | discriminate]. Qed.

(** A name without a slash is its own last component. *)
Lemma rsplit_slash_plain (n : string) :
  contains_char "/" n = false -> OsPath.rsplit_slash n = (EmptyString, n).
Proof.
  induction n as [|c n IH]; [reflexivity |]. simpl. intros H.
  apply orb_false_iff in H as [Hc Hn]. rewrite (IH Hn). simpl.
  unfold OsPath.sep. now rewrite Hc.
Qed.

(** Appending a name without a slash extends the last component. *)
Lemma rsplit_slash_app (a n : string) :
  contains_char "/" n = false ->
  OsPath.rsplit_slash (a +:+ n)
  = (fst (OsPath.rsplit_slash a), snd (OsPath.rsplit_slash a) +:+ n).
Proof.
  intros Hn. induction a as [|c a IH].
  - simpl. now rewrite rsplit_slash_plain.
  - rewrite app_String. simpl. rewrite IH.
    destruct (OsPath.rsplit_slash a) as [h t]. simpl.
    destruct (is_empty h); [destruct (Ascii.eqb c OsPath.sep) |]; reflexivity.
Qed.

Lemma rsplit_slash_join (p : string) :
  fst (OsPath.rsplit_slash p) +:+ snd (OsPath.rsplit_slash p) = p.
Proof.
  induction p as [|c p IH]; [reflexivity |]. simpl.
  destruct (OsPath.rsplit_slash p) as [h t]. simpl in *.
  destruct (is_empty h) eqn:Hh.
  - apply is_empty_true in Hh. subst h. change (t = p) in IH. subst t.
    destruct (Ascii.eqb c OsPath.sep) eqn:Hc; [| reflexivity].
    apply Ascii.eqb_eq in Hc. subst c. reflexivity.
  - change (String c (h +:+ t) = String c p). now rewrite IH.
Qed.

Lemma rstrip_slash_length (s : string) :
  (String.length (OsPath.rstrip_slash s) <= String.length s)%nat.
Proof.
  induction s as [|c s IH]; [reflexivity |]. simpl.
  destruct (Ascii.eqb c OsPath.sep && is_empty (OsPath.rstrip_slash s)); simpl; lia.
Qed.

Lemma dirname_length (p : string) :
  (String.length (OsPath.dirname p)
   <= String.length (fst (OsPath.rsplit_slash p)))%nat.
Proof.
  unfold OsPath.dirname.
  destruct (is_empty _ || all_chars _ _); [lia | apply rstrip_slash_length].
Qed.

(** A path whose last component is not empty differs from its directory. *)
Lemma dirname_neq (p : string) :
  OsPath.basename p <> EmptyString -> OsPath.dirname p <> p.
Proof.
  intros Hb Heq. pose proof (dirname_length p) as Hlen. rewrite Heq in Hlen.
  pose proof (rsplit_slash_join p) as Hj.
  apply (f_equal String.length) in Hj. rewrite length_append in Hj.
  unfold OsPath.basename in Hb.
  destruct (snd (OsPath.rsplit_slash p)); [now apply Hb | simpl in Hj; lia].
Qed.

Lemma append_nonempty_r (s t : string) :
  t <> EmptyString -> s +:+ t <> EmptyString.
Proof. destruct s; [auto | discriminate]. Qed.

End StrMore.

(** ** More on tile keys and the tile grid *)

Module TileMore.
Import PyStr PyStrFacts StrMore TileGrid TileGridFacts.

Lemma contains_char_app (c : ascii) (s t : string) :
  contains_char c (s +:+ t) = contains_char c s || contains_char c t.
Proof.
  induction s as [|d s IH]; [reflexivity |].
  rewrite app_String. simpl. rewrite IH. now rewrite orb_assoc.
Qed.

Lemma digits_no_slash (s : string) :
  all_chars is_digit s = true -> contains_char "/" s = false.
Proof.
  induction s as [|d s IH]; [reflexivity |]. simpl. intros H.
  apply andb_true_iff in H as [Hd Hs]. rewrite (IH Hs), orb_false_r.
  destruct (Ascii.eqb d "/") eqn:E; [| reflexivity].
  apply Ascii.eqb_eq in E. subst d. discriminate Hd.
Qed.

Lemma tile_name_no_slash (lat lon : Z) :
  contains_char "/" (tile_name lat lon) = false.
Proof.
  unfold tile_name.
  assert (Ha : contains_char "/" (format_0d 2 (Z.abs lat)) = false)
    by (apply digits_no_slash, format_0d_digits; lia).
  assert (Ho : contains_char "/" (format_0d 3 (Z.abs lon)) = false)
    by (apply digits_no_slash, format_0d_digits; lia).
  destruct (0 <=? lat), (0 <=? lon);
    rewrite !contains_char_app, Ha, Ho; reflexivity.
Qed.

Lemma tile_file_not_absolute (lat lon : Z) :
  startswith (tile_name lat lon +:+ ".tif") "/" = false.
Proof. unfold tile_name. destruct (0 <=? lat); reflexivity. Qed.

(** The URL determines the key, for any key at all. *)
Lemma tile_url_inj (k k' : string) : tile_url k = tile_url k' -> k = k'.
Proof.
  unfold tile_url. intros H.
  apply append_inj_left in H. apply (append_inj_left "/") in H.
  assert (Hlen : String.length k = String.length k').
  { apply (f_equal String.length) in H. rewrite !length_append in H.
    simpl in H. lia. }
  now destruct (append_eq_len _ _ _ _ Hlen H).
Qed.

(** Membership in the enumeration. *)
Lemma tiles_for_bbox_In (b : BoundingBox) (k : string) :
  In k (tiles_for_bbox b) <->
  exists lat lon : Z,
    Qfloor (ymin b) <= lat <= Qfloor (ymax b)
    /\ Qfloor (xmin b) <= lon <= Qfloor (xmax b)
    /\ k = tile_name lat lon.
Proof.
  rewrite tiles_for_bbox_rows, in_flat_map. split.
  - intros (lat & Hlat & Hk). apply in_map_iff in Hk as (lon & <- & Hlon).
    apply py_range_In in Hlat, Hlon. exists lat, lon. repeat split; lia.
  - intros (lat & lon & Hlat & Hlon & ->). exists lat. split.
    + apply py_range_In. lia.
    + apply in_map, py_range_In. lia.
Qed.

(** X1. Two distinct cells never share a key, a URL or a cache file:
    [tile_name] is one-to-one on all pairs of integers, and so are the URL
    and the path in a cache directory built from it. *)
Theorem distinct_cells_distinct_resources
        (lat lon lat' lon' : Z) (cache_dir : string) :
  (lat, lon) <> (lat', lon') ->
  tile_name lat lon <> tile_name lat' lon'
  /\ tile_url (tile_name lat lon) <> tile_url (tile_name lat' lon')
  /\ OsPath.join cache_dir (tile_name lat lon +:+ ".tif")
     <> OsPath.join cache_dir (tile_name lat' lon' +:+ ".tif").
Proof.
  intros Hne.
  assert (Hk : tile_name lat lon <> tile_name lat' lon').
  { intros H. apply tile_name_inj in H as [-> ->]. now apply Hne. }
  split; [exact Hk |]. split.
  - intros H. now apply tile_url_inj in H.
  - unfold OsPath.join. rewrite !tile_file_not_absolute.
    destruct (is_empty cache_dir || endswith cache_dir "/"); intros H.
    + apply append_inj_left, append_inj_r in H. now apply Hk.
    + apply append_inj_left, (append_inj_left "/"), append_inj_r in H.
      now apply Hk.
Qed.

Lemma distinct_cells_distinct_resources_sample :
  (42, -103) <> (43, -103)
  /\ tile_name 42 (-103) <> tile_name 43 (-103)
  /\ OsPath.join "cache" (tile_name 42 (-103) +:+ ".tif")
     <> OsPath.join "cache" (tile_name 43 (-103) +:+ ".tif").
Proof.
  assert (H : (42, -103) <> (43, -103)) by discriminate.
  split; [exact H |].
  destruct (distinct_cells_distinct_resources 42 (-103) 43 (-103) "cache" H)
    as (Hk & _ & Hp).
  split; [exact Hk | exact Hp].
Defined.

(** X2. The tiles cover the box: for every point of the box, the key of
    the one-degree cell that holds the point is in the list. *)
Theorem tiles_cover_box (b : BoundingBox) (x y : Q) :
  (xmin b <= x)%Q -> (x <= xmax b)%Q -> (ymin b <= y)%Q -> (y <= ymax b)%Q ->
  In (tile_name (Qfloor y) (Qfloor x)) (tiles_for_bbox b).
Proof.
  intros Hx1 Hx2 Hy1 Hy2. apply tiles_for_bbox_In.
  apply Qfloor_resp_le in Hx1, Hx2, Hy1, Hy2.
  exists (Qfloor y), (Qfloor x). repeat split; assumption.
Qed.

Lemma tiles_cover_box_sample :
  let p := ((-1027 # 10)%Q, 43%Q) in
  (xmin Sim.box <= fst p)%Q /\ (fst p <= xmax Sim.box)%Q
  /\ (ymin Sim.box <= snd p)%Q /\ (snd p <= ymax Sim.box)%Q
  /\ In "n43w103"%string (tiles_for_bbox Sim.box).
Proof.
  intros p.
  assert (H1 : (xmin Sim.box <= fst p)%Q) by (unfold Qle; simpl; lia).
  assert (H2 : (fst p <= xmax Sim.box)%Q) by (unfold Qle; simpl; lia).
  assert (H3 : (ymin Sim.box <= snd p)%Q) by (unfold Qle; simpl; lia).
  assert (H4 : (snd p <= ymax Sim.box)%Q) by (unfold Qle; simpl; lia).
  repeat (split; [assumption |]).
  exact (tiles_cover_box Sim.box (fst p) (snd p) H1 H2 H3 H4).
Defined.

(** X3. A box inside another box needs no tile that the other does not
    need. *)
Theorem tiles_monotone (b b' : BoundingBox) :
  (xmin b' <= xmin b)%Q -> (xmax b <= xmax b')%Q ->
  (ymin b' <= ymin b)%Q -> (ymax b <= ymax b')%Q ->
  incl (tiles_for_bbox b) (tiles_for_bbox b').
Proof.
  intros Hx1 Hx2 Hy1 Hy2 k Hk.
  apply Qfloor_resp_le in Hx1, Hx2, Hy1, Hy2.
  apply tiles_for_bbox_In in Hk as (lat & lon & Hlat & Hlon & ->).
  apply tiles_for_bbox_In. exists lat, lon. repeat split; lia.
Qed.

Lemma tiles_monotone_sample :
  let inner := mkBoundingBox (-1029 # 10) (429 # 10) (-1026 # 10) (43 # 1) in
  (xmin Sim.box <= xmin inner)%Q /\ (xmax inner <= xmax Sim.box)%Q
  /\ (ymin Sim.box <= ymin inner)%Q /\ (ymax inner <= ymax Sim.box)%Q
  /\ incl (tiles_for_bbox inner) (tiles_for_bbox Sim.box).
Proof.
  intros inner.
  assert (H1 : (xmin Sim.box <= xmin inner)%Q) by (unfold Qle; simpl; lia).
  assert (H2 : (xmax inner <= xmax Sim.box)%Q) by (unfold Qle; simpl; lia).
  assert (H3 : (ymin Sim.box <= ymin inner)%Q) by (unfold Qle; simpl; lia).
  assert (H4 : (ymax inner <= ymax Sim.box)%Q) by (unfold Qle; simpl; lia).
  repeat (split; [assumption |]).
  exact (tiles_monotone inner Sim.box H1 H2 H3 H4).
Defined.


Lemma format_width (w : nat) (bound : nat) (a : Z) :
  forallb (fun n => Nat.eqb (String.length (format_0d w (Z.of_nat n))) w)
          (seq 0 bound) = true ->
  0 <= a < Z.of_nat bound -> String.length (format_0d w a) = w.
Proof.
  intros Hall Ha. rewrite forallb_forall in Hall.
  specialize (Hall (Z.to_nat a)). rewrite Z2Nat.id in Hall by lia.
  apply Nat.eqb_eq, Hall, in_seq. lia.
Qed.

(** X5. In the range of the grid, latitudes from -99 to 99 and longitudes
    from -999 to 999, every key has exactly seven characters. *)
Theorem tile_name_width (lat lon : Z) :
  -99 <= lat <= 99 -> -999 <= lon <= 999 ->
  String.length (tile_name lat lon) = 7%nat.
Proof.
  intros Hlat Hlon. unfold tile_name.
  assert (H2 : String.length (format_0d 2 (Z.abs lat)) = 2%nat).
  { apply (format_width 2 100); [vm_compute; reflexivity | lia]. }
  assert (H3 : String.length (format_0d 3 (Z.abs lon)) = 3%nat).
  { apply (format_width 3 1000); [vm_compute; reflexivity | lia]. }
  destruct (0 <=? lat), (0 <=? lon);
    rewrite !length_append, H2, H3; reflexivity.
Qed.

Lemma tile_name_width_sample :
  -99 <= -3 <= 99 /\ -999 <= 5 <= 999
  /\ String.length (tile_name (-3) 5) = 7%nat.
Proof.
  assert (H1 : -99 <= -3 <= 99) by lia.
  assert (H2 : -999 <= 5 <= 999) by lia.
  split; [exact H1 |]. split; [exact H2 |].
  exact (tile_name_width (-3) 5 H1 H2).
Defined.

End TileMore.

(** ** More on fetching into the cache *)

Module FetchMore.
Import PyStr PyStrFacts StrMore Frame TileGrid FetchFacts.


Lemma status_err_true (status : Z) :
  400 <= status < 600 -> (400 <=? status) && (status <? 600) = true.
Proof.
  intros [H1 H2]. apply andb_true_iff. split; [now apply Z.leb_le | now apply Z.ltb_lt].
Qed.

(** X6. When [download_file] reports success it made one request, the
    message is None, the answer had a status that is no error and a
    length other than 0, and the target file holds all the chunks of the
    body, in order, and nothing else. *)
Theorem download_file_complete_body
        (E : Env) (url path : string) (w : world)
        (msg : option string) (w' : world) :
  download_file E url path w = (Ok (true, msg), w') ->
  msg = None
  /\ requests w' = requests w ++ [url]
  /\ exists chunks,
       complete_body (server E (requests w) url) chunks
       /\ fs w' !! path = Some (File (concat_chunks chunks)).
Proof.
  intros H.
  destruct (makedirs (OsPath.dirname path) w) as [[[] | e] w0] eqn:Hmk;
    [| rewrite (download_file_makedirs_raise E url path w e w0 Hmk) in H;
       discriminate H].
  rewrite (download_file_spec E url path w w0 Hmk) in H.
  apply makedirs_ok_inv in Hmk as (_ & _ & Hreq & _). rewrite Hreq in H.
  cbv zeta in H.
  destruct (server E (requests w) url) as [why | st rs len chunks broken];
    [discriminate H |].
  destruct ((400 <=? st) && (st <? 600)) eqn:Hst; [discriminate H |].
  destruct (total_size_of _ =? 0) eqn:Hlen; [discriminate H |].
  assert (Hbody : exists n, len = Some n /\ n <> 0).
  { destruct len as [n |]; [| discriminate Hlen].
    exists n. split; [reflexivity |]. now apply Z.eqb_neq. }
  destruct Hbody as (n & -> & Hn).
  assert (Hok : ~ (400 <= st < 600)).
  { intros Hr. rewrite (status_err_true st Hr) in Hst. discriminate Hst. }
  destruct (fs w0 !! path) as [[data |] |];
    try discriminate H; destruct broken; try discriminate H;
    injection H as <- <-; simpl;
    (split; [reflexivity |]); (split; [reflexivity |]);
    exists chunks; (split; [exists st, rs, n; auto | apply lookup_insert_eq]).
Qed.

Lemma download_file_complete_body_sample :
  let r := download_file Sim.tile_env "http://host/tile.tif" "cache/tile.tif"
                         Sim.world0 in
  r = (Ok (true, None), snd r)
  /\ requests (snd r) = ["http://host/tile.tif"%string]
  /\ exists chunks,
       complete_body (server Sim.tile_env [] "http://host/tile.tif") chunks
       /\ fs (snd r) !! "cache/tile.tif"%string = Some (File (concat_chunks chunks)).
Proof.
  intros r.
  assert (H : r = (Ok (true, None), snd r)) by (vm_compute; reflexivity).
  split; [exact H |].
  destruct (download_file_complete_body Sim.tile_env _ _ _ _ _ H)
    as (_ & Hreq & Hbody).
  split; [exact Hreq | exact Hbody].
Defined.


(** X7. A fetch that fails before the body is read (no response, an HTTP
    error status, no Content-Length header or a length of 0) is reported as
    (False, message) after one request, and no file is written, truncated
    or removed: the files and their contents are the same before and after
    (directories apart, which [os.makedirs] may create), so a file left at
    the target by an earlier run stays as it was. *)
Theorem download_file_early_failure_writes_nothing
        (E : Env) (url path : string) (w : world) :
  usable_dir (fs w) (OsPath.dirname path) ->
  fails_before_body (server E (requests w) url) ->
  exists msg w',
    download_file E url path w = (Ok (false, Some msg), w')
    /\ requests w' = requests w ++ [url]
    /\ (forall p data,
          fs w' !! p = Some (File data) <-> fs w !! p = Some (File data)).
Proof.
  intros Hdir Hfail.
  destruct (makedirs_usable _ _ Hdir) as (w0 & Hmk).
  rewrite (download_file_spec E url path w w0 Hmk).
  apply makedirs_ok_inv in Hmk as (_ & Hd & Hreq & _ & _ & _ & Hother & _).
  assert (Hfiles : forall p data,
             fs w0 !! p = Some (File data) <-> fs w !! p = Some (File data)).
  { intros p data.
    destruct (decide (p = OsPath.dirname path)) as [-> | Hne].
    - rewrite Hd. split; [discriminate |].
      intros H. now destruct (proj2 Hdir data).
    - now rewrite (Hother p Hne). }
  rewrite Hreq. cbv zeta. unfold fails_before_body in Hfail.
  destruct (server E (requests w) url) as [why | st rs len chunks broken].
  - eexists _, _. split; [reflexivity |]. simpl. auto.
  - destruct ((400 <=? st) && (st <? 600)) eqn:Hst.
    + eexists _, _. split; [reflexivity |]. simpl. auto.
    + destruct Hfail as [Hr | [-> | ->]].
      * rewrite (status_err_true st Hr) in Hst. discriminate Hst.
      * eexists _, _. split; [reflexivity |]. simpl. auto.
      * eexists _, _. split; [reflexivity |]. simpl. auto.
Qed.

Lemma download_file_early_failure_writes_nothing_sample :
  usable_dir (fs Sim.tile_world) (OsPath.dirname "cache/n42w103.tif")
  /\ fails_before_body (server Sim.missing_env (requests Sim.tile_world)
                               "http://host/n42w103.tif")
  /\ exists msg w',
       download_file Sim.missing_env "http://host/n42w103.tif"
                     "cache/n42w103.tif" Sim.tile_world
       = (Ok (false, Some msg), w')
       /\ fs w' !! "cache/n42w103.tif"%string = Some (File "II*dem").
Proof.
  assert (H1 : usable_dir (fs Sim.tile_world) (OsPath.dirname "cache/n42w103.tif"))
    by (split; [reflexivity | intros data H; vm_compute in H; discriminate H]).
  assert (H2 : fails_before_body (server Sim.missing_env (requests Sim.tile_world)
                                         "http://host/n42w103.tif"))
    by (left; lia).
  split; [exact H1 |]. split; [exact H2 |].
  destruct (download_file_early_failure_writes_nothing
              Sim.missing_env "http://host/n42w103.tif" "cache/n42w103.tif"
              Sim.tile_world H1 H2) as (msg & w' & Hrun & _ & Hkeep).
  exists msg, w'. split; [exact Hrun |].
  apply Hkeep. reflexivity.
Defined.








End FetchMore.

(** ** More on the compositor and the raster job *)

Module DemMore.
Import PyStr Frame TileGrid FetchFacts FetchMore.

Lemma makedirs_keeps_commands path : keeps commands (makedirs path).
Proof. keeps_prim. Qed.
Lemma open_wb_keeps_commands path : keeps commands (open_wb path).
Proof. keeps_prim. Qed.
Lemma write_chunk_keeps_commands path chunk : keeps commands (write_chunk path chunk).
Proof. keeps_prim. Qed.
Lemma remove_keeps_commands path : keeps commands (remove path).
Proof. keeps_prim. Qed.
Lemma requests_get_keeps_commands E url : keeps commands (requests_get E url).
Proof. intros w. unfold requests_get. destruct (server E _ _); reflexivity. Qed.

Lemma download_file_keeps_commands E url path :
  keeps commands (download_file E url path).
Proof.
  unfold download_file, raise_for_status, write_body. keeps_auto;
    auto using makedirs_keeps_commands, open_wb_keeps_commands,
      write_chunk_keeps_commands, requests_get_keeps_commands.
Qed.

Lemma download_tile_keeps_commands E key dir :
  keeps commands (download_tile E key dir).
Proof.
  unfold download_tile. keeps_auto;
    auto using makedirs_keeps_commands, download_file_keeps_commands.
Qed.

(** One call of [download_file] makes at most one request. *)
Lemma download_file_requests_le E url path w :
  (length (requests (snd (download_file E url path w)))
   <= length (requests w) + 1)%nat.
Proof.
  destruct (makedirs (OsPath.dirname path) w) as [[[] | e] w0] eqn:Hmk.
  - rewrite (download_file_spec E url path w w0 Hmk).
    apply makedirs_ok_inv in Hmk as (_ & _ & Hreq & _). cbv zeta.
    destruct (server E (requests w0) url) as [why | st rs len chunks broken];
      [simpl; rewrite length_app, Hreq; simpl; lia |].
    destruct ((400 <=? st) && (st <? 600));
      [simpl; rewrite length_app, Hreq; simpl; lia |].
    destruct (total_size_of _ =? 0);
      [simpl; rewrite length_app, Hreq; simpl; lia |].
    destruct (fs w0 !! path) as [[data |] |]; try destruct broken;
      simpl; rewrite length_app, Hreq; simpl; lia.
  - rewrite (download_file_makedirs_raise E url path w e w0 Hmk). simpl.
    pose proof (makedirs_keeps_requests (OsPath.dirname path) w) as Hk.
    rewrite Hmk in Hk. simpl in Hk. rewrite Hk. lia.
Qed.

Lemma download_tile_requests_le E key dir w :
  (length (requests (snd (download_tile E key dir w)))
   <= length (requests w) + 1)%nat.
Proof.
  unfold download_tile, bind at 1.
  pose proof (makedirs_keeps_requests dir w) as Hk.
  destruct (makedirs dir w) as [[[] | e] w0]; simpl in Hk;
    [| simpl; rewrite Hk; lia].
  unfold bind at 1, path_exists.
  destruct (exists_in (fs w0) _).
  - simpl. rewrite Hk. lia.
  - unfold bind at 1, print at 1. unfold bind.
    match goal with
    | |- context [download_file E ?u ?p ?w1] =>
        pose proof (download_file_requests_le E u p w1) as Hle;
        destruct (download_file E u p w1) as [[[[|] msg] | e] w2]
    end; simpl in *; rewrite Hk in Hle; exact Hle.
Qed.

(** The path [download_tile] returns, when it returns. *)
Lemma download_tile_ok_path E key dir w p w' :
  download_tile E key dir w = (Ok p, w') ->
  p = OsPath.join dir (key +:+ ".tif").
Proof.
  unfold download_tile. intros H.
  apply bind_ok_inv in H as ([] & w0 & _ & H).
  apply bind_ok_inv in H as (cached & w1 & _ & H).
  destruct cached.
  - apply bind_ok_inv in H as ([] & w2 & _ & H). now injection H as <- _.
  - apply bind_ok_inv in H as ([] & w2 & _ & H).
    apply bind_ok_inv in H as ([[|] msg] & w3 & _ & H);
      [now injection H as <- _ | discriminate H].
Qed.

Lemma download_all_keeps_commands E cache_dir tiles acc :
  keeps commands (download_all E cache_dir tiles acc).
Proof.
  unfold download_all. keeps_auto. apply download_tile_keeps_commands.
Qed.

Lemma download_all_requests_le E cache_dir tiles acc w :
  (length (requests (snd (download_all E cache_dir tiles acc w)))
   <= length (requests w) + length tiles)%nat.
Proof.
  unfold download_all.
  revert acc w. induction tiles as [|k tiles IH]; intros acc w; simpl; [lia |].
  unfold bind at 1. unfold bind at 1.
  pose proof (download_tile_requests_le E k cache_dir w) as Hle.
  destruct (download_tile E k cache_dir w) as [[p | e] w1]; simpl in *; [| lia].
  specialize (IH (acc ++ [p]) w1). lia.
Qed.

Lemma download_all_ok_paths E cache_dir tiles acc w paths w' :
  download_all E cache_dir tiles acc w = (Ok paths, w') ->
  paths = acc ++ map (fun k => OsPath.join cache_dir (k +:+ ".tif")) tiles.
Proof.
  unfold download_all.
  revert acc w. induction tiles as [|k tiles IH]; intros acc w H; simpl in H.
  - injection H as <- _. now rewrite app_nil_r.
  - apply bind_ok_inv in H as (acc1 & w1 & Hstep & H).
    apply bind_ok_inv in Hstep as (p & w2 & Hp & Hret).
    injection Hret as <- <-.
    apply download_tile_ok_path in Hp. subst p.
    apply IH in H. rewrite H, <- app_assoc. reflexivity.
Qed.

Lemma subprocess_run_keeps_requests E cmd : keeps requests (subprocess_run E cmd).
Proof.
  intros w. unfold subprocess_run. destruct (run_tool E cmd (fs w)) as [st f].
  destruct (st =? 0); reflexivity.
Qed.

(** A run of [merge_and_clip] that returns, step by step. *)
Lemma merge_and_clip_ok_inv E tiles b out w p w' :
  merge_and_clip E tiles b out w = (Ok p, w') ->
  exists w0 f1 f2,
    makedirs out w = (Ok tt, w0)
    /\ run_tool E (gdalbuildvrt_cmd out tiles) (fs w0) = (0, f1)
    /\ run_tool E (gdalwarp_cmd E b out) f1 = (0, f2)
    /\ p = out_path_of E b out
    /\ fs w' = delete (vrt_path_of out) f2
    /\ commands w' = commands w ++ [gdalbuildvrt_cmd out tiles; gdalwarp_cmd E b out]
    /\ requests w' = requests w.
Proof.
  unfold merge_and_clip, bind, subprocess_run, path_exists. intros H.
  destruct (makedirs out w) as [[[] | e] w0] eqn:Hmk; [| discriminate H].
  pose proof (makedirs_ok_inv _ _ _ _ Hmk) as (_ & _ & Hreq & Hcmd & _).
  cbn [fs] in H.
  fold (gdalbuildvrt_cmd out tiles) in H. fold (gdalwarp_cmd E b out) in H.
  destruct (run_tool E (gdalbuildvrt_cmd out tiles) (fs w0)) as [st1 f1] eqn:H1.
  destruct (st1 =? 0) eqn:Hs1; [| discriminate H]. apply Z.eqb_eq in Hs1. subst st1.
  cbn [fs] in H.
  destruct (run_tool E (gdalwarp_cmd E b out) f1) as [st2 f2] eqn:H2.
  destruct (st2 =? 0) eqn:Hs2; [| discriminate H]. apply Z.eqb_eq in Hs2. subst st2.
  exists w0, f1, f2.
  split; [first [reflexivity | exact Hmk] |].
  split; [first [reflexivity | exact H1] |].
  split; [first [reflexivity | exact H2] |].
  unfold exists_in, remove, print, ret in H. cbn [fs] in H.
  destruct (f2 !! vrt_path_of out) as [[data |] |] eqn:Hl;
    cbn [fs] in H; rewrite ?Hl in H;
    try discriminate H; injection H as <- <-; simpl;
    rewrite Hreq, Hcmd, <- app_assoc; repeat split; try reflexivity.
  symmetry. now apply delete_id.
Qed.

(** X10. When [merge_and_clip] returns, it returns the output path
    out_dir/DEM_<xmin>_<ymin>_<xmax>_<ymax>.tif; gdalbuildvrt and then gdalwarp were spawned,
    in this order and nothing else, both with exit status 0; and the files
    are those gdalwarp left, without the mosaic file. *)
Theorem merge_and_clip_returns
        (E : Env) (tiles : list string) (b : BoundingBox) (out : string)
        (w : world) (p : string) (w' : world) :
  merge_and_clip E tiles b out w = (Ok p, w') ->
  p = out_path_of E b out
  /\ commands w' = commands w ++ [gdalbuildvrt_cmd out tiles; gdalwarp_cmd E b out]
  /\ requests w' = requests w
  /\ exists w0 f1 f2,
       makedirs out w = (Ok tt, w0)
       /\ run_tool E (gdalbuildvrt_cmd out tiles) (fs w0) = (0, f1)
       /\ run_tool E (gdalwarp_cmd E b out) f1 = (0, f2)
       /\ fs w' = delete (vrt_path_of out) f2.
Proof.
  intros H.
  apply merge_and_clip_ok_inv in H
    as (w0 & f1 & f2 & Hmk & H1 & H2 & Hp & Hfs & Hcmd & Hreq).
  repeat (split; [assumption |]). exists w0, f1, f2. auto.
Qed.

Lemma merge_and_clip_returns_sample :
  let r := merge_and_clip Sim.tile_env ["cache/n42w103.tif"%string] Sim.box "out"
                          Sim.tile_world in
  r = (Ok "out/DEM_-103.0_42.8_-102.5_43.2.tif"%string, snd r)
  /\ commands (snd r)
     = [gdalbuildvrt_cmd "out" ["cache/n42w103.tif"%string];
        gdalwarp_cmd Sim.tile_env Sim.box "out"].
Proof.
  intros r.
  assert (H : r = (Ok "out/DEM_-103.0_42.8_-102.5_43.2.tif"%string, snd r))
    by (vm_compute; reflexivity).
  split; [exact H |].
  destruct (merge_and_clip_returns Sim.tile_env _ _ _ _ _ _ H) as (_ & Hcmd & _).
  exact Hcmd.
Defined.

(** The job up to the downloads, and the mosaic after them. *)
Lemma fetch_and_clip_dem_inv E b cache out w r w' :
  fetch_and_clip_dem E b cache out w = (Ok r, w') ->
  (r = None /\ commands w' = commands w
   /\ (length (requests w') <= length (requests w) + length (tiles_for_bbox b))%nat)
  \/ (exists p w1,
        r = Some p
        /\ (length (requests w1) <= length (requests w) + length (tiles_for_bbox b))%nat
        /\ commands w1 = commands w
        /\ merge_and_clip E
             (map (fun k => OsPath.join cache (k +:+ ".tif")) (tiles_for_bbox b))
             b out w1 = (Ok p, w')).
Proof.
  unfold fetch_and_clip_dem. intros H.
  destruct (tiles_for_bbox b) as [|k tiles] eqn:Htiles.
  - left. unfold bind, print, ret in H. injection H as <- <-. simpl.
    repeat split; try reflexivity. lia.
  - apply bind_ok_inv in H as ([] & w1 & Hpr & H).
    assert (Hw1 : commands w1 = commands w /\ requests w1 = requests w).
    { unfold print in Hpr. injection Hpr as <-. auto. }
    destruct Hw1 as [Hc1 Hr1].
    apply bind_ok_inv in H as (downloaded & w2 & Htry & H).
    fold (download_all E cache (k :: tiles) []) in Htry.
    assert (Hc2 : commands w2 = commands w1).
    { unfold try_except in Htry.
      pose proof (download_all_keeps_commands E cache (k :: tiles) [] w1) as Hk.
      revert Htry. unfold bind.
      destruct (download_all E cache (k :: tiles) [] w1) as [[paths | e] w3];
        simpl in Hk; intros Htry.
      - injection Htry as _ <-. exact Hk.
      - destruct e; try discriminate Htry.
        unfold print, ret in Htry. injection Htry as _ <-. exact Hk. }
    assert (Hr2 : (length (requests w2)
                   <= length (requests w1) + length (k :: tiles))%nat).
    { unfold try_except in Htry.
      pose proof (download_all_requests_le E cache (k :: tiles) [] w1) as Hle.
      revert Htry. unfold bind.
      destruct (download_all E cache (k :: tiles) [] w1) as [[paths | e] w3];
        simpl in Hle; intros Htry.
      - injection Htry as _ <-. exact Hle.
      - destruct e; try discriminate Htry.
        unfold print, ret in Htry. injection Htry as _ <-. exact Hle. }
    destruct downloaded as [tile_paths |].
    + right. apply bind_ok_inv in H as (p & w3 & Hmerge & Hret).
      injection Hret as <- <-.
      assert (Hpaths : tile_paths
                       = map (fun k => OsPath.join cache (k +:+ ".tif")) (k :: tiles)).
      { unfold try_except in Htry. revert Htry. unfold bind.
        destruct (download_all E cache (k :: tiles) [] w1) as [[paths | e] w4] eqn:Hall;
          intros Htry.
        - injection Htry as <- _. now apply download_all_ok_paths in Hall.
        - destruct e; discriminate Htry. }
      exists p, w2. rewrite <- Hpaths. rewrite Hc2, Hc1, <- Hr1.
      repeat split; auto.
    + left. injection H as <- <-. rewrite Hc2, Hc1, <- Hr1. auto.
Qed.

(** X11. [fetch_and_clip_dem] is all or nothing: when it returns None (no
    tile needed, or a tile download reported a failure) no command was
    spawned at all, so no mosaic was attempted; and it made at most one
    request for each tile of the box. *)
Theorem fetch_and_clip_dem_none_spawns_nothing
        (E : Env) (b : BoundingBox) (cache out : string) (w w' : world) :
  fetch_and_clip_dem E b cache out w = (Ok None, w') ->
  commands w' = commands w
  /\ (length (requests w') <= length (requests w) + length (tiles_for_bbox b))%nat.
Proof.
  intros H. apply fetch_and_clip_dem_inv in H as [(_ & Hc & Hr) | (p & w1 & Hp & _)].
  - auto.
  - discriminate Hp.
Qed.

Lemma fetch_and_clip_dem_none_spawns_nothing_sample :
  let r := fetch_and_clip_dem Sim.missing_env Sim.box "cache" "out" Sim.world0 in
  r = (Ok None, snd r)
  /\ commands (snd r) = []
  /\ (length (requests (snd r)) <= 0 + length (tiles_for_bbox Sim.box))%nat.
Proof.
  intros r.
  assert (H : r = (Ok None, snd r)) by (vm_compute; reflexivity).
  split; [exact H |].
  exact (fetch_and_clip_dem_none_spawns_nothing Sim.missing_env _ _ _ _ _ H).
Defined.

(** X12. When [fetch_and_clip_dem] returns a path, it is the output path
    named after the box; the mosaic was built from the cache paths of
    the tiles of the box, one for each tile and in the order of the
    enumeration; at most one request was made for each tile; and the mosaic
    file is gone. *)
Theorem fetch_and_clip_dem_returns
        (E : Env) (b : BoundingBox) (cache out : string) (w : world)
        (p : string) (w' : world) :
  fetch_and_clip_dem E b cache out w = (Ok (Some p), w') ->
  p = out_path_of E b out
  /\ commands w'
     = commands w
       ++ [gdalbuildvrt_cmd out
             (map (fun k => OsPath.join cache (k +:+ ".tif")) (tiles_for_bbox b));
           gdalwarp_cmd E b out]
  /\ (length (requests w') <= length (requests w) + length (tiles_for_bbox b))%nat
  /\ fs w' !! vrt_path_of out = None.
Proof.
  intros H.
  apply fetch_and_clip_dem_inv in H as [(Hn & _) | (p' & w1 & Hp & Hr & Hc & Hm)];
    [discriminate Hn |].
  injection Hp as <-.
  apply merge_and_clip_ok_inv in Hm
    as (w0 & f1 & f2 & _ & _ & _ & Hp & Hfs & Hcmd & Hreq).
  split; [exact Hp |]. split; [now rewrite Hcmd, Hc |].
  split; [now rewrite Hreq |].
  rewrite Hfs. apply lookup_delete_eq.
Qed.

Lemma fetch_and_clip_dem_returns_sample :
  let r := fetch_and_clip_dem Sim.tile_env Sim.box "cache" "out" Sim.world0 in
  r = (Ok (Some "out/DEM_-103.0_42.8_-102.5_43.2.tif"%string), snd r)
  /\ commands (snd r)
     = [gdalbuildvrt_cmd "out" ["cache/n42w103.tif"; "cache/n43w103.tif"]%string;
        gdalwarp_cmd Sim.tile_env Sim.box "out"]
  /\ fs (snd r) !! "out/_tmp_mosaic.vrt"%string = None.
Proof.
  intros r.
  assert (H : r = (Ok (Some "out/DEM_-103.0_42.8_-102.5_43.2.tif"%string), snd r))
    by (vm_compute; reflexivity).
  split; [exact H |].
  destruct (fetch_and_clip_dem_returns Sim.tile_env _ _ _ _ _ _ H)
    as (_ & Hcmd & _ & Hvrt).
  split; [exact Hcmd | exact Hvrt].
Defined.

End DemMore.

(** ** More on the archive extraction *)

Module ArchiveMore.
Import PyStr PyStrFacts StrMore Frame FetchFacts.








End ArchiveMore.

(** ** More on the quadrangle run *)

Module QuadMore.
Import PyStr PyStrFacts StrMore Frame USGSTopoDownloader QuadFacts FetchFacts.

(** X14. [download_by_bbox] never raises: whatever the index, the
    records, the network and the files do, it returns a summary; every
    exception raised after the check of the index path becomes a
    CRITICAL_ERROR summary. *)
Theorem download_by_bbox_never_raises (E : Env) (self : t) (w : world) :
  exists (s : summary) (w' : world), download_by_bbox E self w = (Ok s, w').
Proof.
  unfold download_by_bbox, bind at 1, path_exists.
  destruct (negb _); [eexists _, _; reflexivity |].
  unfold bind at 1, print at 1. cbv beta iota.
  unfold bind at 1, print at 1. cbv beta iota.
  unfold try_except.
  match goal with
  | |- context [match ?m ?w1 with _ => _ end] => destruct (m w1) as [[s | e] w2]
  end.
  - eexists _, _; reflexivity.
  - unfold bind, print, ret. eexists _, _; reflexivity.
Qed.

(** A SUCCESS summary comes from the loop over the records of the layer
    that the index holds under the name of the downloader. *)
Lemma download_by_bbox_success_layer E self w n u d w' :
  download_by_bbox E self w = (Ok (SUCCESS n u d), w') ->
  exists get_layer layer w1 v w2,
    ogr_open E (gdb_path self) = OgrSource get_layer
    /\ get_layer (layer_name self) = Some layer
    /\ for_each (loop_body E self) (features_in layer (bbox self))
                (mkLoopVars ∅ 0 0) w1 = (Ok v, w2)
    /\ quad_calls w1 = quad_calls w
    /\ quad_calls w' = quad_calls w2
    /\ n = features_found v /\ u = size (processed_quads v)
    /\ d = downloads_successful v.
Proof.
  unfold download_by_bbox, bind, try_except, path_exists, driver_open,
    srs_info_of, print, ret, raise. simpl.
  intros H.
  destruct (negb _); [discriminate H |].
  destruct (ogr_open E _) as [why | | get_layer] eqn:Hogr; try discriminate H.
  destruct (get_layer _) as [layer |] eqn:Hlayer; [| discriminate H].
  assert (Hloop : exists w1 v w2,
    for_each (loop_body E self) (features_in layer (bbox self))
             (mkLoopVars ∅ 0 0) w1 = (Ok v, w2)
    /\ quad_calls w1 = quad_calls w /\ quad_calls w' = quad_calls w2
    /\ n = features_found v /\ u = size (processed_quads v)
    /\ d = downloads_successful v).
  { destruct (srs_wkt layer) as [wkt |];
      [destruct (first_line wkt); [| discriminate H] |];
      match type of H with
      | context [for_each _ _ _ ?w1] =>
          destruct (for_each (loop_body E self) (features_in layer (bbox self))
                             (mkLoopVars ∅ 0 0) w1) as [[v | e] w2] eqn:Hl
      end; try discriminate H;
      injection H as <- <- <- <-;
      eexists _, _, _; (split; [exact Hl |]); repeat split. }
  destruct Hloop as (w1 & v & w2 & Hloop).
  exists get_layer, layer, w1, v, w2. auto.
Qed.

(** One pass of the loop counts one feature, and the dedup set grows by
    the calls of [_process_quad] it makes. *)
Lemma loop_body_tally E self v f w v' w' :
  loop_body E self v f w = (Ok v', w') ->
  features_found v' = S (features_found v)
  /\ exists new,
       quad_calls w' = quad_calls w ++ new
       /\ size (processed_quads v') = (size (processed_quads v) + length new)%nat.
Proof.
  unfold loop_body, bind. intros H.
  pose proof (get_quad_info_keeps_calls (CELL_NAME f) (STATE_ALPHA f) w) as Hk.
  destruct (_get_quad_info _ _ w) as [[[[q s] |] | e] w1]; simpl in Hk, H.
  - destruct (bool_decide _) eqn:Hseen.
    + injection H as <- <-. simpl. split; [reflexivity |].
      exists []. rewrite app_nil_r, Hk. split; [reflexivity | simpl; lia].
    + apply bool_decide_eq_false in Hseen.
      pose proof (process_quad_calls E self q s w1) as Hcall.
      assert (Hsize : size ({[quad_key_of q s]} ∪ processed_quads v)
                      = S (size (processed_quads v))).
      { rewrite size_union by (apply disjoint_singleton_l; exact Hseen).
        now rewrite size_singleton. }
      destruct (_process_quad E self q s w1) as [[[|] | e] w2];
        simpl in Hcall; try discriminate H;
        injection H as <- <-; simpl; (split; [reflexivity |]);
        exists [(q, s)]; rewrite Hcall, Hk, Hsize; simpl; split;
        [reflexivity | lia | reflexivity | lia].
  - injection H as <- <-. simpl. split; [reflexivity |].
    exists []. rewrite app_nil_r, Hk. split; [reflexivity | simpl; lia].
  - discriminate H.
Qed.

Lemma for_each_tally E self feats v w v' w' :
  for_each (loop_body E self) feats v w = (Ok v', w') ->
  features_found v' = (features_found v + length feats)%nat
  /\ exists new,
       quad_calls w' = quad_calls w ++ new
       /\ size (processed_quads v') = (size (processed_quads v) + length new)%nat.
Proof.
  revert v w. induction feats as [|f feats IH]; intros v w H; simpl in H.
  - injection H as <- <-. split; [simpl; lia |].
    exists []. rewrite app_nil_r. split; [reflexivity | simpl; lia].
  - apply bind_ok_inv in H as (v1 & w1 & Hb & H).
    apply loop_body_tally in Hb as (Hf1 & new1 & Hc1 & Hs1).
    apply IH in H as (Hf2 & new2 & Hc2 & Hs2).
    split; [simpl; lia |].
    exists (new1 ++ new2). rewrite Hc2, Hc1, <- app_assoc, length_app.
    split; [reflexivity | lia].
Qed.

(** X15. In a SUCCESS summary, features_found is the number of records
    the layer holds for the box, skipped and repeated ones included, and
    unique_quads_identified is the number of calls of [_process_quad] the
    run made: every key of the dedup set was processed. *)
Theorem summary_counts_records_and_calls
        (E : Env) (self : t) (w : world) (n u d : nat) (w' : world)
        (get_layer : string -> option layer) (layer : layer) :
  ogr_open E (gdb_path self) = OgrSource get_layer ->
  get_layer (layer_name self) = Some layer ->
  download_by_bbox E self w = (Ok (SUCCESS n u d), w') ->
  n = length (features_in layer (bbox self))
  /\ exists calls,
       quad_calls w' = quad_calls w ++ calls /\ length calls = u.
Proof.
  intros Hogr Hlayer H.
  apply download_by_bbox_success_layer in H
    as (gl & layer' & w1 & v & w2 & Hogr' & Hlayer' & Hloop & Hc1 & Hc2
        & -> & -> & ->).
  rewrite Hogr in Hogr'. injection Hogr' as <-.
  rewrite Hlayer in Hlayer'. injection Hlayer' as <-.
  apply for_each_tally in Hloop as (Hf & new & Hc & Hs).
  cbn [processed_quads features_found] in Hf, Hs. rewrite size_empty in Hs.
  split; [exact Hf |].
  exists new. split; [now rewrite Hc2, Hc, Hc1 | lia].
Qed.

Lemma summary_counts_records_and_calls_sample :
  let r := download_by_bbox Sim.quad_env Sim.downloader Sim.quad_world in
  r = (Ok (SUCCESS 4 2 2), snd r)
  /\ 4%nat = length Sim.quad_features
  /\ exists calls, quad_calls (snd r) = [] ++ calls /\ length calls = 2%nat.
Proof.
  intros r.
  assert (H : r = (Ok (SUCCESS 4 2 2), snd r)) by (vm_compute; reflexivity).
  split; [exact H |].
  exact (summary_counts_records_and_calls Sim.quad_env Sim.downloader Sim.quad_world
           4 2 2 (snd r) _ Sim.quad_layer eq_refl eq_refl H).
Defined.

(** X16. A record with a state and no cell name stops the run. When the
    index is on disk and opens, holds the layer, and the layer has no
    spatial reference or one whose text is not empty, and the first record
    of the box has a state and no cell name, the AttributeError of
    [cell_name.strip()] is caught at the end of [download_by_bbox], which
    returns CRITICAL_ERROR; the records that follow are not looked at, no
    quadrangle is processed, nothing is requested and no file changes. *)
Theorem nameless_record_stops_run
        (E : Env) (self : t) (w : world)
        (get_layer : string -> option layer) (layer : layer)
        (state : string) (rest : list feature) :
  exists_in (fs w) (gdb_path self) = true ->
  ogr_open E (gdb_path self) = OgrSource get_layer ->
  get_layer (layer_name self) = Some layer ->
  srs_wkt layer <> Some EmptyString ->
  features_in layer (bbox self) = mkFeature None (Some state) :: rest ->
  is_empty state = false ->
  exists w',
    download_by_bbox E self w
    = (Ok (CRITICAL_ERROR "'NoneType' object has no attribute 'strip'"), w')
    /\ quad_calls w' = quad_calls w /\ requests w' = requests w
    /\ fs w' = fs w.
Proof.
  intros Hgdb Hogr Hlayer Hsrs Hfeat Hstate.
  destruct state as [|c state]; [discriminate Hstate |].
  unfold download_by_bbox, bind, try_except, path_exists, driver_open,
    srs_info_of, print, ret, raise. simpl.
  rewrite Hgdb. simpl. rewrite Hogr, Hlayer.
  destruct (srs_wkt layer) as [[| c0 wkt] |]; [now destruct Hsrs | |];
    simpl; rewrite Hfeat; simpl;
    (eexists; split; [reflexivity |]; simpl; auto).
Qed.

Lemma nameless_record_stops_run_sample :
  exists_in (fs Sim.quad_world) (gdb_path Sim.downloader) = true
  /\ is_empty "NE" = false
  /\ srs_wkt Sim.nameless_layer <> Some EmptyString
  /\ exists w',
       download_by_bbox Sim.nameless_env Sim.downloader Sim.quad_world
       = (Ok (CRITICAL_ERROR "'NoneType' object has no attribute 'strip'"), w')
       /\ quad_calls w' = quad_calls Sim.quad_world
       /\ requests w' = requests Sim.quad_world
       /\ fs w' = fs Sim.quad_world.
Proof.
  assert (H1 : exists_in (fs Sim.quad_world) (gdb_path Sim.downloader) = true)
    by (vm_compute; reflexivity).
  assert (H2 : is_empty "NE" = false) by reflexivity.
  assert (H3 : srs_wkt Sim.nameless_layer <> Some EmptyString)
    by (simpl; discriminate).
  split; [exact H1 |]. split; [exact H2 |]. split; [exact H3 |].
  exact (nameless_record_stops_run Sim.nameless_env Sim.downloader Sim.quad_world
           _ Sim.nameless_layer "NE" _
           H1 eq_refl eq_refl H3 eq_refl H2).
Defined.

(** The last component of a path that ends in a suffix without a slash
    is not empty. *)
Lemma join_suffix_basename (d a suf : string) :
  contains_char "/" suf = false -> suf <> EmptyString ->
  OsPath.basename (OsPath.join d (a +:+ suf)) <> EmptyString.
Proof.
  intros Hs Hne.
  assert (H : forall x, OsPath.basename (x +:+ suf) <> EmptyString).
  { intros x. unfold OsPath.basename. rewrite rsplit_slash_app by exact Hs.
    simpl. now apply append_nonempty_r. }
  unfold OsPath.join.
  destruct (startswith _ _); [apply H |].
  destruct (is_empty d || endswith d "/").
  - rewrite <- append_assoc_s. apply H.
  - rewrite <- !append_assoc_s. apply H.
Qed.

Lemma zip_path_neq_dirname (self : t) (q s : string) :
  OsPath.dirname (OsPath.join (raw_dir self) (zip_filename_of self q s))
  <> OsPath.join (raw_dir self) (zip_filename_of self q s).
Proof.
  apply dirname_neq. unfold zip_filename_of.
  rewrite <- !append_assoc_s.
  apply join_suffix_basename; [reflexivity | discriminate].
Qed.

(** [download_file] on any fetch it reports as failed: the target is not
    a directory afterwards, and the paths other than the target and its
    directory are as they were. *)
Lemma download_file_reported E url path w :
  usable_dir (fs w) (OsPath.dirname path) ->
  fs w !! path <> Some Dir ->
  OsPath.dirname path <> path ->
  reports_failure (server E (requests w) url) ->
  exists msg w',
    download_file E url path w = (Ok (false, Some msg), w')
    /\ requests w' = requests w ++ [url]
    /\ quad_calls w' = quad_calls w
    /\ fs w' !! path <> Some Dir
    /\ (forall p, p <> path -> p <> OsPath.dirname path -> fs w' !! p = fs w !! p).
Proof.
  intros Hdir Hnd Hne Hfail.
  destruct (makedirs_usable _ _ Hdir) as (w0 & Hmk).
  rewrite (download_file_spec E url path w w0 Hmk).
  apply makedirs_ok_inv in Hmk as (_ & _ & Hreq & _ & _ & Hq & Hother & _).
  assert (Hp0 : fs w0 !! path = fs w !! path) by (apply Hother; congruence).
  rewrite Hreq. cbv zeta. unfold reports_failure in Hfail.
  assert (Hearly : forall msg,
    exists (m : string) w',
      (Ok (false, Some msg),
       mkWorld (fs w0) (requests w ++ [url]) (commands w0) (stdout w0)
               (quad_calls w0))
      = (Ok (false, Some m), w')
      /\ requests w' = requests w ++ [url]
      /\ quad_calls w' = quad_calls w
      /\ fs w' !! path <> Some Dir
      /\ (forall p, p <> path -> p <> OsPath.dirname path -> fs w' !! p = fs w !! p)).
  { intros msg. eexists _, _. split; [reflexivity |]. simpl.
    rewrite Hp0. repeat split; auto. }
  destruct (server E (requests w) url) as [why | st rs len chunks broken];
    [apply Hearly |].
  destruct ((400 <=? st) && (st <? 600)) eqn:Hst; [apply Hearly |].
  destruct (total_size_of _ =? 0) eqn:Hlen; [apply Hearly |].
  destruct Hfail as [Hr | [-> | [-> | Hb]]];
    [ apply andb_false_iff in Hst as [Hst | Hst];
        [apply Z.leb_gt in Hst | apply Z.ltb_ge in Hst]; lia
    | discriminate Hlen | discriminate Hlen |].
  destruct broken as [why |]; [| now destruct Hb].
  destruct (fs w0 !! path) as [[data |] |] eqn:Hl;
    [| rewrite Hp0 in Hl; now destruct Hnd |];
    eexists _, _; (split; [reflexivity |]); simpl;
    (split; [reflexivity |]); (split; [exact Hq |]);
    (split; [rewrite lookup_insert_eq; discriminate |]);
    intros p Hp1 Hp2; rewrite lookup_insert_ne by congruence; now apply Hother.
Qed.

Lemma after_failed_download_run zip dl_msg w :
  fs w !! zip <> Some Dir ->
  exists w',
    after_failed_download zip dl_msg w = (Ok false, w')
    /\ fs w' !! zip = None
    /\ requests w' = requests w /\ quad_calls w' = quad_calls w.
Proof.
  intros Hnd. unfold after_failed_download, bind, print, path_exists, exists_in.
  cbn [fs].
  destruct (fs w !! zip) as [[data |] |] eqn:Hl; [| now destruct Hnd |].
  - unfold remove. cbn [fs]. rewrite Hl. unfold ret, set_fs. simpl.
    eexists. split; [reflexivity |]. simpl.
    split; [apply lookup_delete_eq | auto].
  - unfold ret. eexists. split; [reflexivity |]. simpl. auto.
Qed.

(** [_process_quad] on a cache miss, up to the download. *)
Lemma process_quad_miss E self q s w :
  exists_in (fs w) (OsPath.join (extracted_dir self) (gpkg_filename_of self q s))
  = false ->
  exists w1,
    fs w1 = fs w /\ requests w1 = requests w
    /\ quad_calls w1 = quad_calls w ++ [(q, s)]
    /\ forall msg w2,
         download_file E
           (BASE_URL +:+ upper s +:+ "/" +:+ download_format self +:+ "/"
              +:+ zip_filename_of self q s)
           (OsPath.join (raw_dir self) (zip_filename_of self q s)) w1
         = (Ok (false, msg), w2) ->
         _process_quad E self q s w
         = after_failed_download
             (OsPath.join (raw_dir self) (zip_filename_of self q s)) msg w2.
Proof.
  intros Hmiss. eexists. split; [| split; [| split]]; cycle 3.
  - intros msg w2 Hrun.
    unfold _process_quad, bind at 1, note_call. cbv beta iota.
    unfold bind at 1, print at 1. cbv beta iota.
    unfold bind at 1, path_exists. cbn [fs]. rewrite Hmiss.
    unfold bind at 1, print at 1. cbv beta iota.
    cbn [fs requests commands stdout quad_calls]. unfold bind at 1.
    rewrite Hrun. reflexivity.
  - reflexivity.
  - reflexivity.
  - reflexivity.
Qed.

(** X17. For a state abbreviation of ASCII characters: when the
    download of a quadrangle is reported as failed, whether before the
    body or in the middle of it, [_process_quad] returns False after one
    request and the archive path is absent afterwards: a file left there,
    by this attempt or an earlier one, is removed. *)
Theorem process_quad_failed_download_cleans_up
        (E : Env) (self : t) (q s : string) (w : world) :
  ascii_only s = true ->
  let zip := OsPath.join (raw_dir self) (zip_filename_of self q s) in
  let gpkg := OsPath.join (extracted_dir self) (gpkg_filename_of self q s) in
  let url := BASE_URL +:+ upper s +:+ "/" +:+ download_format self +:+ "/"
               +:+ zip_filename_of self q s in
  exists_in (fs w) gpkg = false ->
  usable_dir (fs w) (OsPath.dirname zip) ->
  fs w !! zip <> Some Dir ->
  reports_failure (server E (requests w) url) ->
  exists w',
    _process_quad E self q s w = (Ok false, w')
    /\ fs w' !! zip = None
    /\ requests w' = requests w ++ [url]
    /\ quad_calls w' = quad_calls w ++ [(q, s)].
Proof.
  intros _ zip gpkg url Hmiss Hdir Hnd Hfail.
  destruct (process_quad_miss E self q s w Hmiss)
    as (w1 & Hfs1 & Hreq1 & Hq1 & Hstep).
  fold zip url in Hstep.
  rewrite <- Hfs1 in Hdir, Hnd. rewrite <- Hreq1 in Hfail.
  destruct (download_file_reported E url zip w1 Hdir Hnd
              (zip_path_neq_dirname self q s) Hfail)
    as (msg & w2 & Hrun & Hreq & Hq & Hnd2 & _).
  rewrite (Hstep _ _ Hrun).
  destruct (after_failed_download_run zip (Some msg) w2 Hnd2)
    as (w' & Hafter & Hz & Hreq' & Hq').
  exists w'. split; [exact Hafter |]. split; [exact Hz |].
  split; [now rewrite Hreq', Hreq, Hreq1 | now rewrite Hq', Hq, Hq1].
Qed.

Lemma process_quad_failed_download_cleans_up_sample :
  let zip := OsPath.join (raw_dir Sim.downloader)
                         (zip_filename_of Sim.downloader "Foo_Bar" "NE") in
  let w := mkWorld {[ zip := File "stale" ]} [] [] [] [] in
  exists_in (fs w) (OsPath.join (extracted_dir Sim.downloader)
                                (gpkg_filename_of Sim.downloader "Foo_Bar" "NE"))
  = false
  /\ usable_dir (fs w) (OsPath.dirname zip)
  /\ fs w !! zip <> Some Dir
  /\ exists w',
       _process_quad Sim.quad_missing_env Sim.downloader "Foo_Bar" "NE" w
       = (Ok false, w')
       /\ fs w' !! zip = None.
Proof.
  intros zip w.
  assert (H1 : exists_in (fs w) (OsPath.join (extracted_dir Sim.downloader)
                                   (gpkg_filename_of Sim.downloader "Foo_Bar" "NE"))
               = false) by (vm_compute; reflexivity).
  assert (H2 : usable_dir (fs w) (OsPath.dirname zip))
    by (split; [reflexivity | intros data H; vm_compute in H; discriminate H]).
  assert (H3 : fs w !! zip <> Some Dir)
    by (intros H; vm_compute in H; discriminate H).
  split; [exact H1 |]. split; [exact H2 |]. split; [exact H3 |].
  destruct (process_quad_failed_download_cleans_up
              Sim.quad_missing_env Sim.downloader "Foo_Bar" "NE" w eq_refl
              H1 H2 H3)
    as (w' & Hrun & Hz & _); [left; lia |].
  exists w'. split; [exact Hrun | exact Hz].
Defined.

Lemma prefix_one (a b : ascii) (r : string) :
  String.prefix (String a EmptyString) (String b r) = Ascii.eqb a b.
Proof.
  change (String.prefix (String a EmptyString) (String b r))
    with (match Ascii.ascii_dec a b with
          | left _ => String.prefix EmptyString r
          | right _ => false
          end).
  destruct (Ascii.ascii_dec a b) as [<- | Hne].
  - rewrite Ascii.eqb_refl. now destruct r.
  - symmetry. now apply Ascii.eqb_neq.
Qed.

Lemma startswith_slash_false (n : string) :
  contains_char "/" n = false -> startswith n "/" = false.
Proof.
  destruct n as [|c n]; [reflexivity |]. intros H. simpl in H.
  apply orb_false_iff in H as [Hc _]. unfold startswith.
  rewrite prefix_one, Ascii.eqb_sym. exact Hc.
Qed.

Lemma rsplit_slash_empty (r : string) :
  OsPath.rsplit_slash r = (EmptyString, EmptyString) -> r = EmptyString.
Proof.
  intros H. pose proof (rsplit_slash_join r) as Hj. rewrite H in Hj.
  symmetry. exact Hj.
Qed.

Lemma rev_str_nonempty (c : ascii) (r : string) :
  exists y z, rev_str (String c r) = String y z.
Proof.
  simpl. destruct (rev_str r) as [|y z]; simpl; eauto.
Qed.

(** A path that ends with a slash has an empty last component. *)
Lemma endswith_slash_basename (d : string) :
  endswith d "/" = true -> snd (OsPath.rsplit_slash d) = EmptyString.
Proof.
  unfold endswith. change (rev_str "/") with "/"%string.
  induction d as [|x r IH]; [discriminate |]. intros H.
  destruct r as [|c r'].
  - change (rev_str (String x EmptyString)) with (String x EmptyString) in H.
    rewrite prefix_one in H. apply Ascii.eqb_eq in H. subst x. reflexivity.
  - destruct (rev_str_nonempty c r') as (y & z & Hrev).
    assert (Hr : String.prefix "/" (rev_str (String c r')) = true).
    { change (rev_str (String x (String c r')))
        with (rev_str (String c r') +:+ String x EmptyString) in H.
      rewrite Hrev in H |- *. rewrite app_String in H.
      rewrite prefix_one in H |- *. exact H. }
    specialize (IH Hr).
    change (OsPath.rsplit_slash (String x (String c r')))
      with (let '(h, t) := OsPath.rsplit_slash (String c r') in
            if is_empty h then
              if Ascii.eqb x OsPath.sep then (String x EmptyString, t)
              else (EmptyString, String x t)
            else (String x h, t)).
    destruct (OsPath.rsplit_slash (String c r')) as [h t] eqn:Hsplit.
    simpl in IH. subst t.
    destruct h as [|hc h']; [| reflexivity].
    apply rsplit_slash_empty in Hsplit. discriminate Hsplit.
Qed.

Lemma rsplit_trailing_slash (d : string) :
  snd (OsPath.rsplit_slash (d +:+ "/")) = EmptyString.
Proof.
  induction d as [|x d IH]; [reflexivity |].
  rewrite app_String.
  change (OsPath.rsplit_slash (String x (d +:+ "/")))
    with (let '(h, t) := OsPath.rsplit_slash (d +:+ "/") in
          if is_empty h then
            if Ascii.eqb x OsPath.sep then (String x EmptyString, t)
            else (EmptyString, String x t)
          else (String x h, t)).
  destruct (OsPath.rsplit_slash (d +:+ "/")) as [h t] eqn:Hsplit.
  simpl in IH. subst t.
  destruct h as [|hc h']; [| reflexivity].
  apply rsplit_slash_empty in Hsplit. destruct d; discriminate Hsplit.
Qed.

(** The last component of a joined path is the name that was joined. *)
Lemma basename_join (d n : string) :
  contains_char "/" n = false -> OsPath.basename (OsPath.join d n) = n.
Proof.
  intros Hn. unfold OsPath.join, OsPath.basename.
  rewrite (startswith_slash_false n Hn).
  destruct (is_empty d) eqn:Hd.
  - apply is_empty_true in Hd. subst d. simpl.
    now rewrite rsplit_slash_plain.
  - simpl. destruct (endswith d "/") eqn:He.
    + rewrite rsplit_slash_app by exact Hn. simpl.
      now rewrite (endswith_slash_basename d He).
    + rewrite <- append_assoc_s, rsplit_slash_app by exact Hn. simpl.
      now rewrite rsplit_trailing_slash.
Qed.

Lemma rsplit_dot_none (e : string) :
  contains_char "." e = false -> OsPath.rsplit_dot e = None.
Proof.
  induction e as [|c e IH]; [reflexivity |]. simpl. intros H.
  apply orb_false_iff in H as [Hc He]. now rewrite (IH He), Hc.
Qed.

Lemma rsplit_dot_app (s e : string) :
  contains_char "." e = false ->
  OsPath.rsplit_dot (s +:+ String "." e) = Some (s, String "." e).
Proof.
  intros He. induction s as [|c s IH].
  - simpl. now rewrite (rsplit_dot_none e He).
  - rewrite app_String. simpl. now rewrite IH.
Qed.

(** The root of a name that starts with a letter and ends in an extension
    without a dot. *)
Lemma splitext_root_stem (c : ascii) (stem e : string) :
  Ascii.eqb c "." = false -> contains_char "." e = false ->
  OsPath.splitext_root (String c stem +:+ String "." e) = String c stem.
Proof.
  intros Hc He. unfold OsPath.splitext_root.
  assert (Hl : OsPath.lstrip_dots (String c stem +:+ String "." e)
               = (EmptyString, String c stem +:+ String "." e)).
  { rewrite app_String. apply Ascii.eqb_neq in Hc.
    destruct c as [[] [] [] [] [] [] [] []]; try reflexivity.
    now destruct Hc. }
  rewrite Hl, rsplit_dot_app by exact He. reflexivity.
Qed.

Lemma zip_filename_no_slash (self : t) (q s : string) :
  contains_char "/" q = false -> contains_char "/" s = false ->
  contains_char "/" (download_format self) = false ->
  contains_char "/" (zip_filename_of self q s) = false.
Proof.
  intros Hq Hs Hf. unfold zip_filename_of.
  rewrite !TileMore.contains_char_app, Hq, Hs, Hf. reflexivity.
Qed.

(** The target of the extraction and the cache path, for GPKG. *)
Lemma extraction_target_gpkg (self : t) (q s : string) :
  lower (download_format self) = "gpkg"%string ->
  contains_char "/" q = false -> contains_char "/" s = false ->
  contains_char "/" (download_format self) = false ->
  let zip := OsPath.join (raw_dir self) (zip_filename_of self q s) in
  OsPath.join (extracted_dir self)
              (OsPath.splitext_root (OsPath.basename zip)
                 +:+ ("." +:+ lower (download_format self)))
  = OsPath.join (extracted_dir self) (gpkg_filename_of self q s).
Proof.
  intros Hfmt Hq Hs Hf zip. unfold zip.
  rewrite basename_join by (now apply zip_filename_no_slash).
  rewrite Hfmt. f_equal.
  set (tail := q +:+ "_" +:+ s +:+ "_7_5_Min_" +:+ download_format self).
  assert (Hz : zip_filename_of self q s = ("VECTOR_" +:+ tail) +:+ ".zip")
    by (unfold zip_filename_of, tail; now rewrite !append_assoc_s).
  assert (Hg : gpkg_filename_of self q s = ("VECTOR_" +:+ tail) +:+ ".gpkg")
    by (unfold gpkg_filename_of, tail; now rewrite !append_assoc_s).
  rewrite Hz, Hg.
  change ("VECTOR_" +:+ tail) with (String "V" ("ECTOR_" +:+ tail)).
  rewrite (splitext_root_stem "V" ("ECTOR_" +:+ tail) "zip") by reflexivity.
  reflexivity.
Qed.

(** X18. For the format GPKG (in any letter case) and names without a
    slash, the path under which [extract_zip_and_rename] stores the member
    of a downloaded archive is the path [_process_quad] checks for a cache
    hit: the base name of the archive with [.zip] replaced by [.gpkg], in
    the directory of the extracted files. *)
Theorem extracted_path_is_cache_path (self : t) (q s : string) :
  lower (download_format self) = "gpkg"%string ->
  contains_char "/" q = false -> contains_char "/" s = false ->
  contains_char "/" (download_format self) = false ->
  let zip := OsPath.join (raw_dir self) (zip_filename_of self q s) in
  OsPath.join (extracted_dir self)
              (OsPath.splitext_root (OsPath.basename zip)
                 +:+ ("." +:+ lower (download_format self)))
  = OsPath.join (extracted_dir self) (gpkg_filename_of self q s).
Proof. exact (extraction_target_gpkg self q s). Qed.

Lemma extracted_path_is_cache_path_sample :
  lower (download_format Sim.downloader) = "gpkg"%string
  /\ contains_char "/" "Foo_Bar" = false /\ contains_char "/" "NE" = false
  /\ contains_char "/" (download_format Sim.downloader) = false
  /\ OsPath.join (extracted_dir Sim.downloader)
        (OsPath.splitext_root
           (OsPath.basename
              (OsPath.join (raw_dir Sim.downloader)
                           (zip_filename_of Sim.downloader "Foo_Bar" "NE")))
           +:+ ("." +:+ lower (download_format Sim.downloader)))
     = "/proj/data/extracted/gpkg/VECTOR_Foo_Bar_NE_7_5_Min_GPKG.gpkg"%string.
Proof.
  repeat (split; [reflexivity |]).
  exact (extracted_path_is_cache_path Sim.downloader "Foo_Bar" "NE"
           eq_refl eq_refl eq_refl eq_refl).
Defined.

Lemma write_chunk_leaves_file path chunk w u w' :
  write_chunk path chunk w = (Ok u, w') -> exists_in (fs w') path = true.
Proof.
  unfold write_chunk, exists_in. destruct (fs w !! path) as [[data |] |];
    intros H; injection H as _ <-; simpl; now rewrite lookup_insert_eq.
Qed.

Lemma move_leaves_target src dst w u w' :
  src <> dst -> move src dst w = (Ok u, w') -> exists_in (fs w') dst = true.
Proof.
  intros Hsd. unfold move, exists_in.
  destruct (fs w !! src) as [n |]; [| discriminate].
  destruct (fs w !! dst) as [[data |] |] eqn:Hd.
  - intros H. injection H as _ <-. simpl. now rewrite lookup_insert_eq.
  - destruct (match fs w !! _ with Some _ => true | None => false end);
      [discriminate |].
    intros H. injection H as _ <-. simpl.
    destruct (decide (OsPath.join dst (OsPath.basename src) = dst)) as [-> | Hne].
    + now rewrite lookup_insert_eq.
    + rewrite lookup_insert_ne by exact Hne.
      rewrite lookup_delete_ne by exact Hsd. now rewrite Hd.
  - intros H. injection H as _ <-. simpl. now rewrite lookup_insert_eq.
Qed.

(** When the extraction reports success, the path it returns is the
    target path, and a file is there unless it is the archive path. *)
Lemma extract_ok_target E zip_path dir ext w p w' :
  extract_zip_and_rename E zip_path dir ext w = (Ok (true, p), w') ->
  let target :=
    OsPath.join dir (OsPath.splitext_root (OsPath.basename zip_path) +:+ ext) in
  p = target
  /\ requests w' = requests w
  /\ (zip_path <> target -> exists_in (fs w') target = true).
Proof.
  intros H target.
  pose proof (extract_zip_and_rename_keeps_requests E zip_path dir ext w) as Hk.
  rewrite H in Hk. simpl in Hk.
  unfold extract_zip_and_rename in H. fold target in H.
  apply bind_ok_inv in H as ([] & w0 & _ & H).
  unfold try_except in H.
  match type of H with
  | context [match ?m w0 with _ => _ end] =>
      destruct (m w0) as [[r | e] w1] eqn:Hm
  end.
  - injection H as -> ->.
    apply bind_ok_inv in Hm as (infolist & w2 & _ & Hm).
    destruct (List.find _ infolist) as [[name data] |]; [| discriminate Hm].
    apply bind_ok_inv in Hm as (extracted & w3 & Hext & Hm).
    apply bind_ok_inv in Hm as ([] & w4 & Hmv & Hm).
    apply bind_ok_inv in Hm as ([] & w5 & Hpr1 & Hm).
    apply bind_ok_inv in Hm as ([] & w6 & Hrm & Hm).
    apply bind_ok_inv in Hm as ([] & w7 & Hpr2 & Hm).
    injection Hm as <- <-.
    split; [reflexivity |]. split; [exact Hk |]. intros Hne.
    assert (H3 : exists_in (fs w3) extracted = true).
    { unfold zip_extract in Hext.
      apply bind_ok_inv in Hext as ([] & wa & _ & Hext).
      apply bind_ok_inv in Hext as ([] & wb & Hw & Hext).
      injection Hext as <- <-. now apply write_chunk_leaves_file in Hw. }
    assert (H4 : exists_in (fs w4) target = true).
    { destruct (String.eqb extracted target) eqn:Heq.
      - apply String.eqb_eq in Heq. subst extracted.
        injection Hmv as <-. exact H3.
      - apply String.eqb_neq in Heq. now apply move_leaves_target in Hmv. }
    assert (H5 : fs w5 = fs w4)
      by (unfold print in Hpr1; injection Hpr1 as <-; reflexivity).
    apply remove_ok_inv in Hrm.
    assert (H7 : fs w7 = fs w6)
      by (unfold print in Hpr2; injection Hpr2 as <-; reflexivity).
    unfold exists_in in *. rewrite H7, Hrm, lookup_delete_ne, H5 by exact Hne.
    exact H4.
  - destruct e; try discriminate H.
    apply bind_ok_inv in H as ([] & w2 & _ & H). discriminate H.
Qed.

Lemma zip_path_neq_gpkg_path (self : t) (q s : string) :
  contains_char "/" q = false -> contains_char "/" s = false ->
  contains_char "/" (download_format self) = false ->
  OsPath.join (raw_dir self) (zip_filename_of self q s)
  <> OsPath.join (extracted_dir self) (gpkg_filename_of self q s).
Proof.
  intros Hq Hs Hf Heq.
  apply (f_equal OsPath.basename) in Heq.
  rewrite !basename_join in Heq;
    [| unfold gpkg_filename_of; rewrite !TileMore.contains_char_app, Hq, Hs, Hf;
       reflexivity
     | now apply zip_filename_no_slash ].
  unfold zip_filename_of, gpkg_filename_of in Heq.
  do 6 apply append_inj_left in Heq. discriminate Heq.
Qed.

(** X19. For the format GPKG and names without a slash, a call of
    [_process_quad] that returns True leaves the extracted file at the
    cache path, so the call that follows for the same quadrangle returns True
    without any request and without touching the files. *)
Theorem process_quad_success_is_cached
        (E : Env) (self : t) (q s : string) (w w' : world) :
  lower (download_format self) = "gpkg"%string ->
  contains_char "/" q = false -> contains_char "/" s = false ->
  contains_char "/" (download_format self) = false ->
  _process_quad E self q s w = (Ok true, w') ->
  exists_in (fs w')
            (OsPath.join (extracted_dir self) (gpkg_filename_of self q s)) = true
  /\ exists w'',
       _process_quad E self q s w' = (Ok true, w'')
       /\ requests w'' = requests w' /\ fs w'' = fs w'.
Proof.
  intros Hfmt Hq Hs Hf H.
  assert (Hex : exists_in (fs w')
                  (OsPath.join (extracted_dir self) (gpkg_filename_of self q s))
                = true).
  { unfold _process_quad in H.
    apply bind_ok_inv in H as ([] & w1 & _ & H).
    apply bind_ok_inv in H as ([] & w2 & _ & H).
    apply bind_ok_inv in H as (cached & w3 & Hc & H).
    unfold path_exists in Hc. injection Hc as <- <-.
    destruct (exists_in (fs w2) _) eqn:Hhit.
    - apply bind_ok_inv in H as ([] & w4 & Hp1 & H).
      apply bind_ok_inv in H as ([] & w5 & Hp2 & H).
      injection H as <-. unfold print in Hp1, Hp2.
      injection Hp1 as <-. injection Hp2 as <-. exact Hhit.
    - apply bind_ok_inv in H as ([] & w4 & _ & H).
      apply bind_ok_inv in H as ([[|] msg] & w5 & _ & H); simpl negb in H.
      + apply bind_ok_inv in H as ([[|] emsg] & w6 & Hext & H); simpl negb in H.
        * injection H as <-.
          apply extract_ok_target in Hext as (_ & _ & Htarget).
          rewrite (extraction_target_gpkg self q s Hfmt Hq Hs Hf) in Htarget.
          apply Htarget. now apply zip_path_neq_gpkg_path.
        * apply bind_ok_inv in H as ([] & w7 & _ & H). discriminate H.
      + apply bind_ok_inv in H as ([] & w6 & _ & H).
        apply bind_ok_inv in H as (partial & w7 & _ & H).
        apply bind_ok_inv in H as ([] & w8 & _ & H). discriminate H. }
  split; [exact Hex |].
  destruct (process_quad_cached E self q s w' Hex) as (w'' & Hrun & Hfs & Hreq & _).
  exists w''. auto.
Qed.

Lemma process_quad_success_is_cached_sample :
  let r := _process_quad Sim.quad_env Sim.downloader "Foo_Bar" "NE" Sim.quad_world in
  lower (download_format Sim.downloader) = "gpkg"%string
  /\ r = (Ok true, snd r)
  /\ requests (snd r)
     = ["https://prd-tnm.s3.amazonaws.com/StagedProducts/TopoMapVector/NE/GPKG/VECTOR_Foo_Bar_NE_7_5_Min_GPKG.zip"%string]
  /\ exists w'',
       _process_quad Sim.quad_env Sim.downloader "Foo_Bar" "NE" (snd r)
       = (Ok true, w'')
       /\ requests w'' = requests (snd r) /\ fs w'' = fs (snd r).
Proof.
  intros r.
  assert (H : r = (Ok true, snd r)) by (vm_compute; reflexivity).
  split; [reflexivity |]. split; [exact H |].
  split; [vm_compute; reflexivity |].
  exact (proj2 (process_quad_success_is_cached Sim.quad_env Sim.downloader
                  "Foo_Bar" "NE" Sim.quad_world (snd r)
                  eq_refl eq_refl eq_refl eq_refl H)).
Defined.

(** X20. A downloader that was constructed has both data directories on
    disk, keeps the format and the index path as they were passed (the index
    path is not looked at), made no request, and constructing it again
    changes nothing. *)
Theorem init_creates_dirs_once
        (E : Env) (bbox : BoundingBox) (fmt gdb : string)
        (self : t) (w w' : world) :
  __init__ E bbox fmt gdb w = (Ok self, w') ->
  fs w' !! RAW_DIR E = Some Dir
  /\ fs w' !! EXTRACTED_DIR E = Some Dir
  /\ raw_dir self = RAW_DIR E /\ extracted_dir self = EXTRACTED_DIR E
  /\ download_format self = fmt /\ gdb_path self = gdb
  /\ requests w' = requests w
  /\ (forall p n, fs w !! p = Some n -> fs w' !! p = Some n)
  /\ __init__ E bbox fmt gdb w' = (Ok self, w').
Proof.
  unfold __init__. intros H.
  apply bind_ok_inv in H as ([] & w1 & H1 & H).
  apply bind_ok_inv in H as ([] & w2 & H2 & H).
  injection H as <- <-. cbn [raw_dir extracted_dir download_format gdb_path] in *.
  apply makedirs_ok_inv in H1 as (Hr & Hrd & Hq1 & _ & _ & _ & _ & Hk1).
  apply makedirs_ok_inv in H2 as (He & Hed & Hq2 & _ & _ & _ & _ & Hk2).
  assert (Hrd2 : fs w2 !! RAW_DIR E = Some Dir) by (apply Hk2; exact Hrd).
  repeat split; auto.
  - congruence.
  - unfold bind.
    rewrite (makedirs_existing _ _ Hr Hrd2), (makedirs_existing _ _ He Hed).
    reflexivity.
Qed.

Lemma init_creates_dirs_once_sample :
  let gdb := GDB_FILE Sim.quad_env in
  let r := __init__ Sim.quad_env Sim.box "GPKG" gdb Sim.world0 in
  r = (Ok Sim.downloader, snd r)
  /\ fs (snd r) !! RAW_DIR Sim.quad_env = Some Dir
  /\ __init__ Sim.quad_env Sim.box "GPKG" gdb (snd r) = (Ok Sim.downloader, snd r).
Proof.
  intros gdb r.
  assert (H : r = (Ok Sim.downloader, snd r)) by (vm_compute; reflexivity).
  split; [exact H |].
  pose proof (init_creates_dirs_once Sim.quad_env Sim.box "GPKG" gdb
                Sim.downloader Sim.world0 (snd r) H) as P.
  split; [exact (proj1 P) |].
  exact (proj2 (proj2 (proj2 (proj2 (proj2 (proj2 (proj2 (proj2 P)))))))).
Defined.

End QuadMore.
